(** * Timetabling core of the scheduling application (app.py)

    A shallow embedding of the parts of [app.py] that decide how slots are
    scored, which time blocks are legal, how conflicts are detected, how
    lecturers and sections are ordered, how the section generator picks
    lecturers and repairs section counts, and how the reschedule engine
    moves classes.

    Conventions.
    - Times are the strings of the program (["HH:MM"]); minutes are [Z].
    - A Python exception is [None] in the option monad.
    - Python's builtin [int] on strings is an interface ([PyInt]); the generic
      results hold for every implementation of it, concrete runs use a plain
      decimal reader.
    - Dictionaries that are only looked up are [gmap]s; dictionaries and lists
      whose order matters are lists. *)

From Stdlib Require Import ZArith Lia Bool Ascii.
From Stdlib Require String.
From stdpp Require Import base option list strings gmap sorting relations.

Local Open Scope Z_scope.

(** ** Python string primitives *)

Module Py.

(** [c in s] for a one-character needle. *)
Fixpoint contains (c : ascii) (s : string) : bool :=
  match s with
  | EmptyString => false
  | String a r => if Ascii.eqb a c then true else contains c r
  end.

(** [s.split(c)]: one more part than there are separators, empty parts kept.
    The accumulator holds the part being read, reversed. *)
Fixpoint split_acc (c : ascii) (s : string) (acc : string) : list string :=
  match s with
  | EmptyString => [String.rev acc]
  | String a r =>
      if Ascii.eqb a c then String.rev acc :: split_acc c r EmptyString
      else split_acc c r (String a acc)
  end.

Definition split (c : ascii) (s : string) : list string :=
  split_acc c s EmptyString.

(** ASCII white space as [str.strip] sees it. *)
Definition is_space (x : ascii) : bool :=
  match x with
  | "009" | "010" | "011" | "012" | "013"
  | "028" | "029" | "030" | "031" | " " => true
  | _ => false
  end%char.

Fixpoint lstrip (s : string) : string :=
  match s with
  | EmptyString => EmptyString
  | String a r => if is_space a then lstrip r else s
  end.

(** [s.strip()] *)
Definition strip (s : string) : string :=
  String.rev (lstrip (String.rev (lstrip s))).

(** Truthiness of a string: [if s]. *)
Definition truthy (s : string) : bool :=
  match s with EmptyString => false | _ => true end.

(** Decimal digits of a natural number, most significant first. *)
Definition digit_char (d : Z) : ascii :=
  ascii_of_nat (48 + Z.to_nat d).

Fixpoint digits_fuel (fuel : nat) (n : Z) (acc : string) : string :=
  match fuel with
  | O => acc
  | S f =>
      let acc' := String (digit_char (n mod 10)) acc in
      if n / 10 =? 0 then acc' else digits_fuel f (n / 10) acc'
  end.

Definition digits (n : Z) : string :=
  digits_fuel (S (Z.to_nat (Z.log2 n))) n EmptyString.

(** [f"{n:02d}"]: at least two characters, zero padded, sign first. *)
Definition fmt02d (n : Z) : string :=
  if n <? 0 then "-" +:+ digits (- n)
  else if n <? 10 then "0" +:+ digits n
  else digits n.

(** Value of a string of decimal digits. *)
Definition digit_val (a : ascii) : option Z :=
  Z.of_nat <$> Ascii.is_nat a.

Fixpoint decimal_acc (s : string) (acc : Z) : option Z :=
  match s with
  | EmptyString => Some acc
  | String a r =>
      match digit_val a with
      | Some d => decimal_acc r (10 * acc + d)
      | None => None
      end
  end.

Definition decimal (s : string) : option Z :=
  match s with
  | EmptyString => None
  | _ => decimal_acc s 0
  end.

End Py.

(** Python's [int(str)]: [None] stands for [ValueError]. *)
Class PyInt := py_int : string -> option Z.

(** The common case, a plain run of decimal digits, on which every Python
    agrees; used for the concrete runs below. *)
Definition decimal_int : PyInt := Py.decimal.

(** ** Configuration tables *)

Definition NON_LAB_ROOMS : list string :=
  ["Infor 1"; "Infor 2"; "Infor 3"; "Infor 4"; "Infor 5"; "Jawa 8A"; "Jawa 8B"].

Definition LAB_ROOMS : list string := ["Lab 1"; "Lab 2"; "Lab 3"; "Lab 4"].

Definition MIN_SKS_PER_DOSEN : Z := 8.
Definition MAX_SKS_PER_DOSEN : Z := 12.

(** Python's [TIMEBLOCKS] (Monday to Thursday), keyed by credit count. *)
Definition TIMEBLOCKS : gmap Z (list string) :=
  {[ 1 := ["08:00-08:50"; "08:50-09:40"; "09:40-10:30"; "10:30-11:20";
           "11:20-12:10"; "14:00-14:50"; "14:50-15:40"; "15:40-16:30"];
     2 := ["08:00-09:40"; "09:40-11:20"; "10:30-12:10"; "11:20-13:00";
           "14:00-15:40"; "15:40-17:20"];
     3 := ["08:00-10:30"; "09:40-12:10"; "10:30-13:00"; "14:00-16:30"] ]}.

Definition TIMEBLOCKS_JUMAT : gmap Z (list string) :=
  {[ 1 := ["08:00-08:50"; "08:50-09:40"; "09:40-10:30"; "10:30-11:20";
           "11:20-12:10"; "14:00-14:50"; "14:50-15:40"; "15:40-16:30"];
     2 := ["08:00-09:40"; "09:40-11:20"; "10:30-12:10";
           "14:00-15:40"; "15:40-17:20"];
     3 := ["08:00-10:30"; "09:40-12:10"; "14:00-16:30"] ]}.

(** [get_timeblocks_for_day(day, sks)]: [d.get(sks, d[3])]. *)
Definition get_timeblocks_for_day (day : string) (sks : Z) : list string :=
  if bool_decide (day = "Jumat")
  then default (default [] (TIMEBLOCKS_JUMAT !! 3)) (TIMEBLOCKS_JUMAT !! sks)
  else default (default [] (TIMEBLOCKS !! 3)) (TIMEBLOCKS !! sks).


(** ** Preference model (nested in [schedule_sections_with_ortools]) *)

(** One entry of [unavailable_time_ranges]; an absent key is [None] and gets
    the default of the corresponding [block.get(key, default)]. *)
Record time_range := {
  range_day : option string;
  range_start : option string;
  range_end : option string
}.

(** A lecturer's [preferences] dictionary; an absent key is the empty value
    that [prefs.get(key, empty)] yields. *)
Record preferences := {
  available_days : list string;
  preferred_times : gmap string (list string);
  unavailable_time_ranges : list time_range
}.

Definition no_preferences : preferences :=
  {| available_days := []; preferred_times := ∅; unavailable_time_ranges := [] |}.

Section PreferenceModel.
Context `{PyInt}.

(** [parse_time(t)]: 0 for an empty string or one without a colon, otherwise
    [h, m = map(int, t.split(':'))] which raises unless there are exactly two
    parts that [int] accepts. *)
Definition parse_time (t : string) : option Z :=
  if negb (Py.truthy t) || negb (Py.contains ":" t) then Some 0
  else match Py.split ":" t with
       | [a; b] => h ← py_int a; m ← py_int b; Some (h * 60 + m)
       | _ => None
       end.

(** [times_overlap(t1_start, t1_end, t2_start, t2_end)] *)
Definition times_overlap (t1_start t1_end t2_start t2_end : string)
  : option bool :=
  s1 ← parse_time t1_start; e1 ← parse_time t1_end;
  s2 ← parse_time t2_start; e2 ← parse_time t2_end;
  Some ((s1 <? e2) && (s2 <? e1)).

(** The first loop of [check_lecturer_preferences]: [Some true] when the loop
    returns [(False, 0)], [Some false] when it runs to its end. *)
Fixpoint scan_unavailable (blocks : list time_range) (day time_start time_end : string)
    (is_online : bool) : option bool :=
  match blocks with
  | [] => Some false
  | block :: rest =>
      let block_day := default "*" (range_day block) in
      let block_start := default "00:00" (range_start block) in
      let block_end := default "23:59" (range_end block) in
      if bool_decide (block_day = "*") || bool_decide (block_day = day) then
        ov ← times_overlap time_start time_end block_start block_end;
        if ov && negb is_online then Some true
        else scan_unavailable rest day time_start time_end is_online
      else scan_unavailable rest day time_start time_end is_online
  end.

(** One turn of the loop over a day's preferred ranges: does the range hold
    the whole slot?  [None] is the exception of a range with two or more
    dashes or with a bound that does not parse; a range without a dash is
    skipped ([Some false]). *)
Definition range_holds (pref_range : string) (slot_start_min slot_end_min : Z)
  : option bool :=
  if Py.contains "-" pref_range then
    match Py.split "-" pref_range with
    | [pref_start; pref_end] =>
        pref_start_min ← parse_time (Py.strip pref_start);
        pref_end_min ← parse_time (Py.strip pref_end);
        Some ((pref_start_min <=? slot_start_min) && (slot_end_min <=? pref_end_min))
    | _ => None
    end
  else Some false.

(** The [for pref_range in day_prefs: ... break / else:] loop: [Some true]
    when it breaks, [Some false] when the [else] branch runs. *)
Fixpoint scan_preferred (day_prefs : list string) (slot_start_min slot_end_min : Z)
  : option bool :=
  match day_prefs with
  | [] => Some false
  | pref_range :: rest =>
      inside ← range_holds pref_range slot_start_min slot_end_min;
      if (inside : bool) then Some true else scan_preferred rest slot_start_min slot_end_min
  end.

(** [check_lecturer_preferences(lect, day, time_start, time_end, strict_mode, is_online)]
    returning [(allowed, score)]. *)
Definition check_lecturer_preferences (lecturer_preferences : gmap string preferences)
    (lect day time_start time_end : string) (strict_mode is_online : bool)
  : option (bool * Z) :=
  let prefs := default no_preferences (lecturer_preferences !! lect) in
  rejected ← scan_unavailable (unavailable_time_ranges prefs) day time_start time_end is_online;
  if (rejected : bool) then Some (false, 0) else
  let avail := available_days prefs in
  let has_days := negb (bool_decide (avail = [])) in
  let day_ok := bool_decide (day ∈ avail) in
  if has_days && negb day_ok && strict_mode then Some (false, 0) else
  let day_penalty := if has_days && negb day_ok then 30 else 0 in
  let score := if has_days && day_ok then 75 else 50 in
  score ← match preferred_times prefs !! day with
          | Some ((_ :: _) as day_prefs) =>
              slot_start_min ← parse_time time_start;
              slot_end_min ← parse_time time_end;
              inside ← scan_preferred day_prefs slot_start_min slot_end_min;
              Some (if (inside : bool) then 100 else 60)
          | _ => Some score
          end;
  Some (true, Z.max 0 (score - day_penalty)).

End PreferenceModel.

(** [get_match_quality(score)] *)
Definition get_match_quality (score : Z) : string :=
  if 90 <=? score then "Excellent"
  else if 70 <=? score then "Good"
  else if 50 <=? score then "Acceptable"
  else "Poor".

(** ** Legal time blocks and durations *)

Section Durations.
Context `{PyInt}.

(** Length in minutes of a block ["HH:MM-HH:MM"], read the way every caller
    reads it: [start, end = tb.split('-')] and [parse_time] of both. *)
Definition block_duration (tb : string) : option Z :=
  match Py.split "-" tb with
  | [start; end_] =>
      s ← parse_time start; e ← parse_time end_; Some (e - s)
  | _ => None
  end.

End Durations.

(** [get_timeslots_for_day_hybrid(day)] *)
Definition get_timeslots_for_day_hybrid (day : string) : list (string * string) :=
  if bool_decide (day = "Jumat") then
    [("08:00", "08:50"); ("08:50", "09:40"); ("09:40", "10:30"); ("10:30", "11:20");
     ("13:50", "14:40"); ("14:40", "15:30"); ("15:30", "16:20"); ("16:20", "17:10")]
  else
    [("08:00", "08:50"); ("08:50", "09:40"); ("09:40", "10:30"); ("10:30", "11:20");
     ("11:20", "12:10"); ("12:10", "13:00"); ("13:59", "14:49"); ("14:49", "15:39");
     ("15:39", "16:29"); ("16:29", "17:19"); ("17:19", "18:09")].

(** [get_duration_slots_hybrid(sks)] *)
Definition get_duration_slots_hybrid (sks : Z) : Z :=
  if bool_decide (sks = 1) || bool_decide (sks = 2) then 2 else 3.

(** The times [run_ortools_scheduling_hybrid] writes into a section once the
    solver has chosen slot [t_idx] of [day]:
    [start_time = timeslots[t_idx][0]] and
    [end_time = timeslots[min(t_idx + duration - 1, len(timeslots) - 1)][1]]. *)
Definition hybrid_times (day : string) (sks : Z) (t_idx : nat) : option (string * string) :=
  let timeslots := get_timeslots_for_day_hybrid day in
  let duration := get_duration_slots_hybrid sks in
  let end_idx := Z.min (Z.of_nat t_idx + duration - 1) (Z.of_nat (length timeslots) - 1) in
  first ← timeslots !! t_idx;
  last ← timeslots !! Z.to_nat end_idx;
  Some (first.1, last.2).

(** ** Python's [sorted] *)

Section PySorted.
Context {A K : Type} (ltb : K -> K -> bool) (key : A -> K).

(** Put [x], which stood before every element of the sorted list [l], at its
    place: after the elements that must precede it, before its equals. *)
Fixpoint sorted_insert (reverse : bool) (x : A) (l : list A) : list A :=
  match l with
  | [] => [x]
  | y :: r =>
      if (if reverse then ltb (key x) (key y) else ltb (key y) (key x))
      then y :: sorted_insert reverse x r
      else x :: l
  end.

(** [sorted(l, key=key, reverse=reverse)]: a stable sort, ascending by key,
    or descending when [reverse]; equal keys keep their input order in both
    directions. *)
Definition py_sorted (reverse : bool) (l : list A) : list A :=
  foldr (sorted_insert reverse) [] l.

End PySorted.

(** ** Scheduling order of lecturers (greedy placement) *)

Section Restrictiveness.
Context {Sec : Type}.

(** [d.get(lect, [])] on the insertion-ordered [lecturer_sections_map]. *)
Fixpoint sections_of (lecturer_sections_map : list (string * list Sec)) (lect : string)
  : list Sec :=
  match lecturer_sections_map with
  | [] => []
  | (name, secs) :: rest =>
      if bool_decide (name = lect) then secs else sections_of rest lect
  end.

(** [calculate_restrictiveness(lect)] *)
Definition calculate_restrictiveness (lecturer_preferences : gmap string preferences)
    (lecturer_sections_map : list (string * list Sec)) (lect : string) : Z :=
  let prefs := default no_preferences (lecturer_preferences !! lect) in
  let score := 0 in
  let avail_days := available_days prefs in
  let score :=
    if negb (bool_decide (avail_days = []))
    then score + (5 - Z.of_nat (length avail_days)) * 100
    else score in
  let blocked_times := unavailable_time_ranges prefs in
  let score := score + Z.of_nat (length blocked_times) * 50 in
  let num_sections := Z.of_nat (length (sections_of lecturer_sections_map lect)) in
  score + num_sections * 10.

(** [sorted(lecturer_sections_map.items(),
            key=lambda x: calculate_restrictiveness(x[0]), reverse=True)] *)
Definition sorted_lecturers (lecturer_preferences : gmap string preferences)
    (lecturer_sections_map : list (string * list Sec)) : list (string * list Sec) :=
  py_sorted Z.ltb
    (fun x => calculate_restrictiveness lecturer_preferences lecturer_sections_map x.1)
    true lecturer_sections_map.

End Restrictiveness.

(** ** Donor candidates of the rebalancing pass *)

(** The fields of a section document that the rebalancing pass reads; an
    absent ["sks"] is [None] ([get('sks', 2)]), an absent ["is_lab"] is
    [false]. *)
Record section := {
  sec_sks : option Z;
  sec_is_lab : bool
}.

(** Order of the sort keys [(bool, bool, int)]: tuples compare
    lexicographically, [False < True]. *)
Definition bool_ltb (a b : bool) : bool := negb a && b.

Definition donor_key_ltb (k1 k2 : bool * bool * Z) : bool :=
  let '(a1, b1, c1) := k1 in
  let '(a2, b2, c2) := k2 in
  bool_ltb a1 a2
  || (Bool.eqb a1 a2 && (bool_ltb b1 b2 || (Bool.eqb b1 b2 && (c1 <? c2)))).

(** The sort key of a candidate [si]:
    [(schedule_result[si][1] == 'ONLINE', not sections[si].get('is_lab', False),
      int(sections[si].get('sks', 2)))]. *)
Definition donor_key (room : string) (sec : section) : bool * bool * Z :=
  (bool_decide (room = "ONLINE"), negb (sec_is_lab sec), default 2 (sec_sks sec)).

(** [donor_candidates] of one donor day: the indices placed on that day, in
    the order of [schedule_result], then sorted with [reverse=True].
    [schedule_result] is the insertion-ordered dictionary
    [si -> (day, room, tb)]; [None] is the [IndexError] of [sections[si]]. *)
Definition donor_candidates (sections : list section)
    (schedule_result : list (nat * (string * string * string))) (donor_day : string)
  : option (list nat) :=
  let on_day := List.filter (fun e => bool_decide (e.2.1.1 = donor_day)) schedule_result in
  keyed ← mapM (fun e => sec ← sections !! e.1; Some (e.1, donor_key e.2.1.2 sec)) on_day;
  Some ((py_sorted donor_key_ltb snd true keyed).*1).

(** ** Timetable documents *)

(** A document of the [schedules] collection.  A key the document lacks is
    [None] (what [slot.get(key)] returns); [_id] is the document's identity. *)
Record schedule_doc := {
  doc_id : Z;
  doc_dosen : option string;
  doc_day : option string;
  doc_start : option string;
  doc_end : option string;
  doc_room : option string;
  doc_course_name : option string;
  doc_section_name : option string;
  doc_section_label : option string;
  doc_sks : option Z;
  doc_course_id : option string
}.

(** Python truthiness of a value that is [None] or a string. *)
Definition truthy_opt (o : option string) : bool :=
  match o with Some s => Py.truthy s | None => false end.

(** [range(lo, hi, step)] for a positive [step]. *)
Definition py_range (lo hi step : Z) : list Z :=
  if lo <? hi
  then (fun k => lo + step * Z.of_nat k) <$> seq 0 (Z.to_nat ((hi - lo + step - 1) / step))
  else [].

Section MinuteHelpers.
Context `{PyInt}.

(** [_parse_minutes(time_str)]: Python's [None] result, which also covers
    every exception the [try] block catches, is [None]. *)
Definition _parse_minutes (time_str : option string) : option Z :=
  match time_str with
  | None => None
  | Some t =>
      if negb (Py.truthy t) then None
      else match Py.split ":" t with
           | [] => None
           | [h] => hv ← py_int h; Some (hv * 60 + 0)
           | h :: m :: _ => hv ← py_int h; mv ← py_int m; Some (hv * 60 + mv)
           end
  end.

(** [_minutes_to_time(minutes)] *)
Definition _minutes_to_time (minutes : Z) : string :=
  Py.fmt02d (minutes / 60) +:+ ":" +:+ Py.fmt02d (minutes mod 60).

(** [calculate_end_time(start_str, duration_minutes)] *)
Definition calculate_end_time (start_str : option string) (duration_minutes : Z)
  : option string :=
  match _parse_minutes start_str with
  | None => start_str
  | Some start_min => Some (_minutes_to_time (start_min + duration_minutes))
  end.

End MinuteHelpers.

(** ** Conflict detector at ten-minute granularity: [build_conflict_report] *)

(** What the detector remembers about the booking that holds a minute; [who]
    is the lecturer in the room index and the room in the lecturer index. *)
Record booking := {
  bk_course : option string;
  bk_section : option string;
  bk_who : option string;
  bk_start : option string;
  bk_end : option string
}.

(** One reported collision; [cf_party] is the room of a room conflict and the
    lecturer of a lecturer conflict. *)
Record conflict := {
  cf_type : string;
  cf_day : string;
  cf_minute : Z;
  cf_time : string;
  cf_party : string;
  cf_slot : booking;
  cf_existing : booking
}.

Record conflict_report := {
  room_conflict_count : nat;
  lecturer_conflict_count : nat;
  room_conflicts_sample : list conflict;
  lecturer_conflicts_sample : list conflict
}.

(** The four accumulators of the scan. *)
Record scan_state := {
  room_occ : gmap (string * string * Z) booking;
  lect_occ : gmap (string * string * Z) booking;
  room_conflicts : list conflict;
  lect_conflicts : list conflict
}.

Section ConflictReport.
Context `{PyInt}.

(** The body of [for minute in range(s_min, e_min, 10)]. *)
Definition scan_minute (slot : schedule_doc) (day : string) (end_ : option string)
    (st : scan_state) (minute : Z) : scan_state :=
  let room := doc_room slot in
  let lect := doc_dosen slot in
  let st :=
    match room with
    | Some r =>
        if Py.truthy r then
          let key := (day, r, minute) in
          let here := {| bk_course := doc_course_name slot;
                         bk_section := doc_section_name slot;
                         bk_who := lect;
                         bk_start := doc_start slot; bk_end := end_ |} in
          match room_occ st !! key with
          | Some existing =>
              {| room_occ := room_occ st; lect_occ := lect_occ st;
                 room_conflicts := room_conflicts st ++
                   [ {| cf_type := "room"; cf_day := day; cf_minute := minute;
                        cf_time := _minutes_to_time minute; cf_party := r;
                        cf_slot := here; cf_existing := existing |} ];
                 lect_conflicts := lect_conflicts st |}
          | None =>
              {| room_occ := <[key := here]> (room_occ st); lect_occ := lect_occ st;
                 room_conflicts := room_conflicts st;
                 lect_conflicts := lect_conflicts st |}
          end
        else st
    | None => st
    end in
  match lect with
  | Some l =>
      if Py.truthy l then
        let key2 := (day, l, minute) in
        let here := {| bk_course := doc_course_name slot;
                       bk_section := doc_section_name slot;
                       bk_who := room;
                       bk_start := doc_start slot; bk_end := end_ |} in
        match lect_occ st !! key2 with
        | Some existing =>
            {| room_occ := room_occ st; lect_occ := lect_occ st;
               room_conflicts := room_conflicts st;
               lect_conflicts := lect_conflicts st ++
                 [ {| cf_type := "lecturer"; cf_day := day; cf_minute := minute;
                      cf_time := _minutes_to_time minute; cf_party := l;
                      cf_slot := here; cf_existing := existing |} ] |}
        | None =>
            {| room_occ := room_occ st; lect_occ := <[key2 := here]> (lect_occ st);
               room_conflicts := room_conflicts st;
               lect_conflicts := lect_conflicts st |}
        end
      else st
  | None => st
  end.

(** The body of [for slot in schedule]. *)
Definition scan_slot (st : scan_state) (slot : schedule_doc) : scan_state :=
  let start := doc_start slot in
  let end_ :=
    if truthy_opt (doc_end slot) then doc_end slot
    else calculate_end_time start
           (if bool_decide (doc_sks slot = Some 1) || bool_decide (doc_sks slot = Some 2)
            then 100 else 150) in
  match doc_day slot, _parse_minutes start, _parse_minutes end_ with
  | Some day, Some s_min, Some e_min =>
      foldl (scan_minute slot day end_) st (py_range s_min e_min 10)
  | _, _, _ => st
  end.

(** [build_conflict_report(schedule)] *)
Definition build_conflict_report (schedule : list schedule_doc) : conflict_report :=
  let st := foldl scan_slot
              {| room_occ := ∅; lect_occ := ∅; room_conflicts := []; lect_conflicts := [] |}
              schedule in
  {| room_conflict_count := length (room_conflicts st);
     lecturer_conflict_count := length (lect_conflicts st);
     room_conflicts_sample := take 50 (room_conflicts st);
     lecturer_conflicts_sample := take 50 (lect_conflicts st) |}.

End ConflictReport.

(** ** Conflict detector by interval comparison: [check_schedule_conflicts] *)

Record lecturer_conflict := {
  lc_lecturer : string;
  lc_day : string;
  lc_course1 : string; lc_room1 : string; lc_time1 : string;
  lc_course2 : string; lc_room2 : string; lc_time2 : string;
  lc_id1 : Z; lc_id2 : Z
}.

Record room_conflict := {
  rc_room : string;
  rc_day : string;
  rc_course1 : string; rc_lecturer1 : option string; rc_time1 : string;
  rc_course2 : string; rc_lecturer2 : option string; rc_time2 : string;
  rc_id1 : Z; rc_id2 : Z
}.

(** [d[k].append(v)] on a [defaultdict(list)], keys in insertion order. *)
Fixpoint group_append {K V : Type} `{EqDecision K} (k : K) (v : V)
    (d : list (K * list V)) : list (K * list V) :=
  match d with
  | [] => [(k, [v])]
  | (k', vs) :: rest =>
      if decide (k = k') then (k', vs ++ [v]) :: rest
      else (k', vs) :: group_append k v rest
  end.

(** The pairs [(slots[i], slots[j])] with [i < j], in loop order. *)
Fixpoint ordered_pairs {V : Type} (l : list V) : list (V * V) :=
  match l with
  | [] => []
  | x :: rest => (pair x <$> rest) ++ ordered_pairs rest
  end.

Section CheckScheduleConflicts.
Context `{PyInt}.

(** The grouping loop: the two [defaultdict]s after the remaining slots. *)
Fixpoint group_slots (schedule : list schedule_doc)
    (lecturer_schedule : list (string * list (string * Z * Z * string * string * Z)))
    (room_schedule : list (string * string * list (Z * Z * string * option string * Z)))
  : option (list (string * list (string * Z * Z * string * string * Z))
            * list (string * string * list (Z * Z * string * option string * Z))) :=
  match schedule with
  | [] => Some (lecturer_schedule, room_schedule)
  | slot :: rest =>
      match doc_day slot, doc_room slot, doc_start slot, doc_end slot with
      | Some day, Some room, Some start_time, Some end_time =>
          if Py.truthy day && Py.truthy room && Py.truthy start_time && Py.truthy end_time
          then
            let course := default "Unknown" (doc_course_name slot) in
            start_min ← parse_time start_time;
            end_min ← parse_time end_time;
            let lecturer_schedule :=
              match doc_dosen slot with
              | Some lecturer =>
                  if Py.truthy lecturer
                  then group_append lecturer
                         (day, start_min, end_min, course, room, doc_id slot)
                         lecturer_schedule
                  else lecturer_schedule
              | None => lecturer_schedule
              end in
            let room_schedule :=
              if negb (bool_decide (room = "ONLINE"))
              then group_append (day, room)
                     (start_min, end_min, course, doc_dosen slot, doc_id slot)
                     room_schedule
              else room_schedule in
            group_slots rest lecturer_schedule room_schedule
          else group_slots rest lecturer_schedule room_schedule
      | _, _, _, _ => group_slots rest lecturer_schedule room_schedule
      end
  end.

Definition time_span (s e : Z) : string :=
  _minutes_to_time s +:+ "-" +:+ _minutes_to_time e.

Definition lecturer_conflicts_of
    (g : string * list (string * Z * Z * string * string * Z)) : list lecturer_conflict :=
  let '(lect, slots) := g in
  omap (fun p : (string * Z * Z * string * string * Z) * (string * Z * Z * string * string * Z) =>
          let '((day1, s1, e1, c1, r1, id1), (day2, s2, e2, c2, r2, id2)) := p in
          if bool_decide (day1 = day2) && (s1 <? e2) && (s2 <? e1)
          then Some {| lc_lecturer := lect; lc_day := day1;
                       lc_course1 := c1; lc_room1 := r1; lc_time1 := time_span s1 e1;
                       lc_course2 := c2; lc_room2 := r2; lc_time2 := time_span s2 e2;
                       lc_id1 := id1; lc_id2 := id2 |}
          else None)
       (ordered_pairs slots).

Definition room_conflicts_of
    (g : string * string * list (Z * Z * string * option string * Z)) : list room_conflict :=
  let '(day, room, slots) := g in
  omap (fun p : (Z * Z * string * option string * Z) * (Z * Z * string * option string * Z) =>
          let '((s1, e1, c1, l1, id1), (s2, e2, c2, l2, id2)) := p in
          if (s1 <? e2) && (s2 <? e1)
          then Some {| rc_room := room; rc_day := day;
                       rc_course1 := c1; rc_lecturer1 := l1; rc_time1 := time_span s1 e1;
                       rc_course2 := c2; rc_lecturer2 := l2; rc_time2 := time_span s2 e2;
                       rc_id1 := id1; rc_id2 := id2 |}
          else None)
       (ordered_pairs slots).

(** [check_schedule_conflicts(schedule)], the definition in force (the later
    of the two in the module): the pair
    [(lecturer_conflicts, room_conflicts)]. *)
Definition check_schedule_conflicts (schedule : list schedule_doc)
  : option (list lecturer_conflict * list room_conflict) :=
  '(lecturer_schedule, room_schedule) ← group_slots schedule [] [];
  Some (lecturer_schedule ≫= lecturer_conflicts_of,
        room_schedule ≫= room_conflicts_of).

End CheckScheduleConflicts.

(** ** Section generator ([calculate_sections_needed_hybrid]) *)

(** The fields the generator reads of a lecturer and of a course document;
    an absent ["sks"] is [None] ([get('sks', 3)]), an absent or empty
    ["selected_by"] is the empty list. *)
Record lecturer := { lec_name : string }.

Record course := {
  course_sks : option Z;
  selected_by : list string
}.

Definition sks_of (c : course) : Z := default 3 (course_sks c).

(** [{l['name']: idx for idx, l in enumerate(lecturers)}]: a later lecturer of
    the same name replaces the earlier one. *)
Definition lecturer_index_map (lecturers : list lecturer) : gmap string nat :=
  foldl (fun m e => <[lec_name e.2 := e.1]> m) ∅ (imap pair lecturers).

(** The loop that builds [allowed_indices_per_course]. *)
Definition allowed_indices (lecturers : list lecturer) (c : course) : list nat :=
  let allowed := omap (fun name => lecturer_index_map lecturers !! name) (selected_by c) in
  if bool_decide (allowed = []) then seq 0 (length lecturers) else allowed.

Definition allowed_indices_per_course (lecturers : list lecturer) (courses : list course)
  : list (list nat) :=
  allowed_indices lecturers <$> courses.

(** One course of [create_assignment].  The two random calls are an oracle:
    [num_dosens] is what [random.randint(1, max_pick)] returned and
    [positions] are the distinct positions [random.sample] drew.  [None]
    marks an oracle that no run can produce. *)
Definition assign_course (num_lecturers : nat) (allowed : list nat)
    (draw : Z * list nat) : option (list nat) :=
  let candidates := if bool_decide (allowed = []) then seq 0 num_lecturers else allowed in
  let max_pick := Z.min 3 (Z.of_nat (length candidates)) in
  let '(num_dosens, positions) := draw in
  if bool_decide (candidates = []) then Some []
  else if (1 <=? num_dosens) && (num_dosens <=? max_pick)
          && bool_decide (Z.of_nat (length positions) = num_dosens)
          && bool_decide (NoDup positions)
  then mapM (fun pos => candidates !! pos) positions
  else None.

(** [create_assignment()] *)
Fixpoint create_assignment (num_lecturers : nat) (allowed_per_course : list (list nat))
    (draws : list (Z * list nat)) : option (list (list nat)) :=
  match allowed_per_course, draws with
  | [], _ => Some []
  | allowed :: rest, draw :: draws' =>
      assigned ← assign_course num_lecturers allowed draw;
      assignment ← create_assignment num_lecturers rest draws';
      Some (assigned :: assignment)
  | _ :: _, [] => None
  end.

(** Keys of [{l['name']: v for l in lecturers_list}] in dictionary order: each
    name at its first occurrence. *)
Fixpoint dict_keys (names seen : list string) : list string :=
  match names with
  | [] => []
  | x :: rest =>
      if bool_decide (x ∈ seen) then dict_keys rest seen
      else x :: dict_keys rest (x :: seen)
  end.

(** [evaluate_assignment(individual, ...)]: a lecturer outside the allowed
    list costs 100000 and is not counted for any course. *)
Definition evaluate_assignment (lecturers : list lecturer) (allowed_per_course : list (list nat))
    (individual : list (list nat)) : Z :=
  let n := length lecturers in
  let allowed_set course_idx :=
    match allowed_per_course !! course_idx with
    | Some ((_ :: _) as a) => a
    | _ => seq 0 n
    end in
  let outside :=
    imap (fun course_idx lect_indices =>
            List.filter (fun lect_idx => negb (bool_decide (lect_idx ∈ allowed_set course_idx)))
                        lect_indices) individual in
  let penalty := 100000 * Z.of_nat (length (concat outside)) in
  let teaches name course_idx lect_indices :=
    existsb (fun lect_idx =>
               bool_decide (lect_idx ∈ allowed_set course_idx)
               && bool_decide (lec_name <$> lecturers !! lect_idx = Some name))
            lect_indices in
  let courses_of name :=
    List.filter (fun e => teaches name e.1 e.2) (imap pair individual) in
  let per_lecturer name :=
    let num_courses_assigned := Z.of_nat (length (courses_of name)) in
    if num_courses_assigned =? 0 then 50000
    else if num_courses_assigned =? 1 then 5000
    else if 3 <? num_courses_assigned then (num_courses_assigned - 3) * 2000
    else 0 in
  penalty + foldr Z.add 0 (per_lecturer <$> dict_keys (lec_name <$> lecturers) []).

(** The exchange [individual[i], individual[j] = individual[j], individual[i]]
    that the registered mutation operator (an index shuffle of the external
    evolutionary library) performs on the per-course lists. *)
Definition exchange {A : Type} (i j : nat) (individual : list A) : list A :=
  match individual !! i, individual !! j with
  | Some a, Some b => <[j := a]> (<[i := b]> individual)
  | _, _ => individual
  end.

(** ** Section-count repair ([repair_solution]) *)

(** What the pass needs of gene [idx]: [lecturers_list[lect_idx]['name']] and
    [courses_list[course_idx].get('sks', 3)]; [None] is the [IndexError]. *)
Definition gene_info (courses_list : list course) (lecturers_list : list lecturer)
    (pair_ : nat * nat) : option (string * Z) :=
  l ← lecturers_list !! pair_.1;
  c ← courses_list !! pair_.2;
  Some (lec_name l, sks_of c).

Section RepairPass.
(** The resolved genes, in the order of [pairs]. *)
Variable info : list (string * Z).

(** [dosen_sks[dosen_name]] after the loop that computes the current load. *)
Definition dosen_sks (individual : list Z) (dosen_name : string) : Z :=
  foldr Z.add 0
    ((fun e : (string * Z) * Z =>
        if bool_decide (e.1.1 = dosen_name) then e.2 * e.1.2 else 0)
     <$> zip info individual).

(** [dosen_indices[dosen_name]] *)
Definition dosen_indices (individual : list Z) (dosen_name : string) : list nat :=
  (imap pair (zip info individual)) ≫=
    (fun e => if bool_decide (e.2.1.1 = dosen_name) then [e.1] else []).

(** The sort key [courses_list[pairs[i][1]].get('sks', 3)] of a gene. *)
Definition gene_sks (i : nat) : Z := from_option snd 0 (info !! i).

(** One turn of [for _ in range(gap)] in the under-load branch. *)
Definition increase_once (sorted_indices : list nat) (individual : list Z) : list Z :=
  match List.find (fun idx => from_option (fun v => v <? 5) false (individual !! idx))
                  sorted_indices with
  | Some best_idx => alter (fun v => v + 1) best_idx individual
  | None => individual
  end.

(** One turn of [for _ in range(gap)] in the over-load branch. *)
Definition decrease_once (sorted_indices : list nat) (individual : list Z) : list Z :=
  match List.find (fun idx => from_option (fun v => 1 <? v) false (individual !! idx))
                  sorted_indices with
  | Some best_idx => alter (fun v => v - 1) best_idx individual
  | None => individual
  end.

(** The body of [for dosen_name, total_sks in dosen_sks.items()]; [start] is
    the individual the loads were computed from, the state is
    [(all_valid, individual)]. *)
Definition repair_lecturer (start : list Z) (st : bool * list Z) (dosen_name : string)
  : bool * list Z :=
  let '(all_valid, individual) := st in
  let total_sks := dosen_sks start dosen_name in
  let indices := dosen_indices start dosen_name in
  if total_sks =? 0 then st
  else if total_sks <? MIN_SKS_PER_DOSEN then
    let gap := MIN_SKS_PER_DOSEN - total_sks in
    let sorted_indices := py_sorted Z.ltb gene_sks false indices in
    (false, Nat.iter (Z.to_nat gap) (increase_once sorted_indices) individual)
  else if MAX_SKS_PER_DOSEN <? total_sks then
    let gap := total_sks - MAX_SKS_PER_DOSEN in
    let sorted_indices := py_sorted Z.ltb gene_sks true indices in
    (false, Nat.iter (Z.to_nat gap) (decrease_once sorted_indices) individual)
  else st.

(** One iteration of the [while] loop, up to the test of [all_valid]. *)
Definition repair_pass (names : list string) (individual : list Z) : bool * list Z :=
  foldl (repair_lecturer individual) (true, individual) names.

(** The [while iteration < max_iterations] loop; the result carries the
    final value of [iteration]. *)
Fixpoint repair_loop (remaining : nat) (iteration : nat) (names : list string)
    (individual : list Z) : nat * list Z :=
  match remaining with
  | O => (iteration, individual)
  | S remaining' =>
      let '(all_valid, individual') := repair_pass names individual in
      if all_valid then (S iteration, individual')
      else repair_loop remaining' (S iteration) names individual'
  end.

End RepairPass.

Definition max_iterations : nat := 200.

(** [repair_solution(individual, pairs, courses_list, lecturers_list)] together
    with the number of iterations it ran. *)
Definition repair_run (individual : list Z) (pairs : list (nat * nat))
    (courses_list : list course) (lecturers_list : list lecturer)
  : option (nat * list Z) :=
  info ← mapM (gene_info courses_list lecturers_list) (take (length individual) pairs);
  Some (repair_loop info max_iterations 0
          (dict_keys (lec_name <$> lecturers_list) []) individual).

Definition repair_solution (individual : list Z) (pairs : list (nat * nat))
    (courses_list : list course) (lecturers_list : list lecturer) : option (list Z) :=
  snd <$> repair_run individual pairs courses_list lecturers_list.

Section Tier2.
(** The run of the external evolutionary loop with its random draws fixed:
    from the repaired initial population to [hof2[0]]. *)
Variable evolve : list (list Z) -> list Z.

(** The second tier of [calculate_sections_needed_hybrid] from the drawn
    initial population [pop2] to [best_section_counts]. *)
Definition best_section_counts (pop2 : list (list Z)) (dosen_course_pairs : list (nat * nat))
    (courses : list course) (lecturers : list lecturer) : option (list Z) :=
  pop2 ← mapM (fun ind => repair_solution ind dosen_course_pairs courses lecturers) pop2;
  repair_solution (evolve pop2) dosen_course_pairs courses lecturers.

End Tier2.

(** ** Reschedule engine ([_reschedule_lecturer_classes_v2]) *)

Module Reschedule.

(** An approved document of the [unavailability_reports] collection. *)
Record approved_block := {
  ab_unavailable_days : list string;
  ab_unavailable_day : option string;
  ab_unavailable_time_type : option string;
  ab_specific_time : option string;
  ab_start_time : option string;
  ab_end_time : option string
}.

(** An entry of [lect_sched[day]]. *)
Record lect_slot := {
  ls_start : option string;
  ls_end : option string;
  ls_id : Z;
  ls_room : option string
}.

(** An entry of [room_occ[day][room]] (the fields the engine reads). *)
Record room_slot := {
  rs_start : option string;
  rs_end : option string
}.

(** An entry of [valid_candidates]. *)
Record candidate := {
  cand_day : string;
  cand_start : string;
  cand_end : string;
  cand_room : option string;
  cand_score : Z
}.

(** What a run mutates: the [schedules] collection, the two in-memory
    indexes, and the counters of the result. *)
Record engine_state := {
  db : list schedule_doc;
  lect_sched : gmap string (list lect_slot);
  room_occ : gmap (string * option string) (list room_slot);
  moved : nat;
  failed : list string
}.

(** The dictionary the engine returns (without its log texts), and the
    collection it leaves behind. *)
Record result := {
  res_moved : nat;
  res_failed : nat;
  res_failed_courses : list string;
  res_total : nat;
  res_unaffected : nat;
  res_db : list schedule_doc
}.

Inductive conflict_kind := LecturerConflict | RoomConflict.

#[global] Instance schedule_doc_eq_dec : EqDecision schedule_doc.
Proof. solve_decision. Defined.

(** [update_one({'_id': id}, {'$set': ...})]: the first document with that
    identity is rewritten. *)
Fixpoint update_one (id : Z) (f : schedule_doc -> schedule_doc)
    (docs : list schedule_doc) : list schedule_doc :=
  match docs with
  | [] => []
  | d :: rest =>
      if bool_decide (doc_id d = id) then f d :: rest
      else d :: update_one id f rest
  end.

Definition set_slot (day start end_ : string) (room : option string)
    (d : schedule_doc) : schedule_doc :=
  {| doc_id := doc_id d; doc_dosen := doc_dosen d; doc_day := Some day;
     doc_start := Some start; doc_end := Some end_; doc_room := room;
     doc_course_name := doc_course_name d; doc_section_name := doc_section_name d;
     doc_section_label := doc_section_label d; doc_sks := doc_sks d;
     doc_course_id := doc_course_id d |}.

Definition set_times (start end_ : string) (d : schedule_doc) : schedule_doc :=
  {| doc_id := doc_id d; doc_dosen := doc_dosen d; doc_day := doc_day d;
     doc_start := Some start; doc_end := Some end_; doc_room := doc_room d;
     doc_course_name := doc_course_name d; doc_section_name := doc_section_name d;
     doc_section_label := doc_section_label d; doc_sks := doc_sks d;
     doc_course_id := doc_course_id d |}.

(** A list comprehension whose condition can raise. *)
Fixpoint filter_opt {A : Type} (f : A -> option bool) (l : list A) : option (list A) :=
  match l with
  | [] => Some []
  | x :: rest =>
      keep ← f x;
      rest' ← filter_opt f rest;
      Some (if (keep : bool) then x :: rest' else rest')
  end.

(** [any(f(x) for x in l)] where [f] can raise: stops at the first hit. *)
Fixpoint any_opt {A : Type} (f : A -> option bool) (l : list A) : option bool :=
  match l with
  | [] => Some false
  | x :: rest =>
      hit ← f x;
      if (hit : bool) then Some true else any_opt f rest
  end.

(** The first element on which [f] yields a value; [f] can raise. *)
Fixpoint first_opt {A B : Type} (f : A -> option (option B)) (l : list A)
  : option (option B) :=
  match l with
  | [] => Some None
  | x :: rest =>
      r ← f x;
      match r with
      | Some b => Some (Some b)
      | None => first_opt f rest
      end
  end.

Section Engine.
Context `{PyInt}.

(** The arguments of the call. *)
Variables (lecturer_name unavailable_day : string) (unavailable_days : list string).
Variables (time_type specific_time start_time end_time : option string).
Variables (max_end_time : string) (enable_swap : bool).

(** What the other collections hold: the lecturer's [preferences]
    ([no_preferences] when the user document has none), the approved
    reports of the lecturer, and [is_lab] of the courses by identity. *)
Variables (prefs : preferences) (approved_blocks : list approved_block).
Variable course_is_lab : gmap string bool.

(** [t2m(t)]: [h, m = map(int, t.split(':'))]. *)
Definition t2m (t : string) : option Z :=
  match Py.split ":" t with
  | [a; b] => h ← py_int a; m ← py_int b; Some (h * 60 + m)
  | _ => None
  end.

(** [t2m] of a value that may be [None] (an [AttributeError]). *)
Definition t2m_opt (t : option string) : option Z := t ≫= t2m.

Definition m2t (m : Z) : string := _minutes_to_time m.

(** [overlap(s1, e1, s2, e2)], with the short circuit of [and]. *)
Definition overlap (s1 e1 s2 e2 : option string) : option bool :=
  a ← t2m_opt s1; b ← t2m_opt e2;
  if a <? b then c ← t2m_opt s2; d ← t2m_opt e1; Some (c <? d)
  else Some false.

Definition source_days : list string :=
  if bool_decide (unavailable_days = []) then [unavailable_day] else unavailable_days.

Definition allow_day_change : bool :=
  bool_decide (length source_days = 1%nat)
  || bool_decide (time_type = Some "specific") || bool_decide (time_type = Some "range").

(** [in_block(s, e)] *)
Definition in_block (s e : option string) : option bool :=
  if negb (truthy_opt s) || negb (truthy_opt e) then Some false
  else if bool_decide (time_type = Some "specific") && truthy_opt specific_time then
    a ← t2m_opt s; b ← t2m_opt specific_time; Some (Z.abs (a - b) <=? 10)
  else if bool_decide (time_type = Some "range") && truthy_opt start_time
          && truthy_opt end_time then
    a ← t2m_opt s; b ← t2m_opt end_time;
    if a <? b then c ← t2m_opt e; d ← t2m_opt start_time; Some (d <? c)
    else Some false
  else Some true.

(** [block.get('unavailable_days', []) or [block.get('unavailable_day')]] *)
Definition block_days (block : approved_block) : list (option string) :=
  match ab_unavailable_days block with
  | [] => [ab_unavailable_day block]
  | ds => Some <$> ds
  end.

(** [is_in_approved_block(day, slot_start, slot_end)] *)
Fixpoint is_in_approved_block_from (blocks : list approved_block)
    (day slot_start slot_end : string) : option bool :=
  match blocks with
  | [] => Some false
  | block :: rest =>
      if negb (bool_decide (Some day ∈ block_days block))
      then is_in_approved_block_from rest day slot_start slot_end
      else
        let block_time_type := default "full_day" (ab_unavailable_time_type block) in
        if bool_decide (block_time_type = "full_day") then Some true
        else
          hit1 ← (if bool_decide (block_time_type = "specific")
                     && truthy_opt (ab_specific_time block)
                  then a ← t2m slot_start; b ← t2m_opt (ab_specific_time block);
                       Some (Z.abs (a - b) <=? 10)
                  else Some false);
          if (hit1 : bool) then Some true else
          hit2 ← (if bool_decide (block_time_type = "range")
                     && truthy_opt (ab_start_time block) && truthy_opt (ab_end_time block)
                  then overlap (Some slot_start) (Some slot_end)
                         (ab_start_time block) (ab_end_time block)
                  else Some false);
          if (hit2 : bool) then Some true
          else is_in_approved_block_from rest day slot_start slot_end
  end.

Definition is_in_approved_block (day slot_start slot_end : string) : option bool :=
  is_in_approved_block_from approved_blocks day slot_start slot_end.

Definition DAYS : list string := ["Senin"; "Selasa"; "Rabu"; "Kamis"; "Jumat"].

(** The days the engine may move a class to. *)
Definition target_days : list string :=
  if allow_day_change then
    let excluded_days :=
      source_days ++
      (approved_blocks ≫= fun block =>
         if bool_decide (default "full_day" (ab_unavailable_time_type block) = "full_day")
         then omap id (block_days block) else []) in
    let target := List.filter (fun d => negb (bool_decide (d ∈ excluded_days))) DAYS in
    let available_days_pref := available_days prefs in
    let target :=
      if negb (bool_decide (available_days_pref = [])) then
        let target' := List.filter (fun d => bool_decide (d ∈ available_days_pref)) target in
        if bool_decide (target' = [])
        then List.filter (fun d => negb (bool_decide (d ∈ excluded_days))) available_days_pref
        else target'
      else target in
    if bool_decide (target = []) then source_days else target
  else source_days.

(** [overlaps_lunch(day, cs, ce)] *)
Definition overlaps_lunch (day cs ce : string) : option bool :=
  if bool_decide (day = "Jumat") then Some false
  else
    a ← t2m cs; b ← t2m "14:00";
    if b <=? a then Some false
    else overlap (Some cs) (Some ce) (Some "13:00") (Some "14:00").

(** [generate_candidates(duration)] *)
Definition generate_candidates (duration : Z) : option (list (string * string)) :=
  max_end_m ← t2m max_end_time;
  end_limit ← (if max_end_m =? 0 then t2m "17:00" else Some max_end_m);
  first ← t2m "08:00";
  Some (omap (fun start_m =>
                let end_m := start_m + duration in
                if end_limit <? end_m then None else Some (m2t start_m, m2t end_m))
             (py_range first (end_limit - duration + 1) 50)).

(** [conflicts(day, s, e, room, ignore_id)]; [Some None] is Python's
    [None], no conflict. *)
Definition conflicts (st : engine_state) (day s e : string) (room : option string)
    (ignore_id : option Z) : option (option conflict_kind) :=
  lect_hit ← any_opt (fun slot =>
                if bool_decide (ignore_id = Some (ls_id slot)) then Some false
                else overlap (Some s) (Some e) (ls_start slot) (ls_end slot))
              (default [] (lect_sched st !! day));
  if (lect_hit : bool) then Some (Some LecturerConflict) else
  let rn := if truthy_opt room then Py.strip <$> room else room in
  room_hit ← any_opt (fun slot => overlap (Some s) (Some e) (rs_start slot) (rs_end slot))
               (default [] (room_occ st !! (day, rn)));
  Some (if (room_hit : bool) then Some RoomConflict else None).

(** [blocked(day, cs, ce)] *)
Definition blocked (day cs ce : string) : option bool :=
  if negb (bool_decide (day ∈ source_days)) then Some false
  else in_block (Some cs) (Some ce).

(** The loop over [unavailable_time_ranges] that both tiers run: [Some true]
    when it ends with [pref_allowed = False]. *)
Fixpoint pref_rejected (blocks : list time_range) (day cs ce : string)
    (is_online : bool) : option bool :=
  match blocks with
  | [] => Some false
  | block :: rest =>
      let block_day := default "*" (range_day block) in
      let block_start := default "00:00" (range_start block) in
      let block_end := default "23:59" (range_end block) in
      if bool_decide (block_day = "*") || bool_decide (block_day = day) then
        ov ← overlap (Some cs) (Some ce) (Some block_start) (Some block_end);
        if ov && negb is_online then Some true
        else pref_rejected rest day cs ce is_online
      else pref_rejected rest day cs ce is_online
  end.

(** The [for pref_range in day_prefs] loop of the engine's own scoring. *)
Fixpoint within_preferred (day_prefs : list string) (cs_min ce_min : Z) : option bool :=
  match day_prefs with
  | [] => Some false
  | pref_range :: rest =>
      inside ← (if Py.contains "-" pref_range then
                  match Py.split "-" pref_range with
                  | [pref_start; pref_end] =>
                      pref_start_min ← t2m (Py.strip pref_start);
                      pref_end_min ← t2m (Py.strip pref_end);
                      Some ((pref_start_min <=? cs_min) && (ce_min <=? pref_end_min))
                  | _ => None
                  end
                else Some false);
      if (inside : bool) then Some true else within_preferred rest cs_min ce_min
  end.

(** [pref_score] of a candidate slot for the class that stood at
    [oday s-e]. *)
Definition pref_score (oday s e day cs ce : string) : option Z :=
  let avail := available_days prefs in
  let day_ok := negb (bool_decide (avail = [])) && bool_decide (day ∈ avail) in
  is_reschedule_from_block ←
    (if bool_decide (time_type = Some "range") && truthy_opt start_time
        && truthy_opt end_time && bool_decide (oday ∈ source_days)
     then overlap (Some s) (Some e) start_time end_time
     else Some false);
  if (is_reschedule_from_block : bool) then Some (if day_ok then 70 else 40)
  else
    let base := if day_ok then 75 else 50 in
    match preferred_times prefs !! day with
    | Some ((_ :: _) as day_prefs) =>
        cs_min ← t2m cs; ce_min ← t2m ce;
        inside ← within_preferred day_prefs cs_min ce_min;
        Some (if (inside : bool) then 100 else if day_ok then 60 else base)
    | _ => Some base
    end.

(** The tests a candidate time passes before any room is tried; both tiers
    run them in this order. *)
Definition slot_open (day cs ce : string) (is_online : bool) : option bool :=
  b ← blocked day cs ce;
  if (b : bool) then Some false else
  l ← overlaps_lunch day cs ce;
  if (l : bool) then Some false else
  a ← is_in_approved_block day cs ce;
  if (a : bool) then Some false else
  r ← pref_rejected (unavailable_time_ranges prefs) day cs ce is_online;
  Some (negb r).

(** One turn of the candidate loop of the first tier: the candidate found
    for [day cs-ce], if any. *)
Definition simple_candidate (st : engine_state) (oday s e : string)
    (room : option string) (room_pool : list string) (is_online : bool)
    (slot : string * (string * string)) : option (option candidate) :=
  let '(day, (cs, ce)) := slot in
  open ← slot_open day cs ce is_online;
  if negb open then Some None else
  score ← pref_score oday s e day cs ce;
  let rooms_to_try :=
    room :: (Some <$> List.filter (fun r => negb (bool_decide (Some r = room))) room_pool) in
  try_room ← first_opt (B := option string) (fun try_room : option string =>
                conflict_type ← conflicts st day cs ce try_room None;
                Some (match conflict_type with
                      | None => Some try_room
                      | Some _ => None
                      end))
              rooms_to_try;
  Some (option_map (fun r => {| cand_day := day; cand_start := cs; cand_end := ce;
                                cand_room := r; cand_score := score |}) try_room).

(** The class leaves its old place in both indexes. *)
Definition release (st_lect : gmap string (list lect_slot))
    (st_room : gmap (string * option string) (list room_slot))
    (cid : Z) (oday s e : string) (room : option string)
  : gmap string (list lect_slot) * gmap (string * option string) (list room_slot) :=
  let lect :=
    match st_lect !! oday with
    | Some slots =>
        <[oday := List.filter (fun slot => negb (bool_decide (ls_id slot = cid))) slots]> st_lect
    | None => st_lect
    end in
  let rooms :=
    match st_room !! (oday, room) with
    | Some slots =>
        <[(oday, room) :=
            List.filter (fun slot => negb (bool_decide (rs_start slot = Some s)
                                          && bool_decide (rs_end slot = Some e))) slots]>
          st_room
    | None => st_room
    end in
  (lect, rooms).

(** [d[k].append(v)] on the two indexes. *)
Definition book_lect (m : gmap string (list lect_slot)) (day : string) (v : lect_slot) :=
  <[day := default [] (m !! day) ++ [v]]> m.

Definition book_room (m : gmap (string * option string) (list room_slot))
    (day : string) (room : option string) (v : room_slot) :=
  <[(day, room) := default [] (m !! (day, room)) ++ [v]]> m.

(** The commit of the first tier: the best candidate is written. *)
Definition commit_simple (st : engine_state) (cid : Z) (oday s e : string)
    (room : option string) (best : candidate) : engine_state :=
  let '(lect, rooms) := release (lect_sched st) (room_occ st) cid oday s e room in
  {| db := update_one cid
             (set_slot (cand_day best) (cand_start best) (cand_end best) (cand_room best))
             (db st);
     lect_sched := book_lect lect (cand_day best)
                     {| ls_start := Some (cand_start best); ls_end := Some (cand_end best);
                        ls_id := cid; ls_room := cand_room best |};
     room_occ := book_room rooms (cand_day best) (cand_room best)
                   {| rs_start := Some (cand_start best); rs_end := Some (cand_end best) |};
     moved := S (moved st);
     failed := failed st |}.

(** Order of the sort keys [(-score, t2m(start))]. *)
Definition cand_key_ltb (k1 k2 : Z * Z) : bool :=
  (k1.1 <? k2.1) || ((k1.1 =? k2.1) && (k1.2 <? k2.2)).

(** The first tier for one class: [Some None] when no candidate is valid. *)
Definition try_simple (st : engine_state) (cid : Z) (oday s e : string)
    (room : option string) (room_pool : list string) (is_online : bool)
    (preferred_days : list string) (cand_times : list (string * string))
  : option (option engine_state) :=
  found ← mapM (simple_candidate st oday s e room room_pool is_online)
            (preferred_days ≫= fun day => pair day <$> cand_times);
  let valid_candidates := omap id found in
  keyed ← mapM (fun c => m ← t2m (cand_start c); Some (c, (- cand_score c, m)))
            valid_candidates;
  match py_sorted cand_key_ltb snd false keyed with
  | (best, _) :: _ => Some (Some (commit_simple st cid oday s e room best))
  | [] => Some None
  end.

(** The relocation of the blocker [b] to [bs-be] followed by the placement
    of the class at [day cs-ce]: the two writes of the swap tier. *)
Definition commit_swap (st : engine_state) (cid : Z) (oday s e : string)
    (room : option string) (day cs ce : string) (b : lect_slot)
    (blocker_room : option string) (bs be : string) : engine_state :=
  let db1 := update_one (ls_id b) (set_times bs be) (db st) in
  let lect1 :=
    book_lect
      (<[day := List.filter (fun slot => negb (bool_decide (ls_id slot = ls_id b)))
                  (default [] (lect_sched st !! day))]> (lect_sched st))
      day {| ls_start := Some bs; ls_end := Some be; ls_id := ls_id b;
             ls_room := blocker_room |} in
  let rooms1 :=
    book_room
      (<[(day, blocker_room) :=
           List.filter (fun slot => negb (bool_decide (rs_start slot = ls_start b)
                                         && bool_decide (rs_end slot = ls_end b)))
               (default [] (room_occ st !! (day, blocker_room)))]> (room_occ st))
      day blocker_room {| rs_start := Some bs; rs_end := Some be |} in
  let db2 := update_one cid (fun d => set_slot day cs ce (doc_room d) d) db1 in
  let '(lect2, rooms2) := release lect1 rooms1 cid oday s e room in
  {| db := db2;
     lect_sched := book_lect lect2 day
                     {| ls_start := Some cs; ls_end := Some ce; ls_id := cid;
                        ls_room := room |};
     room_occ := book_room rooms2 day room {| rs_start := Some cs; rs_end := Some ce |};
     moved := S (moved st);
     failed := failed st |}.

(** One turn of the candidate loop of the swap tier: the state after a
    swap at [day cs-ce], if one is made. *)
Definition swap_at (affected : list schedule_doc) (st : engine_state) (cid : Z)
    (oday s e : string) (room : option string) (is_online : bool)
    (slot : string * (string * string)) : option (option engine_state) :=
  let '(day, (cs, ce)) := slot in
  open ← slot_open day cs ce is_online;
  if negb open then Some None else
  conflict_type ← conflicts st day cs ce room None;
  match conflict_type with
  | Some LecturerConflict =>
      blockers ← filter_opt (fun slot => overlap (Some cs) (Some ce) (ls_start slot) (ls_end slot))
                   (default [] (lect_sched st !! day));
      match blockers with
      | [b] =>
          is_affected ← any_opt (fun a =>
                           ov ← overlap (ls_start b) (ls_end b) (doc_start a) (doc_end a);
                           Some (ov && bool_decide (doc_id a = ls_id b)))
                         affected;
          if (is_affected : bool) then Some None else
          match List.find (fun d => bool_decide (doc_id d = ls_id b)) (db st) with
          | Some b_doc =>
              b_end ← t2m_opt (ls_end b); b_start ← t2m_opt (ls_start b);
              b_candidates ← generate_candidates (b_end - b_start);
              first_opt (fun cand : string * string =>
                           let '(bs, be) := cand in
                           if bool_decide ((bs, be) = (cs, ce)) then Some None else
                           bl ← blocked day bs be;
                           if (bl : bool) then Some None else
                           ab ← is_in_approved_block day bs be;
                           if (ab : bool) then Some None else
                           c ← conflicts st day bs be (doc_room b_doc) (Some (ls_id b));
                           match c with
                           | Some _ => Some None
                           | None =>
                               Some (Some (commit_swap st cid oday s e room day cs ce b
                                             (doc_room b_doc) bs be))
                           end)
                        b_candidates
          | None => Some None
          end
      | _ => Some None
      end
  | _ => Some None
  end.

(** The body of [for cls in affected]. *)
Definition process_class (affected : list schedule_doc) (st : engine_state)
    (cls : schedule_doc) : option engine_state :=
  let cid := doc_id cls in
  oday ← doc_day cls; s ← doc_start cls; e ← doc_end cls;
  let room := doc_room cls in
  let is_online := bool_decide (room = Some "ONLINE") in
  e_min ← t2m e; s_min ← t2m s;
  let duration := e_min - s_min in
  let is_lab :=
    match room with
    | Some r =>
        if bool_decide (r ∈ NON_LAB_ROOMS) then false
        else if bool_decide (r ∈ LAB_ROOMS) then true
        else default false (doc_course_id cls ≫= fun c => course_is_lab !! c)
    | None => default false (doc_course_id cls ≫= fun c => course_is_lab !! c)
    end in
  let room_pool :=
    if is_online then ["ONLINE"] else if is_lab then LAB_ROOMS else NON_LAB_ROOMS in
  let preferred_days :=
    if allow_day_change
    then oday :: List.filter (fun d => negb (bool_decide (d = oday))) target_days
    else [oday] in
  cand_times ← generate_candidates duration;
  simple ← try_simple st cid oday s e room room_pool is_online preferred_days cand_times;
  match simple with
  | Some st' => Some st'
  | None =>
      swapped ← (if enable_swap
                 then first_opt (swap_at affected st cid oday s e room is_online)
                        (preferred_days ≫= fun day => pair day <$> cand_times)
                 else Some None);
      match swapped with
      | Some st' => Some st'
      | None =>
          Some {| db := db st; lect_sched := lect_sched st; room_occ := room_occ st;
                  moved := moved st;
                  failed := failed st ++
                    [default "None" (doc_course_name cls) +:+ " ("
                     +:+ default "-" (doc_section_label cls) +:+ ")"] |}
      end
  end.

(** The two indexes as the engine builds them from the collection. *)
Definition initial_lect_sched (docs : list schedule_doc) : gmap string (list lect_slot) :=
  foldl (fun m d =>
           if bool_decide (doc_dosen d = Some lecturer_name) then
             match doc_day d with
             | Some day =>
                 if Py.truthy day
                 then book_lect m day {| ls_start := doc_start d; ls_end := doc_end d;
                                         ls_id := doc_id d; ls_room := doc_room d |}
                 else m
             | None => m
             end
           else m) ∅ docs.

Definition initial_room_occ (docs : list schedule_doc)
  : gmap (string * option string) (list room_slot) :=
  foldl (fun m d =>
           match doc_day d, doc_room d with
           | Some day, Some r =>
               if Py.truthy day && Py.truthy r
               then book_room m day (Some (Py.strip r))
                      {| rs_start := doc_start d; rs_end := doc_end d |}
               else m
           | _, _ => m
           end) ∅ docs.

(** [_reschedule_lecturer_classes_v2(...)] run on the collection [docs]. *)
Definition _reschedule_lecturer_classes_v2 (docs : list schedule_doc) : option result :=
  let raw :=
    source_days ≫= fun d =>
      List.filter (fun c => bool_decide (doc_dosen c = Some lecturer_name)
                            && bool_decide (doc_day c = Some d)) docs in
  affected ← filter_opt (fun c => in_block (doc_start c) (doc_end c)) raw;
  let unaffected := List.filter (fun c => negb (bool_decide (c ∈ affected))) raw in
  if bool_decide (affected = []) then
    Some {| res_moved := 0; res_failed := 0; res_failed_courses := []; res_total := 0;
            res_unaffected := length unaffected; res_db := docs |}
  else
    _ ← t2m max_end_time;
    st ← foldl (fun acc cls => st ← acc; process_class affected st cls)
           (Some {| db := docs; lect_sched := initial_lect_sched docs;
                    room_occ := initial_room_occ docs; moved := 0; failed := [] |})
           affected;
    Some {| res_moved := moved st; res_failed := length (failed st);
            res_failed_courses := failed st; res_total := length affected;
            res_unaffected := length unaffected; res_db := db st |}.

End Engine.

End Reschedule.

(** ** Well-formed inputs of the preference model *)

Section WellFormedTimes.
Context `{PyInt}.

(** [parse_time] accepts the string. *)
Definition time_ok (t : string) : bool := bool_decide (is_Some (parse_time t)).

(** A preferred range the scoring loop can read: no dash at all (the loop
    skips it), or two bounds that parse. *)
Definition range_ok (pref_range : string) : bool :=
  negb (Py.contains "-" pref_range)
  || match Py.split "-" pref_range with
     | [a; b] => time_ok (Py.strip a) && time_ok (Py.strip b)
     | _ => false
     end.

(** Every time the model may read for a slot on [day] parses. *)
Definition times_well_formed (prefs : preferences) (day time_start time_end : string)
  : bool :=
  time_ok time_start && time_ok time_end
  && forallb (fun block => time_ok (default "00:00" (range_start block))
                           && time_ok (default "23:59" (range_end block)))
       (unavailable_time_ranges prefs)
  && forallb range_ok (default [] (preferred_times prefs !! day)).

End WellFormedTimes.

(** The same preferences with no blocked time ranges. *)
Definition without_unavailable (prefs : preferences) : preferences :=
  {| available_days := available_days prefs;
     preferred_times := preferred_times prefs;
     unavailable_time_ranges := [] |}.

(** ** Shapes of a change to the section counts *)

Definition counts_ok (individual : list Z) : Prop :=
  Forall (fun v => 1 <= v <= 5) individual.

(** [a] and [b] agree except at indices of [touched], where [b] is larger
    and at most 5. *)
Definition raised (touched : list nat) (a b : list Z) : Prop :=
  length a = length b
  /\ forall idx v v', a !! idx = Some v -> b !! idx = Some v' ->
       v = v' \/ (idx ∈ touched /\ v < v' /\ v' <= 5).

(** ... where [b] is smaller and at least 1. *)
Definition lowered (touched : list nat) (a b : list Z) : Prop :=
  length a = length b
  /\ forall idx v v', a !! idx = Some v -> b !! idx = Some v' ->
       v = v' \/ (idx ∈ touched /\ v' < v /\ 1 <= v').

(** ** What the repair pass is held to *)

Section RepairContract.
Variable info : list (string * Z).
Variable names : list string.

(** Every lecturer has no load at all or a load within the band. *)
Definition in_band (individual : list Z) : Prop :=
  forall name, name ∈ names ->
    dosen_sks info individual name = 0
    \/ MIN_SKS_PER_DOSEN <= dosen_sks info individual name <= MAX_SKS_PER_DOSEN.

(** Every count that differs between [start] and [next] belongs to a gene
    whose lecturer was, at [start], under the minimum when the count grew and
    over the maximum when it shrank. *)
Definition justified (start next : list Z) : Prop :=
  forall idx v v', start !! idx = Some v -> next !! idx = Some v' -> v <> v' ->
    exists name sks, info !! idx = Some (name, sks)
      /\ (v < v' -> dosen_sks info start name < MIN_SKS_PER_DOSEN)
      /\ (v' < v -> MAX_SKS_PER_DOSEN < dosen_sks info start name).

(** An iteration of the loop that does not end it. *)
Definition modifying_pass (start next : list Z) : Prop :=
  repair_pass info names start = (false, next)
  /\ justified start next
  /\ ~ in_band start.

End RepairContract.

(** What holds of the state [(all_valid, individual)] of the loop over the
    lecturers once the lecturers of [processed] have had their turn. *)
Definition pass_invariant (info : list (string * Z)) (start : list Z)
    (processed : list string) (st : bool * list Z) : Prop :=
  length st.2 = length start
  /\ counts_ok st.2
  /\ justified info start st.2
  /\ (st.1 = true -> st.2 = start /\ in_band info processed start)
  /\ (st.1 = false -> ~ in_band info processed start).

(** ** Sample data *)

(** A lecturer who teaches on Monday, prefers 08:00-10:00 and is blocked
    from 10:00 to 12:00; and one who is only blocked on Monday morning. *)
Definition sample_preferences : gmap string preferences :=
  {[ "Dosen A" :=
       {| available_days := ["Senin"];
          preferred_times := {[ "Senin" := ["08:00-10:00"] ]};
          unavailable_time_ranges :=
            [ {| range_day := Some "Senin"; range_start := Some "10:00";
                 range_end := Some "12:00" |} ] |};
     "Dosen B" :=
       {| available_days := [];
          preferred_times := ∅;
          unavailable_time_ranges :=
            [ {| range_day := Some "Senin"; range_start := Some "08:00";
                 range_end := Some "12:00" |} ] |} ]}.

(** Two regular lecturers without stored preferences, the second with more
    sections. *)
Definition sample_sections_map : list (string * list nat) :=
  [("Dosen A", [0%nat]); ("Dosen B", [1%nat; 2%nat])].

(** Monday's placements before rebalancing: a two-credit and a three-credit
    class, both in ordinary rooms. *)
Definition sample_sections : list section :=
  [ {| sec_sks := Some 2; sec_is_lab := false |};
    {| sec_sks := Some 3; sec_is_lab := false |} ].

Definition sample_schedule_result : list (nat * (string * string * string)) :=
  [ (0%nat, ("Senin", "Infor 1", "08:00-09:40"));
    (1%nat, ("Senin", "Infor 2", "08:00-10:30")) ].

(** Two online classes of different lecturers at the same time. *)
Definition online_pair : list schedule_doc :=
  [ {| doc_id := 1; doc_dosen := Some "Dosen A"; doc_day := Some "Rabu";
       doc_start := Some "08:00"; doc_end := Some "09:40"; doc_room := Some "ONLINE";
       doc_course_name := Some "Etika Profesi"; doc_section_name := Some "A1";
       doc_section_label := Some "A1"; doc_sks := Some 2; doc_course_id := None |};
    {| doc_id := 2; doc_dosen := Some "Dosen B"; doc_day := Some "Rabu";
       doc_start := Some "08:00"; doc_end := Some "09:40"; doc_room := Some "ONLINE";
       doc_course_name := Some "Kewirausahaan"; doc_section_name := Some "A1";
       doc_section_label := Some "A1"; doc_sks := Some 2; doc_course_id := None |} ].

(** Two lecturers, and a course whose [selected_by] holds a login name
    instead of the display name of a lecturer. *)
Definition sample_lecturers : list lecturer :=
  [ {| lec_name := "Dosen A" |}; {| lec_name := "Dosen B" |} ].

Definition sample_courses : list course :=
  [ {| course_sks := Some 3; selected_by := ["dosenb"] |} ].

(** Two courses of three and two credits, each lecturer teaching one. *)
Definition repair_courses : list course :=
  [ {| course_sks := Some 3; selected_by := ["Dosen A"] |};
    {| course_sks := Some 2; selected_by := ["Dosen B"] |} ].

Definition repair_pairs : list (nat * nat) := [(0%nat, 0%nat); (1%nat, 1%nat)].

(** A course that names its lecturer by the lecturer's display name. *)
Definition named_courses : list course :=
  [ {| course_sks := Some 3; selected_by := ["Dosen B"] |} ].

(** A Monday on which the first lecturer, who teaches on Mondays only, has
    four classes, and the second lecturer uses the first lecturer's morning
    room in the next block. *)
Definition monday_doc (id : Z) (dosen start end_ room course : string) : schedule_doc :=
  {| doc_id := id; doc_dosen := Some dosen; doc_day := Some "Senin";
     doc_start := Some start; doc_end := Some end_; doc_room := Some room;
     doc_course_name := Some course; doc_section_name := Some "A1";
     doc_section_label := Some "A1"; doc_sks := Some 2; doc_course_id := None |}.

Definition monday_timetable : list schedule_doc :=
  [ monday_doc 1 "Dosen A" "08:00" "09:40" "Infor 1" "Algoritma";
    monday_doc 2 "Dosen A" "09:40" "11:20" "Infor 2" "Basis Data";
    monday_doc 3 "Dosen A" "11:20" "13:00" "Infor 2" "Jaringan";
    monday_doc 4 "Dosen A" "14:40" "16:20" "Infor 2" "Statistika";
    monday_doc 5 "Dosen B" "09:40" "11:20" "Infor 1" "Kalkulus" ].

Definition monday_preferences : preferences :=
  {| available_days := ["Senin"]; preferred_times := ∅; unavailable_time_ranges := [] |}.

(** The first lecturer reports Monday 08:00-09:00 as unavailable. *)
Definition monday_repair : option Reschedule.result :=
  Reschedule._reschedule_lecturer_classes_v2 (H := decimal_int)
    "Dosen A" "Senin" ["Senin"] (Some "range") None (Some "08:00") (Some "09:00") "17:30" true
    monday_preferences [] ∅ monday_timetable.

(** Where a document of the collection stands: day, start, end and room. *)
Definition placement_of (id : Z) (docs : list schedule_doc)
  : option (option string * option string * option string * option string) :=
  (fun d => (doc_day d, doc_start d, doc_end d, doc_room d))
  <$> List.find (fun d => bool_decide (doc_id d = id)) docs.

(** The room conflicts of a timetable, each cut down to room, day and the
    identities of the two documents. *)
Definition room_conflict_summary (docs : list schedule_doc)
  : option (list (string * string * Z * Z)) :=
  match check_schedule_conflicts (H := decimal_int) docs with
  | Some (_, rcs) => Some (List.map (fun c => (rc_room c, rc_day c, rc_id1 c, rc_id2 c)) rcs)
  | None => None
  end.

(** ** Helpers of the earlier schedulers *)

(** [_times_overlap(s1, e1, s2, e2)] on values that are minutes or [None]. *)
Definition _times_overlap (s1 e1 s2 e2 : option Z) : bool :=
  match s1, e1, s2, e2 with
  | Some s1, Some e1, Some s2, Some e2 => (s1 <? e2) && (s2 <? e1)
  | _, _, _, _ => true
  end.

Section ValidStarts.
Context `{PyInt}.

(** The [while current + duration_minutes <= end_block] loop of
    [get_valid_starts]; [turns] bounds the number of turns. *)
Fixpoint starts_loop (turns : nat) (current duration_minutes end_block : Z) : list string :=
  match turns with
  | O => []
  | S turns' =>
      if current + duration_minutes <=? end_block
      then _minutes_to_time current
           :: starts_loop turns' (current + 50) duration_minutes end_block
      else []
  end.

(** The body of [for start_str, block_duration in available_blocks]. *)
Definition starts_in_block (duration_minutes : Z) (block : string * Z) : list string :=
  let '(start_str, block_duration) := block in
  match _parse_minutes (Some start_str) with
  | None => []
  | Some start_min =>
      if duration_minutes <=? block_duration
      then starts_loop (Z.to_nat ((block_duration - duration_minutes) / 50 + 1))
             start_min duration_minutes (start_min + block_duration)
      else []
  end.

(** [get_valid_starts(day, duration_minutes)] *)
Definition get_valid_starts (day : string) (duration_minutes : Z) : list string :=
  let available_blocks :=
    if bool_decide (day = "Jumat")
    then [("08:00", 250); ("14:00", 150)]
    else [("08:00", 250); ("14:00", 150)] in
  available_blocks ≫= starts_in_block duration_minutes.

End ValidStarts.

(** ** Days a lecturer may be placed on (greedy placement) *)

Definition weekday_order : list string := ["Senin"; "Selasa"; "Rabu"; "Kamis"; "Jumat"].

(** [get_valid_days_for_lecturer(lect)] *)
Definition get_valid_days_for_lecturer (lecturer_preferences : gmap string preferences)
    (lect : string) : list string :=
  let prefs := default no_preferences (lecturer_preferences !! lect) in
  let available_days := available_days prefs in
  if negb (bool_decide (available_days = []))
  then List.filter (fun d => bool_decide (d ∈ available_days)) weekday_order
  else weekday_order.

(** ** Preference check of [schedule_new_sections_only] *)

Module NewSections.
Section Constraints.
Context `{PyInt}.

(** [to_minutes(t)]: [h, m = map(int, t.split(':'))]. *)
Definition to_minutes (t : string) : option Z :=
  match Py.split ":" t with
  | [a; b] => h ← py_int a; m ← py_int b; Some (h * 60 + m)
  | _ => None
  end.

(** [times_overlap(start1, end1, start2, end2)] *)
Definition times_overlap (start1 end1 start2 end2 : string) : option bool :=
  s1 ← to_minutes start1; e1 ← to_minutes end1;
  s2 ← to_minutes start2; e2 ← to_minutes end2;
  Some ((s1 <? e2) && (s2 <? e1)).

(** The loop over [unavailable_time_ranges]: [Some true] when it returns
    [(False, 0)]. *)
Fixpoint blocked_by_range (blocks : list time_range) (day start end_ : string)
    (is_online : bool) : option bool :=
  match blocks with
  | [] => Some false
  | block :: rest =>
      let block_day := default "*" (range_day block) in
      let block_start := default "00:00" (range_start block) in
      let block_end := default "23:59" (range_end block) in
      if bool_decide (block_day = "*") || bool_decide (block_day = day) then
        ov ← times_overlap start end_ block_start block_end;
        if ov && negb is_online then Some true
        else blocked_by_range rest day start end_ is_online
      else blocked_by_range rest day start end_ is_online
  end.

(** The loop over the day's preferred ranges: [Some true] when it returns
    [(True, 100)]. *)
Fixpoint in_preferred_range (day_prefs : list string) (slot_start_min slot_end_min : Z)
  : option bool :=
  match day_prefs with
  | [] => Some false
  | pref_range :: rest =>
      inside ← (if Py.contains "-" pref_range then
                  match Py.split "-" pref_range with
                  | [pref_start; pref_end] =>
                      pref_start_min ← to_minutes (Py.strip pref_start);
                      pref_end_min ← to_minutes (Py.strip pref_end);
                      Some ((pref_start_min <=? slot_start_min)
                            && (slot_end_min <=? pref_end_min))
                  | _ => None
                  end
                else Some false);
      if (inside : bool) then Some true
      else in_preferred_range rest slot_start_min slot_end_min
  end.

(** [check_preference_constraints(lecturer_name, day, start, end, is_online)];
    [users] maps a lecturer to the stored preferences, as
    [get_lecturer_preferences] finds them. *)
Definition check_preference_constraints (users : gmap string preferences)
    (lecturer_name day start end_ : string) (is_online : bool) : option (bool * Z) :=
  let prefs := default no_preferences (users !! lecturer_name) in
  rejected ← blocked_by_range (unavailable_time_ranges prefs) day start end_ is_online;
  if (rejected : bool) then Some (false, 0) else
  let avail := available_days prefs in
  let day_ok := negb (bool_decide (avail = [])) && bool_decide (day ∈ avail) in
  let score := if day_ok then 75 else 50 in
  if day_ok then
    match preferred_times prefs !! day with
    | Some ((_ :: _) as day_prefs) =>
        slot_start_min ← to_minutes start;
        slot_end_min ← to_minutes end_;
        inside ← in_preferred_range day_prefs slot_start_min slot_end_min;
        Some (true, if (inside : bool) then 100 else 60)
    | _ => Some (true, score)
    end
  else Some (true, score).

End Constraints.
End NewSections.

(** ** What a reschedule may change of a document *)

(** Two documents that differ at most in day, start, end and room. *)
Definition same_class (d d' : schedule_doc) : Prop :=
  doc_id d = doc_id d' /\ doc_dosen d = doc_dosen d'
  /\ doc_course_name d = doc_course_name d' /\ doc_course_id d = doc_course_id d'
  /\ doc_section_name d = doc_section_name d' /\ doc_section_label d = doc_section_label d'
  /\ doc_sks d = doc_sks d'.

(** The state the engine starts from when the second lecturer of the Monday
    timetable reports, the Tuesday slot the first tier finds for that
    lecturer's class, and what the run on the whole Monday returns. *)
Definition monday_state : Reschedule.engine_state :=
  {| Reschedule.db := monday_timetable;
     Reschedule.lect_sched := Reschedule.initial_lect_sched "Dosen B" monday_timetable;
     Reschedule.room_occ := Reschedule.initial_room_occ monday_timetable;
     Reschedule.moved := 0; Reschedule.failed := [] |}.

Definition tuesday_slot : Reschedule.candidate :=
  {| Reschedule.cand_day := "Selasa"; Reschedule.cand_start := "08:00";
     Reschedule.cand_end := "09:40"; Reschedule.cand_room := Some "Infor 1";
     Reschedule.cand_score := 50 |}.

Definition whole_monday_result : Reschedule.result :=
  {| Reschedule.res_moved := 1; Reschedule.res_failed := 0;
     Reschedule.res_failed_courses := []; Reschedule.res_total := 1;
     Reschedule.res_unaffected := 0;
     Reschedule.res_db :=
       Reschedule.update_one 5
         (Reschedule.set_slot "Selasa" "08:00" "09:40" (Some "Infor 1")) monday_timetable |}.

(** ** Section counts by rule ([calculate_flexible_section_distribution]) *)

Section FlexibleDistribution.
(** Python's [str.lower]. *)
Variable str_lower : string -> string.

(** [calculate_flexible_section_distribution(num_lecturers, sks, course_name)];
    the fourth parameter, [lecturer_current_sks], is never read. *)
Definition calculate_flexible_section_distribution (num_lecturers sks : Z)
    (course_name : option string) : list Z :=
  let general :=
    if num_lecturers =? 0 then []
    else if num_lecturers =? 1 then
      [if sks =? 3 then 3 else if sks =? 2 then 4 else 9]
    else
      let sections_per_lecturer := if sks =? 3 then 3 else if sks =? 2 then 4 else 8 in
      replicate (Z.to_nat num_lecturers) sections_per_lecturer in
  if truthy_opt course_name then
    let name := default "" course_name in
    if bool_decide (name ∈ ["KEAMANAN DATABASE"; "ETICAL HACKING"]) then [1]
    else if bool_decide (name = "KECERDASAN KOMPUTASIONAL") then [3]
    else if bool_decide (str_lower name ∈ ["kewarganegaraan"; "kemalikussalehan"])
            && (num_lecturers =? 1) then [3]
    else general
  else general.

End FlexibleDistribution.

(** ** Sections of the hybrid pipeline ([create_initial_sections_hybrid]) *)

(** A course document as the hybrid pipeline reads it: [str(c['_id'])],
    [c['course_name']] and the three optional fields with their defaults. *)
Record course_doc := {
  cd_id : string;
  cd_course_name : string;
  cd_sks : option Z;
  cd_is_lab : bool;
  cd_is_online : bool
}.

(** An object of the class [Section] as its constructor leaves it. *)
Record hybrid_section := {
  hs_course_id : string;
  hs_course_name : string;
  hs_sks : Z;
  hs_is_lab : bool;
  hs_is_online : bool;
  hs_section_letter : string;
  hs_section_number : Z;
  hs_section_name : string;
  hs_lecturer : string;
  hs_day : option string;
  hs_start_time : option string;
  hs_end_time : option string;
  hs_room : option string
}.

(** [Section(course_id, course_name, sks, is_lab, section_letter,
             section_number, lecturer, is_online)] *)
Definition new_section (course_id course_name : string) (sks : Z) (is_lab : bool)
    (section_letter : string) (section_number : Z) (lecturer : string)
    (is_online : bool) : hybrid_section :=
  {| hs_course_id := course_id; hs_course_name := course_name; hs_sks := sks;
     hs_is_lab := is_lab; hs_is_online := is_online;
     hs_section_letter := section_letter; hs_section_number := section_number;
     hs_section_name := section_letter +:+ Py.digits section_number;
     hs_lecturer := lecturer;
     hs_day := None; hs_start_time := None; hs_end_time := None;
     hs_room := if is_online then Some "Online" else None |}.

(** The sections of one item [((dosen_name, course_id_str), num_sections)]
    of the dictionary. *)
Definition sections_of_pair (courses : list course_doc)
    (item : string * string * Z) : list hybrid_section :=
  let '(dosen_name, course_id_str, num_sections) := item in
  match List.find (fun c => bool_decide (cd_id c = course_id_str)) courses with
  | None => []
  | Some course =>
      (fun section_num =>
         new_section course_id_str (cd_course_name course) (default 3 (cd_sks course))
           (cd_is_lab course) "A" section_num dosen_name (cd_is_online course))
      <$> py_range 1 (num_sections + 1) 1
  end.

(** [create_initial_sections_hybrid(courses, dosen_course_sections)] on the
    items of the dictionary in their order. *)
Definition create_initial_sections_hybrid (courses : list course_doc)
    (dosen_course_sections : list (string * string * Z)) : list hybrid_section :=
  dosen_course_sections ≫= sections_of_pair courses.

(** ** Lecturer names of a course ([normalize_course_selected_by]) *)

(** A lecturer's user document: the name and the optional login name and
    mail address. *)
Record user_doc := {
  u_name : string;
  u_username : option string;
  u_email : option string
}.

(** The lecturer as the section generator reads the same document. *)
Definition as_lecturer (l : user_doc) : lecturer := {| lec_name := u_name l |}.

(** The loop that builds [id_map]. *)
Definition id_map_step (id_map : gmap string string) (l : user_doc) : gmap string string :=
  let name := u_name l in
  if negb (Py.truthy name) then id_map else
  let id_map := <[name := name]> id_map in
  let id_map :=
    match u_username l with
    | Some username => if Py.truthy username then <[username := name]> id_map else id_map
    | None => id_map
    end in
  match u_email l with
  | Some email => if Py.truthy email then <[email := name]> id_map else id_map
  | None => id_map
  end.

Definition build_id_map (lecturers : list user_doc) : gmap string string :=
  foldl id_map_step ∅ lecturers.

(** The body of [for s in sb]; the state is [(normalized, not_found)]. *)
Definition normalize_step (id_map : gmap string string) (lecturer_names : list string)
    (st : list string * list string) (s : string) : list string * list string :=
  let '(normalized, not_found) := st in
  match id_map !! s with
  | Some mapped =>
      if bool_decide (mapped ∈ lecturer_names) && negb (bool_decide (mapped ∈ normalized))
      then (normalized ++ [mapped], not_found)
      else st
  | None =>
      if bool_decide (s ∈ lecturer_names) && negb (bool_decide (s ∈ normalized))
      then (normalized ++ [s], not_found)
      else (normalized, not_found ++ [s])
  end.

(** A course document before the normalization: [selected_by] may be absent,
    a single string or a list. *)
Record raw_course := {
  raw_id : string;
  raw_sks : option Z;
  raw_selected_by : option (string + list string)
}.

(** [sb] after [if isinstance(sb, str): sb = [sb]]. *)
Definition selected_list (c : raw_course) : list string :=
  match raw_selected_by c with
  | None => []
  | Some (inl s) => [s]
  | Some (inr l) => l
  end.

(** What the loop leaves of one course: the course with its normalized
    [selected_by], and the entries it could not match. *)
Definition normalize_one (lecturers : list user_doc) (c : raw_course)
  : course * list string :=
  let sb := selected_list c in
  let '(normalized, not_found) :=
    foldl (normalize_step (build_id_map lecturers) (u_name <$> lecturers)) ([], []) sb in
  ({| course_sks := raw_sks c; selected_by := normalized |}, not_found).

(** [normalize_course_selected_by(courses, lecturers)]: the courses as the
    call leaves them and the list [unmatched] it returns. *)
Definition normalize_course_selected_by (courses : list raw_course)
    (lecturers : list user_doc) : list course * list (string * list string) :=
  (fst ∘ normalize_one lecturers <$> courses,
   omap (fun c => let not_found := (normalize_one lecturers c).2 in
                  if bool_decide (not_found = []) then None
                  else Some (raw_id c, not_found))
        courses).

(** ** A free Friday slot for the rebalancing pass ([find_free_slot]) *)

(** A section document as the rebalancing pass reads it. *)
Record section_doc := {
  sd_fields : section;
  sd_is_online : bool;
  sd_dosen : option string;
  sd_lecturer : option string
}.

(** [_get_section_dosen(sec)] *)
Definition _get_section_dosen (sec : section_doc) : string :=
  if truthy_opt (sd_dosen sec) then default "" (sd_dosen sec)
  else if truthy_opt (sd_lecturer sec) then default "" (sd_lecturer sec)
  else "Unknown".

Section FindFreeSlot.
Context `{PyInt}.
Variable lecturer_preferences : gmap string preferences.
(** The keys of the two calendars, in insertion order. *)
Variable lecturer_calendar : list (string * string * string * string).
Variable room_calendar : list (string * string * string * string).

(** [any(l == lect and d == 'Jumat' and times_overlap(start, end, s, e) ...)] *)
Definition lecturer_busy_on_friday (lect start end_ : string) : option bool :=
  Reschedule.any_opt
    (fun key : string * string * string * string =>
       let '(l, d, s, e) := key in
       if bool_decide (l = lect) && bool_decide (d = "Jumat")
       then times_overlap start end_ s e else Some false)
    lecturer_calendar.

(** [any(d == 'Jumat' and r == room and times_overlap(start, end, s, e) ...)] *)
Definition room_busy_on_friday (room start end_ : string) : option bool :=
  Reschedule.any_opt
    (fun key : string * string * string * string =>
       let '(d, r, s, e) := key in
       if bool_decide (d = "Jumat") && bool_decide (r = room)
       then times_overlap start end_ s e else Some false)
    room_calendar.

(** One turn of the loop over the time blocks, for an online section. *)
Definition try_online (lect tb : string) : option (option (string * string)) :=
  match Py.split "-" tb with
  | [start; end_] =>
      r ← check_lecturer_preferences lecturer_preferences lect "Jumat" start end_ true true;
      if negb r.1 then Some None else
      lect_conflict ← lecturer_busy_on_friday lect start end_;
      Some (if (lect_conflict : bool) then None else Some ("ONLINE", tb))
  | _ => None
  end.

(** One turn of the innermost loop, for a section that needs a room. *)
Definition try_room (lect : string) (slot : string * string)
  : option (option (string * string)) :=
  let '(room, tb) := slot in
  match Py.split "-" tb with
  | [start; end_] =>
      r ← check_lecturer_preferences lecturer_preferences lect "Jumat" start end_ true false;
      if negb r.1 then Some None else
      room_busy ← room_busy_on_friday room start end_;
      if (room_busy : bool) then Some None else
      lect_busy ← lecturer_busy_on_friday lect start end_;
      Some (if (lect_busy : bool) then None else Some (room, tb))
  | _ => None
  end.

(** [find_free_slot(section)]; [Some None] is Python's [None]. *)
Definition find_free_slot (section : section_doc) : option (option (string * string)) :=
  let sks := default 2 (sec_sks (sd_fields section)) in
  let is_lab := sec_is_lab (sd_fields section) in
  let lect := _get_section_dosen section in
  let timeblocks := get_timeblocks_for_day "Jumat" sks in
  if sd_is_online section then Reschedule.first_opt (try_online lect) timeblocks
  else
    let suitable_rooms := if is_lab then LAB_ROOMS else NON_LAB_ROOMS in
    let all_fallback_rooms := if is_lab then NON_LAB_ROOMS else LAB_ROOMS in
    Reschedule.first_opt (try_room lect)
      ((suitable_rooms ++ all_fallback_rooms) ≫= fun room => pair room <$> timeblocks).

End FindFreeSlot.

(** A Friday on which the second lecturer and the first room are taken from
    08:00 to 09:40, and a two-credit class of that lecturer to be moved. *)
Definition friday_lecturer_calendar : list (string * string * string * string) :=
  [("Dosen B", "Jumat", "08:00", "09:40")].

Definition friday_room_calendar : list (string * string * string * string) :=
  [("Jumat", "Infor 1", "08:00", "09:40")].

Definition movable_section : section_doc :=
  {| sd_fields := {| sec_sks := Some 2; sec_is_lab := false |};
     sd_is_online := false; sd_dosen := Some "Dosen B"; sd_lecturer := None |}.

(** Lecturers with login names and a course that names one of them by the
    login name, one by the display name and one not at all. *)
Definition sample_users : list user_doc :=
  [ {| u_name := "Dosen A"; u_username := Some "dosena"; u_email := None |};
    {| u_name := "Dosen B"; u_username := Some "dosenb";
       u_email := Some "b@kampus.ac.id" |} ].

Definition sample_raw_course : raw_course :=
  {| raw_id := "c1"; raw_sks := Some 3;
     raw_selected_by := Some (inr ["dosenb"; "Dosen A"; "b@kampus.ac.id"; "tamu"]) |}.

(** Two courses and the section counts of three lecturer-course pairs, one
    of them for a course that does not exist. *)
Definition hybrid_courses : list course_doc :=
  [ {| cd_id := "c1"; cd_course_name := "Algoritma"; cd_sks := Some 3;
       cd_is_lab := false; cd_is_online := false |};
    {| cd_id := "c2"; cd_course_name := "Basis Data"; cd_sks := None;
       cd_is_lab := true; cd_is_online := true |} ].

Definition hybrid_counts : list (string * string * Z) :=
  [("Dosen A", "c1", 2); ("Dosen A", "c2", 1); ("Dosen B", "c9", 4)].

(** ASCII lower case, the common part of every [str.lower]. *)
Definition ascii_lower_char (a : ascii) : ascii :=
  let n := nat_of_ascii a in
  if (65 <=? n)%nat && (n <=? 90)%nat then ascii_of_nat (n + 32) else a.

Fixpoint ascii_lower (s : string) : string :=
  match s with
  | EmptyString => EmptyString
  | String a r => String (ascii_lower_char a) (ascii_lower r)
  end.

(** ** Reading the grouped dictionaries of the conflict check *)

(** [d[k]] of a dictionary of lists in insertion order, empty when the key
    is absent. *)
Fixpoint group_of {K V : Type} `{EqDecision K} (k : K) (d : list (K * list V)) : list V :=
  match d with
  | [] => []
  | (k', vs) :: rest => if decide (k = k') then vs else group_of k rest
  end.

(** A document that has a day, a room, a start and an end, none of them
    empty. *)
Definition placed_at (d : schedule_doc) (day room start end_ : string) : Prop :=
  doc_day d = Some day /\ doc_room d = Some room
  /\ doc_start d = Some start /\ doc_end d = Some end_
  /\ Py.truthy day = true /\ Py.truthy room = true
  /\ Py.truthy start = true /\ Py.truthy end_ = true.

(** Two classes of different lecturers in one room at overlapping times. *)
Definition double_booked : list schedule_doc :=
  [ monday_doc 1 "Dosen A" "08:00" "09:40" "Infor 1" "Algoritma";
    monday_doc 2 "Dosen A" "09:40" "11:20" "Infor 2" "Basis Data";
    monday_doc 5 "Dosen B" "09:00" "10:40" "Infor 1" "Kalkulus" ].

Definition double_booked_conflict : room_conflict :=
  {| rc_room := "Infor 1"; rc_day := "Senin";
     rc_course1 := "Algoritma"; rc_lecturer1 := Some "Dosen A"; rc_time1 := "08:00-09:40";
     rc_course2 := "Kalkulus"; rc_lecturer2 := Some "Dosen B"; rc_time2 := "09:00-10:40";
     rc_id1 := 1; rc_id2 := 5 |}.

(** Two online classes of one lecturer at overlapping times. *)
Definition same_lecturer_online : list schedule_doc :=
  [ monday_doc 1 "Dosen A" "08:00" "09:40" "ONLINE" "Algoritma";
    monday_doc 2 "Dosen A" "09:00" "10:40" "ONLINE" "Basis Data" ].

Definition same_lecturer_conflict : lecturer_conflict :=
  {| lc_lecturer := "Dosen A"; lc_day := "Senin";
     lc_course1 := "Algoritma"; lc_room1 := "ONLINE"; lc_time1 := "08:00-09:40";
     lc_course2 := "Basis Data"; lc_room2 := "ONLINE"; lc_time2 := "09:00-10:40";
     lc_id1 := 1; lc_id2 := 2 |}.

(** ** What the ten-minute scan keeps *)

Section ScanInvariant.
Context `{PyInt}.

(** The booking covers the minute and samples it: the minute lies between
    the start and the end that the scan reads, a multiple of ten minutes
    after the start. *)
Definition samples (b : booking) (minute : Z) : Prop :=
  exists s e,
    _parse_minutes (bk_start b) = Some s /\ _parse_minutes (bk_end b) = Some e
    /\ s <= minute < e /\ (minute - s) mod 10 = 0.

End ScanInvariant.

(** The first collision the scan reports for the double booking. *)
Definition first_collision : conflict :=
  {| cf_type := "room"; cf_day := "Senin"; cf_minute := 540; cf_time := "09:00";
     cf_party := "Infor 1";
     cf_slot := {| bk_course := Some "Kalkulus"; bk_section := Some "A1";
                   bk_who := Some "Dosen B"; bk_start := Some "09:00";
                   bk_end := Some "10:40" |};
     cf_existing := {| bk_course := Some "Algoritma"; bk_section := Some "A1";
                       bk_who := Some "Dosen A"; bk_start := Some "08:00";
                       bk_end := Some "09:40" |} |}.

(** ** Online sections of the greedy placement (step 1 of
       [schedule_sections_with_ortools]) *)

(** [d[k] = v] on a dictionary in insertion order. *)
Fixpoint dict_set {K V : Type} `{EqDecision K} (k : K) (v : V) (d : list (K * V))
  : list (K * V) :=
  match d with
  | [] => [(k, v)]
  | (k', v') :: rest =>
      if decide (k = k') then (k', v) :: rest else (k', v') :: dict_set k v rest
  end.

(** The keys of a dictionary after [d[k] = ...]. *)
Definition keys_add {K : Type} `{EqDecision K} (k : K) (keys : list K) : list K :=
  if decide (k ∈ keys) then keys else keys ++ [k].

(** What the loop over the online sections reads and writes;
    [lecturer_days_used], which it only writes, is left out. *)
Record packing_state := {
  next_available_time : Z;
  pk_lecturer_calendar : list (string * string * string * string);
  pk_schedule_result : list (nat * (string * string * string));
  pk_placed_count : nat;
  pk_failed_sections : list nat
}.

Definition ONLINE_DAY : string := "Rabu".
Definition ONLINE_START_TIME : string := "09:00".

Section OnlinePacking.
Context `{PyInt}.

(** [parse_time_to_minutes(time_str)] *)
Definition parse_time_to_minutes (time_str : string) : option Z :=
  match Py.split ":" time_str with
  | [a; b] => h ← py_int a; m ← py_int b; Some (h * 60 + m)
  | _ => None
  end.

(** [minutes_to_time(minutes)] *)
Definition minutes_to_time (minutes : Z) : string :=
  Py.fmt02d (minutes / 60) +:+ ":" +:+ Py.fmt02d (minutes mod 60).

(** [any(l == lect and d == ONLINE_DAY and times_overlap(start, end, s, e) ...)] *)
Definition online_conflict (calendar : list (string * string * string * string))
    (lect start end_ : string) : option bool :=
  Reschedule.any_opt
    (fun key : string * string * string * string =>
       let '(l, d, s, e) := key in
       if bool_decide (l = lect) && bool_decide (d = ONLINE_DAY)
       then times_overlap start end_ s e else Some false)
    calendar.

(** The three writes of a placement. *)
Definition place_at (st : packing_state) (si : nat) (lect start end_ : string)
    (next : Z) : packing_state :=
  {| next_available_time := next;
     pk_lecturer_calendar := keys_add (lect, ONLINE_DAY, start, end_) (pk_lecturer_calendar st);
     pk_schedule_result :=
       dict_set si (ONLINE_DAY, "ONLINE", start +:+ "-" +:+ end_) (pk_schedule_result st);
     pk_placed_count := S (pk_placed_count st);
     pk_failed_sections := pk_failed_sections st |}.

(** The body of [for si, sec, lect in online_sections_sorted]; of the
    section only [sec.get('sks', 2)] is read. *)
Definition place_online (st : packing_state) (item : nat * option Z * string)
  : option packing_state :=
  let '(si, sks_field, lect) := item in
  let sks := default 2 sks_field in
  let duration_minutes := sks * 50 in
  let start_minutes := next_available_time st in
  let end_minutes := start_minutes + duration_minutes in
  limit ← parse_time_to_minutes "17:00";
  sequential ←
    (if end_minutes <=? limit then
       let start := minutes_to_time start_minutes in
       let end_ := minutes_to_time end_minutes in
       lect_conflict ← online_conflict (pk_lecturer_calendar st) lect start end_;
       Some (if (lect_conflict : bool) then None else Some (start, end_))
     else Some None);
  match sequential with
  | Some (start, end_) => Some (place_at st si lect start end_ end_minutes)
  | None =>
      found ← Reschedule.first_opt
                (fun tb =>
                   match Py.split "-" tb with
                   | [start; end_] =>
                       lect_conflict ←
                         online_conflict (pk_lecturer_calendar st) lect start end_;
                       Some (if (lect_conflict : bool) then None else Some (start, end_))
                   | _ => None
                   end)
                (get_timeblocks_for_day ONLINE_DAY sks);
      match found with
      | Some (start, end_) =>
          Some (place_at st si lect start end_ (next_available_time st))
      | None =>
          Some {| next_available_time := next_available_time st;
                  pk_lecturer_calendar := pk_lecturer_calendar st;
                  pk_schedule_result := pk_schedule_result st;
                  pk_placed_count := pk_placed_count st;
                  pk_failed_sections := pk_failed_sections st ++ [si] |}
      end
  end.

(** Step 1 from the empty calendars to the end of the loop. *)
Definition place_online_sections (online_sections_sorted : list (nat * option Z * string))
  : option packing_state :=
  first ← parse_time_to_minutes ONLINE_START_TIME;
  foldl (fun acc item => st ← acc; place_online st item)
    (Some {| next_available_time := first; pk_lecturer_calendar := [];
             pk_schedule_result := []; pk_placed_count := 0; pk_failed_sections := [] |})
    online_sections_sorted.

End OnlinePacking.

(** Three online sections of two lecturers. *)
Definition online_sections_sample : list (nat * option Z * string) :=
  [(0%nat, Some 2, "Dosen A"); (1%nat, Some 3, "Dosen A"); (2%nat, None, "Dosen B")].

Definition online_sections_packed : packing_state :=
  {| next_available_time := 890;
     pk_lecturer_calendar :=
       [("Dosen A", "Rabu", "09:00", "10:40"); ("Dosen A", "Rabu", "10:40", "13:10");
        ("Dosen B", "Rabu", "13:10", "14:50")];
     pk_schedule_result :=
       [(0%nat, ("Rabu", "ONLINE", "09:00-10:40")); (1%nat, ("Rabu", "ONLINE", "10:40-13:10"));
        (2%nat, ("Rabu", "ONLINE", "13:10-14:50"))];
     pk_placed_count := 3;
     pk_failed_sections := [] |}.

(** ** Fitness of the section counts ([evaluate_section_counts]) *)

(** The body of [for dosen_name, total_sks in dosen_sks.items()] of
    [evaluate_section_counts]; the state is [(penalty, num_violations)]. *)
Definition section_counts_step (info : list (string * Z)) (individual : list Z)
    (acc : Z * nat) (dosen_name : string) : Z * nat :=
  let '(penalty, num_violations) := acc in
  let total_sks := dosen_sks info individual dosen_name in
  if total_sks =? 0 then acc
  else if total_sks <? MIN_SKS_PER_DOSEN then
    let gap := MIN_SKS_PER_DOSEN - total_sks in
    (penalty + (10 ^ 6 + gap ^ 4 * 10000), S num_violations)
  else if MAX_SKS_PER_DOSEN <? total_sks then
    let gap := total_sks - MAX_SKS_PER_DOSEN in
    (penalty + (10 ^ 6 + gap ^ 4 * 10000), S num_violations)
  else
    let diff_from_target := Z.abs (total_sks - 10) in
    (penalty - (5 - diff_from_target) * 1000, num_violations).

(** [evaluate_section_counts(individual, pairs, courses_list, lecturers_list)]
    on the resolved genes [info] and the lecturer names in dictionary
    order. *)
Definition section_counts_fitness (info : list (string * Z)) (names : list string)
    (individual : list Z) : Z :=
  let '(penalty, num_violations) :=
    foldl (section_counts_step info individual) (0, 0%nat) names in
  if (0 <? num_violations)%nat then penalty * 10 ^ Z.of_nat num_violations else penalty.

Definition evaluate_section_counts (individual : list Z) (pairs : list (nat * nat))
    (courses_list : list course) (lecturers_list : list lecturer) : option Z :=
  info ← mapM (gene_info courses_list lecturers_list) (take (length individual) pairs);
  Some (section_counts_fitness info (dict_keys (lec_name <$> lecturers_list) []) individual).


(** * Properties *)

(** ** Preference model *)

Section PreferenceModelFacts.
Context `{PyInt}.

Lemma time_ok_Some t : time_ok t = true -> exists m, parse_time t = Some m.
Proof.
  unfold time_ok. intros Hok. apply bool_decide_eq_true in Hok.
  destruct Hok as [m Hm]. by exists m.
Qed.

Lemma times_overlap_total a b c d :
  time_ok a = true -> time_ok b = true -> time_ok c = true -> time_ok d = true ->
  exists r, times_overlap a b c d = Some r.
Proof.
  intros [ma Ha]%time_ok_Some [mb Hb]%time_ok_Some [mc Hc]%time_ok_Some [md Hd]%time_ok_Some.
  unfold times_overlap. rewrite Ha, Hb, Hc, Hd. simpl. eauto.
Qed.

Lemma scan_unavailable_total blocks day ts te online :
  time_ok ts = true -> time_ok te = true ->
  forallb (fun block => time_ok (default "00:00" (range_start block))
                        && time_ok (default "23:59" (range_end block))) blocks = true ->
  exists r, scan_unavailable blocks day ts te online = Some r.
Proof.
  intros Hts Hte. induction blocks as [|block rest IH]; simpl; intros Hall.
  - eauto.
  - apply andb_prop in Hall as [Hblock Hrest].
    apply andb_prop in Hblock as [Hs He].
    destruct (bool_decide (default "*" (range_day block) = "*")
              || bool_decide (default "*" (range_day block) = day)); [|by apply IH].
    destruct (times_overlap_total ts te _ _ Hts Hte Hs He) as [ov Hov].
    rewrite Hov. simpl. destruct (ov && negb online); [eauto | by apply IH].
Qed.

Lemma range_holds_total pr ss se :
  range_ok pr = true -> exists r, range_holds pr ss se = Some r.
Proof.
  unfold range_ok, range_holds. intros Hok.
  destruct (Py.contains "-" pr); simpl in Hok; [|eauto].
  destruct (Py.split "-" pr) as [|a [|b [|c l]]]; try discriminate.
  apply andb_prop in Hok as [[ma Ha]%time_ok_Some [mb Hb]%time_ok_Some].
  rewrite Ha, Hb. simpl. eauto.
Qed.

Lemma scan_preferred_total day_prefs ss se :
  forallb range_ok day_prefs = true -> exists r, scan_preferred day_prefs ss se = Some r.
Proof.
  induction day_prefs as [|pr rest IH]; simpl; intros Hall; [eauto|].
  apply andb_prop in Hall as [Hpr Hrest].
  destruct (range_holds_total pr ss se Hpr) as [r Hr]. rewrite Hr. simpl.
  destruct r; [eauto | by apply IH].
Qed.

(** With times that parse the model returns. *)
Lemma check_lecturer_preferences_total lp lect day ts te strict online :
  times_well_formed (default no_preferences (lp !! lect)) day ts te = true ->
  exists r, check_lecturer_preferences lp lect day ts te strict online = Some r.
Proof.
  unfold times_well_formed, check_lecturer_preferences.
  set (prefs := default no_preferences (lp !! lect)).
  intros Hwf.
  apply andb_prop in Hwf as [Hwf Hpref].
  apply andb_prop in Hwf as [Hwf Hblocks].
  apply andb_prop in Hwf as [Hts Hte].
  destruct (scan_unavailable_total _ day ts te online Hts Hte Hblocks) as [rej Hrej].
  rewrite Hrej. simpl. destruct rej; [eauto|].
  destruct (negb (bool_decide (available_days prefs = []))
            && negb (bool_decide (day ∈ available_days prefs)) && strict); [eauto|].
  destruct (preferred_times prefs !! day) as [[|pr day_prefs]|]; simpl; eauto.
  destruct (time_ok_Some _ Hts) as [ss Hss], (time_ok_Some _ Hte) as [se Hse].
  rewrite Hss, Hse. simpl in *.
  destruct (scan_preferred_total (pr :: day_prefs) ss se Hpref) as [r Hr].
  simpl in Hr. rewrite Hr. simpl. eauto.
Qed.

(** The values the model can return. *)
Lemma check_lecturer_preferences_values lp lect day ts te strict online allowed score :
  check_lecturer_preferences lp lect day ts te strict online = Some (allowed, score) ->
  (allowed = false /\ score = 0)
  \/ (allowed = true /\ In score [100; 75; 60; 50; 70; 30; 20]).
Proof.
  unfold check_lecturer_preferences.
  set (prefs := default no_preferences (lp !! lect)).
  destruct (scan_unavailable _ _ _ _ _) as [[|]|]; simpl; try discriminate.
  { intros [= <- <-]. by left. }
  intros Hres.
  destruct (negb (bool_decide (available_days prefs = [])));
    destruct (bool_decide (day ∈ available_days prefs));
    destruct strict; simpl in Hres.
  all: try (injection Hres as <- <-; by left).
  all: right.
  all: destruct (preferred_times prefs !! day) as [[|pr day_prefs]|]; simpl in Hres.
  all: try (injection Hres as <- <-; split; [done | simpl; tauto]).
  all: destruct (parse_time ts); simpl in Hres; [|discriminate].
  all: destruct (parse_time te); simpl in Hres; [|discriminate].
  all: destruct (range_holds pr _ _) as [[|]|]; simpl in Hres; [| |discriminate].
  all: try (injection Hres as <- <-; split; [done | simpl; tauto]).
  all: destruct (scan_preferred day_prefs _ _) as [[|]|]; simpl in Hres; [| |discriminate].
  all: injection Hres as <- <-; split; [done | simpl; tauto].
Qed.

End PreferenceModelFacts.

Section PreferenceModelClaims.
Context `{PyInt}.

(** The first loop rejects nothing for an online slot. *)
Lemma scan_unavailable_online blocks day ts te r :
  scan_unavailable blocks day ts te true = Some r -> r = false.
Proof.
  induction blocks as [|block rest IH]; simpl.
  - by intros [= <-].
  - destruct (bool_decide (default "*" (range_day block) = "*")
              || bool_decide (default "*" (range_day block) = day)); [|done].
    destruct (times_overlap _ _ _ _) as [ov|]; simpl; [|done].
    rewrite andb_false_r. done.
Qed.

(** For an online slot the blocked ranges do not enter the result: whatever
    the model returns, it returns for the same lecturer without them. *)
Lemma online_blocks_leave_score lp lect day ts te strict r :
  check_lecturer_preferences lp lect day ts te strict true = Some r ->
  check_lecturer_preferences
    (<[lect := without_unavailable (default no_preferences (lp !! lect))]> lp)
    lect day ts te strict true = Some r.
Proof.
  unfold check_lecturer_preferences. rewrite lookup_insert_eq. simpl.
  destruct (scan_unavailable _ _ _ _ _) as [rej|] eqn:Hscan; simpl; [|done].
  apply scan_unavailable_online in Hscan as ->. done.
Qed.

Lemma scan_preferred_true day_prefs ss se :
  scan_preferred day_prefs ss se = Some true ->
  exists r, r ∈ day_prefs /\ range_holds r ss se = Some true.
Proof.
  induction day_prefs as [|pr rest IH]; simpl; [done|].
  destruct (range_holds pr ss se) as [[|]|] eqn:Hpr; simpl; [| |done].
  - intros _. exists pr. split; [left | done].
  - intros (r & Hin & Hr)%IH. exists r. split; [by right | done].
Qed.

Lemma scan_preferred_false day_prefs ss se :
  scan_preferred day_prefs ss se = Some false ->
  forall r, r ∈ day_prefs -> range_holds r ss se = Some false.
Proof.
  induction day_prefs as [|pr rest IH]; simpl; intros Hscan r Hin.
  - by apply elem_of_nil in Hin.
  - destruct (range_holds pr ss se) as [[|]|] eqn:Hpr; simpl in Hscan; try done.
    apply elem_of_cons in Hin as [->|Hin]; [done | by apply IH].
Qed.

(** C10: for every input the preference model either returns a score between
    0 and 100, which is exactly 0 (and bands as Poor) whenever the slot is
    not allowed, or it raises, which only happens when one of the times it
    reads does not parse. *)
Theorem preference_score_bounds lp lect day ts te strict online :
  match check_lecturer_preferences lp lect day ts te strict online with
  | Some (allowed, score) =>
      0 <= score <= 100
      /\ (allowed = false -> score = 0 /\ get_match_quality score = "Poor")
  | None => times_well_formed (default no_preferences (lp !! lect)) day ts te = false
  end.
Proof.
  destruct (check_lecturer_preferences lp lect day ts te strict online)
    as [[allowed score]|] eqn:Hres.
  - apply check_lecturer_preferences_values in Hres as [[-> ->]|[-> Hin]].
    + split; [lia | done].
    + split; [|done]. simpl in Hin. lia.
  - destruct (times_well_formed _ day ts te) eqn:Hwf; [|done].
    apply (check_lecturer_preferences_total lp lect day ts te strict online) in Hwf
      as [r Hr].
    congruence.
Qed.

(** C2, amended: an allowed physical slot scores 100 when the interval lies
    inside one of that day's preferred ranges and 60 when that day has
    preferred ranges and none holds the interval; without preferred ranges for
    the day it scores 75 when the day is among the available days and 50 when
    no available days are given.  A day outside a non-empty list of available
    days is only allowed in relaxed mode and then costs 30 points, which makes
    the scores 70, 30 and 20. *)
Theorem allowed_physical_score lp lect day ts te strict score :
  check_lecturer_preferences lp lect day ts te strict false = Some (true, score) ->
  let prefs := default no_preferences (lp !! lect) in
  let off_day := negb (bool_decide (available_days prefs = []))
                 && negb (bool_decide (day ∈ available_days prefs)) in
  let penalty := if off_day then 30 else 0 in
  (off_day = true -> strict = false)
  /\ match preferred_times prefs !! day with
     | Some (pr :: day_prefs) =>
         exists ss se, parse_time ts = Some ss /\ parse_time te = Some se
           /\ ((score = 100 - penalty
                /\ exists r, r ∈ pr :: day_prefs /\ range_holds r ss se = Some true)
               \/ (score = 60 - penalty
                   /\ forall r, r ∈ pr :: day_prefs -> range_holds r ss se = Some false))
     | _ =>
         score = (if bool_decide (available_days prefs = []) then 50
                  else if bool_decide (day ∈ available_days prefs) then 75
                  else 50) - penalty
     end.
Proof.
  unfold check_lecturer_preferences. simpl.
  set (prefs := default no_preferences (lp !! lect)).
  destruct (scan_unavailable _ _ _ _ _) as [[|]|]; simpl; try discriminate.
  destruct (bool_decide (available_days prefs = []));
    destruct (bool_decide (day ∈ available_days prefs));
    destruct strict; simpl; try discriminate.
  all: intros Hres; split; [done|].
  all: destruct (preferred_times prefs !! day) as [[|pr day_prefs]|]; simpl in Hres.
  all: try (injection Hres as <-; reflexivity).
  all: destruct (parse_time ts) as [ss|]; simpl in Hres; [|discriminate].
  all: destruct (parse_time te) as [se|]; simpl in Hres; [|discriminate].
  all: exists ss, se; split; [done|]; split; [done|].
  all: destruct (scan_preferred (pr :: day_prefs) ss se) as [[|]|] eqn:Hscan;
         simpl in Hscan; rewrite Hscan in Hres; simpl in Hres; [| |discriminate].
  all: injection Hres as <-.
  all: try (left; split; [reflexivity | by apply scan_preferred_true]).
  all: right; split; [reflexivity | by apply scan_preferred_false].
Qed.

End PreferenceModelClaims.

#[local] Existing Instance decimal_int.

(** C10 at a rejected slot: Monday 10:30-12:10 in a room, inside the blocked
    range of the first sample lecturer. *)
Lemma preference_score_bounds_witness :
  0 <= 0 <= 100 /\ (false = false -> 0 = 0 /\ get_match_quality 0 = "Poor").
Proof.
  exact (preference_score_bounds sample_preferences "Dosen A" "Senin" "10:30" "12:10"
           true false).
Defined.

(** C2 fails as stated: on an available day, outside the preferred range, an
    allowed physical slot scores 60, none of the three values of the claim. *)
Lemma allowed_physical_score_counterexample :
  check_lecturer_preferences sample_preferences "Dosen A" "Senin" "13:00" "14:40"
    true false = Some (true, 60)
  /\ ~ (60 = 50 \/ 60 = 75 \/ 60 = 100).
Proof. split; [vm_compute; reflexivity | lia]. Qed.

(** C2, amended, at that slot. *)
Lemma allowed_physical_score_witness :
  check_lecturer_preferences sample_preferences "Dosen A" "Senin" "13:00" "14:40"
    true false = Some (true, 60)
  /\ exists ss se, parse_time "13:00" = Some ss /\ parse_time "14:40" = Some se
       /\ ((60 = 100 - 0
            /\ exists r, r ∈ ["08:00-10:00"] /\ range_holds r ss se = Some true)
           \/ (60 = 60 - 0
               /\ forall r, r ∈ ["08:00-10:00"] -> range_holds r ss se = Some false)).
Proof.
  assert (Hrun : check_lecturer_preferences sample_preferences "Dosen A" "Senin"
                   "13:00" "14:40" true false = Some (true, 60))
    by (vm_compute; reflexivity).
  split; [exact Hrun|].
  exact (proj2 (allowed_physical_score sample_preferences "Dosen A" "Senin"
                  "13:00" "14:40" true 60 Hrun)).
Defined.

(** C3: the online slot Monday 08:00-09:40 lies inside the blocked range of the
    second sample lecturer (a room slot there is rejected); the model allows it
    with score 50, the very score of the same slot once the range is removed,
    so there is no penalty. *)
Theorem online_overlap_not_penalised :
  check_lecturer_preferences sample_preferences "Dosen B" "Senin" "08:00" "09:40"
    true false = Some (false, 0)
  /\ check_lecturer_preferences sample_preferences "Dosen B" "Senin" "08:00" "09:40"
       true true = Some (true, 50)
  /\ check_lecturer_preferences
       (<["Dosen B" := without_unavailable
                         (default no_preferences (sample_preferences !! "Dosen B"))]>
          sample_preferences)
       "Dosen B" "Senin" "08:00" "09:40" true true = Some (true, 50).
Proof. repeat split; vm_compute; reflexivity. Qed.

(** ** Legal time blocks *)

Lemma TIMEBLOCKS_other sks :
  sks <> 1 -> sks <> 2 -> sks <> 3 ->
  TIMEBLOCKS !! sks = None /\ TIMEBLOCKS_JUMAT !! sks = None.
Proof.
  intros H1 H2 H3. unfold TIMEBLOCKS, TIMEBLOCKS_JUMAT.
  split; rewrite !lookup_insert_ne by done; by apply lookup_singleton_ne.
Qed.

Ltac each_block Hin :=
  repeat (apply elem_of_cons in Hin as [-> | Hin]; [vm_compute; reflexivity|]);
  by apply elem_of_nil in Hin.

(** C4 fails as stated: a block offered for one credit lasts 50 minutes, not
    100. *)
Lemma timeblock_duration_counterexample :
  "08:00-08:50" ∈ get_timeblocks_for_day "Senin" 1
  /\ block_duration "08:00-08:50" = Some 50
  /\ 50 <> 100.
Proof.
  split; [|split].
  - vm_compute. left.
  - vm_compute. reflexivity.
  - lia.
Qed.

(** C4, amended: every block that [get_timeblocks_for_day] offers lasts 50
    minutes for one credit, 100 minutes for two credits and 150 minutes for
    three credits or for any other credit value. *)
Theorem timeblock_duration day sks tb :
  tb ∈ get_timeblocks_for_day day sks ->
  block_duration tb
  = Some (if bool_decide (sks = 1) then 50 else if bool_decide (sks = 2) then 100 else 150).
Proof.
  unfold get_timeblocks_for_day. intros Hin.
  destruct (decide (sks = 1)) as [->|H1];
    [|destruct (decide (sks = 2)) as [->|H2];
      [|destruct (decide (sks = 3)) as [->|H3]]].
  - destruct (bool_decide (day = "Jumat")); vm_compute in Hin; each_block Hin.
  - destruct (bool_decide (day = "Jumat")); vm_compute in Hin; each_block Hin.
  - destruct (bool_decide (day = "Jumat")); vm_compute in Hin; each_block Hin.
  - destruct (TIMEBLOCKS_other sks H1 H2 H3) as [E1 E2]. rewrite E1, E2 in Hin.
    rewrite (bool_decide_eq_false_2 _ H1), (bool_decide_eq_false_2 _ H2).
    destruct (bool_decide (day = "Jumat")); vm_compute in Hin; each_block Hin.
Qed.

(** C4, amended, at a Friday block for three credits. *)
Lemma timeblock_duration_witness :
  "09:40-12:10" ∈ get_timeblocks_for_day "Jumat" 3
  /\ block_duration "09:40-12:10" = Some 150.
Proof.
  assert (Hin : "09:40-12:10" ∈ get_timeblocks_for_day "Jumat" 3)
    by (vm_compute; right; left).
  split; [exact Hin|].
  exact (timeblock_duration "Jumat" 3 "09:40-12:10" Hin).
Defined.

(** The other engine writes end times by counting 50-minute slots: across
    the midday gap a two-credit class gets 159 minutes, and at the last slot
    of the day it gets 50. *)
Example hybrid_times_across_break :
  hybrid_times "Senin" 2 5 = Some ("12:10", "14:49")
  /\ block_duration "12:10-14:49" = Some 159.
Proof. split; vm_compute; reflexivity. Qed.

Example hybrid_times_last_slot :
  hybrid_times "Senin" 2 10 = Some ("17:19", "18:09")
  /\ block_duration "17:19-18:09" = Some 50.
Proof. split; vm_compute; reflexivity. Qed.

(** ** Python's [sorted] *)

Section PySortedFacts.
Context {A K : Type} (ltb : K -> K -> bool) (key : A -> K).

Lemma sorted_insert_perm reverse x l :
  sorted_insert ltb key reverse x l ≡ₚ x :: l.
Proof.
  induction l as [|y r IH]; simpl; [done|].
  destruct (if reverse then ltb (key x) (key y) else ltb (key y) (key x)); [|done].
  rewrite IH. apply Permutation_swap.
Qed.

Lemma py_sorted_perm reverse l : py_sorted ltb key reverse l ≡ₚ l.
Proof.
  induction l as [|x l IH]; simpl; [done|].
  rewrite sorted_insert_perm. by rewrite IH.
Qed.

Lemma py_sorted_elem_of reverse l x : x ∈ py_sorted ltb key reverse l <-> x ∈ l.
Proof. by rewrite py_sorted_perm. Qed.

End PySortedFacts.

Section PySortedOrder.
Context {A K : Type} (ltb : K -> K -> bool) (key : A -> K).
Hypothesis ltb_asym : forall x y, ltb x y = true -> ltb y x = false.
Hypothesis ltb_negtrans :
  forall x y z, ltb x y = false -> ltb y z = false -> ltb x z = false.

Lemma sorted_insert_reverse_sorted x l :
  StronglySorted (fun a b => ltb (key a) (key b) = false) l ->
  StronglySorted (fun a b => ltb (key a) (key b) = false)
    (sorted_insert ltb key true x l).
Proof.
  induction l as [|y r IH]; simpl; intros Hs.
  - repeat constructor.
  - apply StronglySorted_inv in Hs as [Hr Hy].
    destruct (ltb (key x) (key y)) eqn:Hlt.
    + constructor; [by apply IH|].
      rewrite sorted_insert_perm. constructor; [by apply ltb_asym | done].
    + constructor; [by constructor|].
      constructor; [done|]. eapply Forall_impl; [exact Hy|]. simpl.
      intros z Hz. by eapply ltb_negtrans.
Qed.

(** With [reverse=True] no element is followed by one of a larger key. *)
Lemma py_sorted_reverse_sorted l :
  StronglySorted (fun a b => ltb (key a) (key b) = false) (py_sorted ltb key true l).
Proof.
  induction l as [|x l IH]; simpl; [constructor | by apply sorted_insert_reverse_sorted].
Qed.

End PySortedOrder.

Section PySortedByNumber.
Context {A : Type} (key : A -> Z).

Lemma sorted_insert_descending x l :
  StronglySorted (fun a b => key b <= key a) l ->
  StronglySorted (fun a b => key b <= key a) (sorted_insert Z.ltb key true x l).
Proof.
  induction l as [|y r IH]; simpl; intros Hs.
  - repeat constructor.
  - apply StronglySorted_inv in Hs as [Hr Hy].
    destruct (key x <? key y) eqn:Hlt.
    + apply Z.ltb_lt in Hlt. constructor; [by apply IH|].
      rewrite sorted_insert_perm. constructor; [lia | done].
    + apply Z.ltb_ge in Hlt. constructor; [by constructor|].
      constructor; [done|]. eapply Forall_impl; [exact Hy|]. simpl. intros; lia.
Qed.

Lemma sorted_insert_ascending x l :
  StronglySorted (fun a b => key a <= key b) l ->
  StronglySorted (fun a b => key a <= key b) (sorted_insert Z.ltb key false x l).
Proof.
  induction l as [|y r IH]; simpl; intros Hs.
  - repeat constructor.
  - apply StronglySorted_inv in Hs as [Hr Hy].
    destruct (key y <? key x) eqn:Hlt.
    + apply Z.ltb_lt in Hlt. constructor; [by apply IH|].
      rewrite sorted_insert_perm. constructor; [lia | done].
    + apply Z.ltb_ge in Hlt. constructor; [by constructor|].
      constructor; [done|]. eapply Forall_impl; [exact Hy|]. simpl. intros; lia.
Qed.

(** [sorted(..., reverse=True)] on numeric keys: largest key first. *)
Lemma py_sorted_descending l :
  StronglySorted (fun a b => key b <= key a) (py_sorted Z.ltb key true l).
Proof.
  induction l as [|x l IH]; simpl; [constructor | by apply sorted_insert_descending].
Qed.

Lemma py_sorted_ascending l :
  StronglySorted (fun a b => key a <= key b) (py_sorted Z.ltb key false l).
Proof.
  induction l as [|x l IH]; simpl; [constructor | by apply sorted_insert_ascending].
Qed.

End PySortedByNumber.

(** ** Scheduling order of lecturers *)

(** C6 fails as stated: a lecturer without available days gets no points for
    days, where the formula of the claim gives 500. *)
Lemma restrictiveness_counterexample :
  calculate_restrictiveness ∅ sample_sections_map "Dosen A" = 10
  /\ 10 <> 100 * (5 - 0) + 50 * 0 + 10 * 1.
Proof. split; [vm_compute; reflexivity | lia]. Qed.

(** C6, amended: the score is 100 x (5 - number of available days) when
    available days are given and 0 for that term when none are, plus 50 per
    blocked time range, plus 10 per regular section of the lecturer; and the
    lecturers are taken in an order that is a rearrangement of the map's
    entries with the scores never increasing. *)
Theorem restrictiveness_order {Sec : Type} (lp : gmap string preferences)
    (m : list (string * list Sec)) :
  (forall lect,
     let prefs := default no_preferences (lp !! lect) in
     calculate_restrictiveness lp m lect
     = (if bool_decide (available_days prefs = []) then 0
        else 100 * (5 - Z.of_nat (length (available_days prefs))))
       + 50 * Z.of_nat (length (unavailable_time_ranges prefs))
       + 10 * Z.of_nat (length (sections_of m lect)))
  /\ sorted_lecturers lp m ≡ₚ m
  /\ StronglySorted
       (fun x y => calculate_restrictiveness lp m y.1 <= calculate_restrictiveness lp m x.1)
       (sorted_lecturers lp m).
Proof.
  split; [|split].
  - intros lect prefs. unfold calculate_restrictiveness. fold prefs.
    destruct (bool_decide (available_days prefs = [])); simpl; lia.
  - apply py_sorted_perm.
  - apply (py_sorted_descending (fun x => calculate_restrictiveness lp m x.1)).
Qed.

(** ** Donor candidates of the rebalancing pass *)

(** C7: of two ordinary-room classes on the donor day the three-credit one is
    tried first, although the claim (and the comment at the sort key) puts the
    smaller credit count first. *)
Theorem donor_candidates_larger_first :
  donor_candidates sample_sections sample_schedule_result "Senin"
  = Some [1%nat; 0%nat]
  /\ sec_sks <$> sample_sections !! 1%nat = Some (Some 3)
  /\ sec_sks <$> sample_sections !! 0%nat = Some (Some 2).
Proof. repeat split; vm_compute; reflexivity. Qed.

Lemma donor_key_ltb_asym k1 k2 : donor_key_ltb k1 k2 = true -> donor_key_ltb k2 k1 = false.
Proof.
  destruct k1 as [[a1 b1] c1], k2 as [[a2 b2] c2]. unfold donor_key_ltb, bool_ltb.
  destruct a1, a2, b1, b2; simpl; try done;
    rewrite Z.ltb_lt, Z.ltb_ge; lia.
Qed.

Lemma donor_key_ltb_negtrans k1 k2 k3 :
  donor_key_ltb k1 k2 = false -> donor_key_ltb k2 k3 = false -> donor_key_ltb k1 k3 = false.
Proof.
  destruct k1 as [[a1 b1] c1], k2 as [[a2 b2] c2], k3 as [[a3 b3] c3].
  unfold donor_key_ltb, bool_ltb.
  destruct a1, a2, a3, b1, b2, b3; simpl; try done;
    rewrite !Z.ltb_ge; lia.
Qed.

(** The part of C7 that holds: the candidates are ordered by their keys, no
    candidate being followed by one of a larger key ... *)
Lemma donor_candidates_sorted sections schedule_result donor_day candidates :
  donor_candidates sections schedule_result donor_day = Some candidates ->
  exists keyed : list (nat * (bool * bool * Z)),
    candidates = keyed.*1
    /\ StronglySorted (fun x y => donor_key_ltb x.2 y.2 = false) keyed
    /\ Forall (fun e => exists day room tb sec,
                 (e.1, (day, room, tb)) ∈ schedule_result
                 /\ sections !! e.1 = Some sec
                 /\ e.2 = donor_key room sec) keyed.
Proof.
  unfold donor_candidates.
  destruct (mapM _ _) as [keyed|] eqn:Hkeyed; simpl; [|done].
  intros [= <-]. exists (py_sorted donor_key_ltb snd true keyed).
  split; [done|]. split.
  - apply (py_sorted_reverse_sorted donor_key_ltb snd);
      [apply donor_key_ltb_asym | apply donor_key_ltb_negtrans].
  - rewrite py_sorted_perm. apply mapM_Some in Hkeyed.
    apply Forall_forall. intros e He.
    apply list_elem_of_lookup in He as [k Hk].
    destruct (Forall2_lookup_r _ _ _ _ _ Hkeyed Hk) as ([si [[day room] tb]] & Hsrc & He).
    simpl in He. destruct (sections !! si) as [sec|] eqn:Hsec; simpl in He; [|done].
    injection He as <-. simpl.
    exists day, room, tb, sec. split; [|done].
    apply list_elem_of_lookup_2 in Hsrc. apply list_elem_of_In, filter_In in Hsrc as [Hin _].
    by apply list_elem_of_In.
Qed.

(** ... so that after a lab class in a physical room (key [(False, False, _)])
    only such classes follow: the online and the non-lab classes all come
    first. *)
Lemma donor_key_lab_last k1 k2 :
  donor_key_ltb k1 k2 = false -> k1.1.1 = false -> k1.1.2 = false ->
  k2.1.1 = false /\ k2.1.2 = false.
Proof.
  destruct k1 as [[a1 b1] c1], k2 as [[a2 b2] c2]. unfold donor_key_ltb, bool_ltb. simpl.
  intros Hk -> ->. by destruct a2, b2.
Qed.

(** ** Conflict detectors *)

Section CheckScheduleConflictsFacts.
Context `{PyInt}.

Lemma group_append_keys {K V : Type} `{EqDecision K} (P : K -> Prop) (k : K) (v : V)
    (d : list (K * list V)) :
  P k -> Forall (fun g => P g.1) d -> Forall (fun g => P g.1) (group_append k v d).
Proof.
  intros Hk. induction d as [|[k' vs] rest IH]; simpl; intros Hd.
  - by repeat constructor.
  - apply Forall_cons in Hd as [Hk' Hrest].
    destruct (decide (k = k')); constructor; auto.
Qed.

Lemma group_slots_physical schedule ls rs ls' rs' :
  Forall (fun g => g.1.2 <> "ONLINE") rs ->
  group_slots schedule ls rs = Some (ls', rs') ->
  Forall (fun g => g.1.2 <> "ONLINE") rs'.
Proof.
  revert ls rs. induction schedule as [|slot rest IH]; simpl; intros ls rs Hrs Hrun.
  - by injection Hrun as _ <-.
  - destruct (doc_day slot) as [day|]; [|by eapply IH].
    destruct (doc_room slot) as [room|]; [|by eapply IH].
    destruct (doc_start slot) as [start_time|]; [|by eapply IH].
    destruct (doc_end slot) as [end_time|]; [|by eapply IH].
    destruct (Py.truthy day && Py.truthy room && Py.truthy start_time
              && Py.truthy end_time); [|by eapply IH].
    destruct (parse_time start_time) as [start_min|]; simpl in Hrun; [|done].
    destruct (parse_time end_time) as [end_min|]; simpl in Hrun; [|done].
    eapply IH; [|exact Hrun].
    destruct (bool_decide (room = "ONLINE")) eqn:Hroom; simpl; [done|].
    apply bool_decide_eq_false in Hroom.
    by apply (group_append_keys (fun k : string * string => k.2 <> "ONLINE")).
Qed.

Lemma room_conflicts_of_room g c : c ∈ room_conflicts_of g -> rc_room c = g.1.2.
Proof.
  destruct g as [[day room] slots]. unfold room_conflicts_of.
  intros Hin. apply list_elem_of_omap in Hin as ([[[[[s1 e1] c1] l1] id1] [[[[s2 e2] c2] l2] id2]] & _ & Hc).
  destruct ((s1 <? e2) && (s2 <? e1)); [|done]. by injection Hc as <-.
Qed.

(** The detector by interval comparison never reports a room conflict for the
    virtual room. *)
Lemma check_schedule_conflicts_skips_online schedule lcs rcs :
  check_schedule_conflicts schedule = Some (lcs, rcs) ->
  forall c, c ∈ rcs -> rc_room c <> "ONLINE".
Proof.
  unfold check_schedule_conflicts.
  destruct (group_slots schedule [] []) as [[ls rs]|] eqn:Hgroup; simpl; [|done].
  intros [= <- <-] c Hc.
  apply group_slots_physical in Hgroup; [|constructor].
  apply list_elem_of_bind in Hc as (g & Hc & Hg).
  rewrite (room_conflicts_of_room g c Hc).
  rewrite Forall_forall in Hgroup. by apply Hgroup.
Qed.

End CheckScheduleConflictsFacts.

(** C5: for two online classes at the same time the ten-minute detector
    reports ten room conflicts, all in the room "ONLINE"; the detector by
    interval comparison reports none for the same timetable. *)
Theorem build_conflict_report_counts_online :
  room_conflict_count (build_conflict_report online_pair) = 10%nat
  /\ cf_party <$> room_conflicts_sample (build_conflict_report online_pair)
     = replicate 10 "ONLINE"
  /\ lecturer_conflict_count (build_conflict_report online_pair) = 0%nat
  /\ check_schedule_conflicts online_pair = Some ([], []).
Proof. repeat split; vm_compute; reflexivity. Qed.

(** ** Section generator: lecturers per course *)

Lemma index_map_fold_sound (lecturers : list lecturer) (es : list (nat * lecturer))
    (m0 : gmap string nat) :
  Forall (fun e => lecturers !! e.1 = Some e.2) es ->
  (forall name idx, m0 !! name = Some idx ->
     exists l, lecturers !! idx = Some l /\ lec_name l = name) ->
  forall name idx,
    foldl (fun m e => <[lec_name e.2 := e.1]> m) m0 es !! name = Some idx ->
    exists l, lecturers !! idx = Some l /\ lec_name l = name.
Proof.
  revert m0. induction es as [|[i l] es IH]; simpl; intros m0 Hes Hm0; [done|].
  apply Forall_cons in Hes as [Hil Hes]. simpl in Hil.
  apply IH; [done|]. intros name idx.
  destruct (decide (lec_name l = name)) as [<-|Hne].
  - rewrite lookup_insert_eq. intros [= <-]. eauto.
  - rewrite lookup_insert_ne by done. apply Hm0.
Qed.

(** An index found in [lecturer_index_map] is the position of a lecturer of
    that name. *)
Lemma lecturer_index_map_sound lecturers name idx :
  lecturer_index_map lecturers !! name = Some idx ->
  exists l, lecturers !! idx = Some l /\ lec_name l = name.
Proof.
  unfold lecturer_index_map. apply index_map_fold_sound.
  - apply Forall_lookup. intros i [j l]. rewrite list_lookup_imap.
    destruct (lecturers !! i) eqn:Hi; simpl; [|done]. by intros [= <- <-].
  - intros name' idx'. by rewrite lookup_empty.
Qed.

Lemma allowed_indices_sound lecturers c idx :
  idx ∈ allowed_indices lecturers c ->
  exists l, lecturers !! idx = Some l
    /\ ((exists name, name ∈ selected_by c
                      /\ is_Some (lecturer_index_map lecturers !! name))
        -> lec_name l ∈ selected_by c).
Proof.
  unfold allowed_indices.
  destruct (bool_decide _) eqn:Hempty.
  - apply bool_decide_eq_true in Hempty. intros Hin.
    apply elem_of_seq in Hin as [_ Hlt]. simpl in Hlt.
    destruct (lookup_lt_is_Some_2 lecturers idx Hlt) as [l Hl].
    exists l. split; [done|]. intros (name & Hname & [i Hi]).
    assert (Hmem : i ∈ omap (fun name => lecturer_index_map lecturers !! name) (selected_by c))
      by (apply list_elem_of_omap; eauto).
    rewrite Hempty in Hmem. by apply elem_of_nil in Hmem.
  - intros Hin. apply list_elem_of_omap in Hin as (name & Hname & Hidx).
    destruct (lecturer_index_map_sound _ _ _ Hidx) as (l & Hl & <-). eauto.
Qed.

Lemma assign_course_candidates n allowed draw assigned :
  assign_course n allowed draw = Some assigned ->
  forall idx, idx ∈ assigned ->
    idx ∈ (if bool_decide (allowed = []) then seq 0 n else allowed).
Proof.
  unfold assign_course. destruct draw as [num_dosens positions].
  set (candidates := if bool_decide (allowed = []) then seq 0 n else allowed).
  destruct (bool_decide (candidates = [])).
  { intros [= <-] idx Hin. by apply elem_of_nil in Hin. }
  destruct (_ && _); [|done].
  intros Hmap idx Hin. apply mapM_Some in Hmap.
  apply list_elem_of_lookup in Hin as [k Hk].
  destruct (Forall2_lookup_r _ _ _ _ _ Hmap Hk) as (pos & _ & Hpos).
  by apply list_elem_of_lookup_2 in Hpos.
Qed.

Lemma allowed_indices_fallback lecturers c :
  (if bool_decide (allowed_indices lecturers c = [])
   then seq 0 (length lecturers) else allowed_indices lecturers c)
  = allowed_indices lecturers c.
Proof.
  unfold allowed_indices.
  destruct (bool_decide (omap _ _ = [])) eqn:Hempty.
  - by destruct (bool_decide (seq 0 (length lecturers) = [])).
  - by rewrite Hempty.
Qed.




(** The registered mutation exchanges the lecturer lists of two courses; the
    exchanged individual can give a course a lecturer outside its allowed
    list, which [evaluate_assignment] prices (here at 300000) instead of
    excluding. *)
Example exchange_breaks_allowed :
  let courses := [ {| course_sks := Some 3; selected_by := ["Dosen A"] |};
                   {| course_sks := Some 3; selected_by := ["Dosen B"] |} ] in
  let allowed := allowed_indices_per_course sample_lecturers courses in
  allowed = [[0%nat]; [1%nat]]
  /\ exchange 0 1 [[0%nat]; [1%nat]] = [[1%nat]; [0%nat]]
  /\ evaluate_assignment sample_lecturers allowed [[0%nat]; [1%nat]] = 10000
  /\ evaluate_assignment sample_lecturers allowed [[1%nat]; [0%nat]] = 300000.
Proof. repeat split; vm_compute; reflexivity. Qed.

(** ** Section-count repair *)

Section RepairFacts.
Variable info : list (string * Z).

Lemma raised_refl touched a : raised touched a a.
Proof. split; [done|]. intros idx v v' Hv Hv'. left. congruence. Qed.

Lemma lowered_refl touched a : lowered touched a a.
Proof. split; [done|]. intros idx v v' Hv Hv'. left. congruence. Qed.

Lemma raised_trans touched a b c :
  raised touched a b -> raised touched b c -> raised touched a c.
Proof.
  intros [Hlen1 H1] [Hlen2 H2]. split; [congruence|].
  intros idx v v'' Hv Hv''.
  destruct (lookup_lt_is_Some_2 b idx) as [v' Hv'].
  { rewrite <- Hlen1. eapply lookup_lt_Some; eauto. }
  destruct (H1 idx v v' Hv Hv') as [->|(Hin & Hlt & Hle)];
    destruct (H2 idx v' v'' Hv' Hv'') as [->|(Hin' & Hlt' & Hle')]; auto;
    right; repeat split; auto; lia.
Qed.

Lemma lowered_trans touched a b c :
  lowered touched a b -> lowered touched b c -> lowered touched a c.
Proof.
  intros [Hlen1 H1] [Hlen2 H2]. split; [congruence|].
  intros idx v v'' Hv Hv''.
  destruct (lookup_lt_is_Some_2 b idx) as [v' Hv'].
  { rewrite <- Hlen1. eapply lookup_lt_Some; eauto. }
  destruct (H1 idx v v' Hv Hv') as [->|(Hin & Hlt & Hle)];
    destruct (H2 idx v' v'' Hv' Hv'') as [->|(Hin' & Hlt' & Hle')]; auto;
    right; repeat split; auto; lia.
Qed.

Lemma increase_once_raised sorted_indices individual :
  raised sorted_indices individual (increase_once sorted_indices individual).
Proof.
  unfold increase_once.
  destruct (List.find _ sorted_indices) as [best_idx|] eqn:Hfind;
    [|apply raised_refl].
  apply find_some in Hfind as [Hin Hlt]. apply list_elem_of_In in Hin.
  split; [by rewrite length_alter|].
  intros idx v v' Hv Hv'.
  destruct (decide (best_idx = idx)) as [->|Hne].
  - rewrite list_lookup_alter_eq, Hv in Hv'. injection Hv' as <-.
    rewrite Hv in Hlt. simpl in Hlt. apply Z.ltb_lt in Hlt.
    right. repeat split; [done | lia | lia].
  - rewrite list_lookup_alter_ne in Hv' by done. left. congruence.
Qed.

Lemma decrease_once_lowered sorted_indices individual :
  lowered sorted_indices individual (decrease_once sorted_indices individual).
Proof.
  unfold decrease_once.
  destruct (List.find _ sorted_indices) as [best_idx|] eqn:Hfind;
    [|apply lowered_refl].
  apply find_some in Hfind as [Hin Hlt]. apply list_elem_of_In in Hin.
  split; [by rewrite length_alter|].
  intros idx v v' Hv Hv'.
  destruct (decide (best_idx = idx)) as [->|Hne].
  - rewrite list_lookup_alter_eq, Hv in Hv'. injection Hv' as <-.
    rewrite Hv in Hlt. simpl in Hlt. apply Z.ltb_lt in Hlt.
    right. repeat split; [done | lia | lia].
  - rewrite list_lookup_alter_ne in Hv' by done. left. congruence.
Qed.

Lemma iter_increase_raised n sorted_indices individual :
  raised sorted_indices individual
    (Nat.iter n (increase_once sorted_indices) individual).
Proof.
  induction n as [|n IH]; simpl; [apply raised_refl|].
  eapply raised_trans; [exact IH | apply increase_once_raised].
Qed.

Lemma iter_decrease_lowered n sorted_indices individual :
  lowered sorted_indices individual
    (Nat.iter n (decrease_once sorted_indices) individual).
Proof.
  induction n as [|n IH]; simpl; [apply lowered_refl|].
  eapply lowered_trans; [exact IH | apply decrease_once_lowered].
Qed.

(** The genes of a lecturer are genes that carry the lecturer's name. *)
Lemma dosen_indices_name individual name idx :
  idx ∈ dosen_indices info individual name ->
  exists sks, info !! idx = Some (name, sks).
Proof.
  unfold dosen_indices. intros Hin.
  apply list_elem_of_bind in Hin as ([i [[n sks] v]] & Hidx & He).
  apply elem_of_lookup_imap in He as (j & x & Heq & Hx).
  injection Heq as <- <-. simpl in Hidx.
  apply lookup_zip_with_Some in Hx as (p & w & Hpw & Hp & _).
  injection Hpw as <- <-.
  destruct (bool_decide (n = name)) eqn:Hn; [|by apply elem_of_nil in Hidx].
  apply bool_decide_eq_true in Hn as ->.
  apply list_elem_of_singleton in Hidx as ->. eauto.
Qed.


Variable start : list Z.
Hypothesis start_ok : counts_ok start.

Lemma pass_invariant_start : pass_invariant info start [] (true, start).
Proof.
  repeat split; simpl; try done.
  - intros idx v v' Hv Hv' Hne. congruence.
  - intros name Hin. by apply elem_of_nil in Hin.
Qed.

Lemma in_band_snoc processed name :
  in_band info (processed ++ [name]) start
  <-> in_band info processed start
      /\ (dosen_sks info start name = 0
          \/ MIN_SKS_PER_DOSEN <= dosen_sks info start name <= MAX_SKS_PER_DOSEN).
Proof.
  unfold in_band. split.
  - intros Hall. split.
    + intros n Hn. apply Hall, elem_of_app. by left.
    + apply Hall, elem_of_app. right. by apply list_elem_of_singleton.
  - intros [Hall Hname] n Hn. apply elem_of_app in Hn as [Hn|Hn]; [by apply Hall|].
    by apply list_elem_of_singleton in Hn as ->.
Qed.

Lemma raised_counts_ok touched a b : counts_ok a -> raised touched a b -> counts_ok b.
Proof.
  unfold counts_ok. rewrite !Forall_lookup. intros Ha [Hlen Hab] idx v' Hv'.
  destruct (lookup_lt_is_Some_2 a idx) as [v Hv].
  { rewrite Hlen. eapply lookup_lt_Some; eauto. }
  specialize (Ha idx v Hv).
  destruct (Hab idx v v' Hv Hv') as [->|(_ & Hlt & Hle)]; lia.
Qed.

Lemma lowered_counts_ok touched a b : counts_ok a -> lowered touched a b -> counts_ok b.
Proof.
  unfold counts_ok. rewrite !Forall_lookup. intros Ha [Hlen Hab] idx v' Hv'.
  destruct (lookup_lt_is_Some_2 a idx) as [v Hv].
  { rewrite Hlen. eapply lookup_lt_Some; eauto. }
  specialize (Ha idx v Hv).
  destruct (Hab idx v v' Hv Hv') as [->|(_ & Hlt & Hle)]; lia.
Qed.

(** Raising genes of an under-loaded lecturer keeps the changes justified. *)
Lemma justified_raised name touched cur cur' :
  dosen_sks info start name < MIN_SKS_PER_DOSEN ->
  (forall idx, idx ∈ touched -> exists sks, info !! idx = Some (name, sks)) ->
  length cur = length start ->
  justified info start cur -> raised touched cur cur' -> justified info start cur'.
Proof.
  intros Hunder Htouched Hlen Hjust [Hlen' Hraised] idx v v'' Hv Hv'' Hne.
  destruct (lookup_lt_is_Some_2 cur idx) as [v' Hv'].
  { rewrite Hlen. eapply lookup_lt_Some; eauto. }
  destruct (Hraised idx v' v'' Hv' Hv'') as [->|(Hin & Hlt & Hle)].
  - by apply (Hjust idx v v'').
  - destruct (Htouched idx Hin) as [sks Hinfo]. exists name, sks.
    split; [done|]. split; [done|]. intros Hdown.
    destruct (Hjust idx v v' Hv Hv') as (name0 & sks0 & Hinfo0 & _ & Hover); [lia|].
    rewrite Hinfo in Hinfo0. injection Hinfo0 as <- <-. apply Hover. lia.
Qed.

Lemma justified_lowered name touched cur cur' :
  MAX_SKS_PER_DOSEN < dosen_sks info start name ->
  (forall idx, idx ∈ touched -> exists sks, info !! idx = Some (name, sks)) ->
  length cur = length start ->
  justified info start cur -> lowered touched cur cur' -> justified info start cur'.
Proof.
  intros Hover Htouched Hlen Hjust [Hlen' Hlowered] idx v v'' Hv Hv'' Hne.
  destruct (lookup_lt_is_Some_2 cur idx) as [v' Hv'].
  { rewrite Hlen. eapply lookup_lt_Some; eauto. }
  destruct (Hlowered idx v' v'' Hv' Hv'') as [->|(Hin & Hlt & Hle)].
  - by apply (Hjust idx v v'').
  - destruct (Htouched idx Hin) as [sks Hinfo]. exists name, sks.
    split; [done|]. split; [|done]. intros Hup.
    destruct (Hjust idx v v' Hv Hv') as (name0 & sks0 & Hinfo0 & Hunder & _); [lia|].
    rewrite Hinfo in Hinfo0. injection Hinfo0 as <- <-. apply Hunder. lia.
Qed.

Lemma sorted_indices_name reverse name idx :
  idx ∈ py_sorted Z.ltb (gene_sks info) reverse (dosen_indices info start name) ->
  exists sks, info !! idx = Some (name, sks).
Proof. rewrite py_sorted_elem_of. apply dosen_indices_name. Qed.

Lemma repair_lecturer_invariant processed st name :
  pass_invariant info start processed st ->
  pass_invariant info start (processed ++ [name]) (repair_lecturer info start st name).
Proof.
  destruct st as [all_valid cur]. unfold pass_invariant, repair_lecturer. simpl.
  intros (Hlen & Hok & Hjust & Htrue & Hfalse).
  destruct (dosen_sks info start name =? 0) eqn:Hzero.
  { apply Z.eqb_eq in Hzero. simpl. repeat split; try done.
    - by apply Htrue.
    - apply in_band_snoc. split; [by apply Htrue | by left].
    - intros Hv Hband. apply in_band_snoc in Hband as [Hband _]. by apply Hfalse. }
  apply Z.eqb_neq in Hzero.
  destruct (dosen_sks info start name <? MIN_SKS_PER_DOSEN) eqn:Hunder.
  { apply Z.ltb_lt in Hunder. simpl.
    pose proof (iter_increase_raised
                  (Z.to_nat (MIN_SKS_PER_DOSEN - dosen_sks info start name))
                  (py_sorted Z.ltb (gene_sks info) false (dosen_indices info start name))
                  cur) as Hraised.
    repeat split; try done.
    - destruct Hraised as [<- _]. done.
    - by eapply raised_counts_ok.
    - eapply justified_raised; eauto. apply sorted_indices_name.
    - intros _ Hband. apply in_band_snoc in Hband as [_ [Hb|Hb]]; lia. }
  apply Z.ltb_ge in Hunder.
  destruct (MAX_SKS_PER_DOSEN <? dosen_sks info start name) eqn:Hover.
  { apply Z.ltb_lt in Hover. simpl.
    pose proof (iter_decrease_lowered
                  (Z.to_nat (dosen_sks info start name - MAX_SKS_PER_DOSEN))
                  (py_sorted Z.ltb (gene_sks info) true (dosen_indices info start name))
                  cur) as Hlowered.
    repeat split; try done.
    - destruct Hlowered as [<- _]. done.
    - by eapply lowered_counts_ok.
    - eapply justified_lowered; eauto. apply sorted_indices_name.
    - intros _ Hband. apply in_band_snoc in Hband as [_ [Hb|Hb]]; lia. }
  apply Z.ltb_ge in Hover. simpl. repeat split; try done.
  - by apply Htrue.
  - apply in_band_snoc. split; [by apply Htrue | right; lia].
  - intros Hv Hband. apply in_band_snoc in Hband as [Hband _]. by apply Hfalse.
Qed.

Lemma repair_fold_invariant names processed st :
  pass_invariant info start processed st ->
  pass_invariant info start (processed ++ names) (foldl (repair_lecturer info start) st names).
Proof.
  revert processed st. induction names as [|name names IH]; simpl; intros processed st Hinv.
  - by rewrite app_nil_r.
  - replace (processed ++ name :: names) with ((processed ++ [name]) ++ names)
      by (by rewrite <- app_assoc).
    apply IH. by apply repair_lecturer_invariant.
Qed.

Lemma repair_pass_invariant names :
  pass_invariant info start names (repair_pass info names start).
Proof. apply (repair_fold_invariant names []), pass_invariant_start. Qed.

End RepairFacts.

Lemma repair_loop_contract info names remaining iteration individual :
  counts_ok individual ->
  exists n,
    nsteps (modifying_pass info names) n individual
      (repair_loop info remaining iteration names individual).2
    /\ counts_ok (repair_loop info remaining iteration names individual).2
    /\ length (repair_loop info remaining iteration names individual).2 = length individual
    /\ ((in_band info names (repair_loop info remaining iteration names individual).2
         /\ (repair_loop info remaining iteration names individual).1 = S (iteration + n)
         /\ (n < remaining)%nat)
        \/ ((repair_loop info remaining iteration names individual).1 = (iteration + n)%nat
            /\ n = remaining)).
Proof.
  revert iteration individual.
  induction remaining as [|remaining IH]; simpl; intros iteration individual Hok.
  - exists 0%nat. split; [constructor|]. split; [done|]. split; [done|].
    right. split; [lia | done].
  - pose proof (repair_pass_invariant info individual Hok names) as Hinv.
    destruct (repair_pass info names individual) as [all_valid next] eqn:Hpass.
    destruct Hinv as (Hlen & Hnext & Hjust & Htrue & Hfalse). simpl in *.
    destruct all_valid; simpl.
    + destruct (Htrue eq_refl) as [-> Hband].
      exists 0%nat. split; [constructor|]. split; [done|]. split; [done|].
      left. split; [done|]. split; lia.
    + destruct (IH (S iteration) next Hnext) as (n & Hsteps & Hres & Hlen' & Hend).
      exists (S n). split.
      { econstructor; [|exact Hsteps]. split; [done|]. split; [done | by apply Hfalse]. }
      split; [done|]. split; [congruence|].
      destruct Hend as [(Hband & Hit & Hn)|[Hit Hn]].
      * left. split; [done|]. split; lia.
      * right. split; lia.
Qed.

Lemma gene_info_in_range courses_list lecturers_list (l : list (nat * nat)) :
  Forall (fun p => (p.1 < length lecturers_list)%nat /\ (p.2 < length courses_list)%nat) l ->
  is_Some (mapM (gene_info courses_list lecturers_list) l).
Proof.
  intros Hall. apply mapM_is_Some. eapply Forall_impl; [exact Hall|].
  intros [lect_idx course_idx] [Hl Hc]. simpl in *. unfold gene_info. simpl.
  destruct (lookup_lt_is_Some_2 lecturers_list lect_idx Hl) as [l' ->].
  destruct (lookup_lt_is_Some_2 courses_list course_idx Hc) as [c' ->].
  simpl. eauto.
Qed.



(** ** Reschedule engine *)

(** C1: the Monday timetable has no conflict.  After the first lecturer's
    report the engine finds no free slot for the 08:00 class, moves the
    lecturer's 09:40 class to 13:00-14:40 and puts the 08:00 class at
    09:40-11:20 in its old room without testing the room: the class counts as
    moved, nothing is listed as failed, and the room now holds it together
    with the second lecturer's class at the same time. *)
Theorem swap_commits_room_overlap :
  check_schedule_conflicts monday_timetable = Some ([], [])
  /\ exists r, monday_repair = Some r
       /\ Reschedule.res_moved r = 1%nat
       /\ Reschedule.res_failed_courses r = []
       /\ placement_of 1 (Reschedule.res_db r)
          = Some (Some "Senin", Some "09:40", Some "11:20", Some "Infor 1")
       /\ placement_of 2 (Reschedule.res_db r)
          = Some (Some "Senin", Some "13:00", Some "14:40", Some "Infor 2")
       /\ placement_of 5 (Reschedule.res_db r)
          = Some (Some "Senin", Some "09:40", Some "11:20", Some "Infor 1")
       /\ room_conflict_summary (Reschedule.res_db r)
          = Some [("Infor 1", "Senin", 1, 5)].
Proof.
  split; [vm_compute; reflexivity|].
  destruct monday_repair as [r|] eqn:Hrun; [|vm_compute in Hrun; discriminate].
  exists r. split; [reflexivity|].
  vm_compute in Hrun. injection Hrun as <-.
  repeat split; vm_compute; reflexivity.
Qed.


(** * Further properties *)

(** ** Times as text and as minutes *)

Lemma append_cons a s r : String a s +:+ r = String a (s +:+ r).
Proof. reflexivity. Qed.

Lemma split_acc_part c s1 s2 acc :
  Py.contains c s1 = false ->
  Py.split_acc c (s1 +:+ String c s2) acc
  = String.rev_app acc s1 :: Py.split_acc c s2 EmptyString.
Proof.
  revert acc. induction s1 as [|a s1 IH]; intros acc Hno.
  - change (EmptyString +:+ String c s2) with (String c s2). simpl.
    by rewrite Ascii.eqb_refl.
  - rewrite append_cons. simpl in *.
    destruct (Ascii.eqb a c); [done|]. by rewrite IH.
Qed.

Lemma split_acc_last c s acc :
  Py.contains c s = false -> Py.split_acc c s acc = [String.rev_app acc s].
Proof.
  revert acc. induction s as [|a s IH]; intros acc Hno; simpl in *; [done|].
  destruct (Ascii.eqb a c); [done|]. by rewrite IH.
Qed.

(** Splitting at the only separator gives back the two parts. *)
Lemma split_two c s1 s2 :
  Py.contains c s1 = false -> Py.contains c s2 = false ->
  Py.split c (s1 +:+ String c s2) = [s1; s2].
Proof.
  intros H1 H2. unfold Py.split. rewrite split_acc_part by done.
  by rewrite split_acc_last.
Qed.

Lemma digit_char_val d : 0 <= d < 10 -> Py.digit_val (Py.digit_char d) = Some d.
Proof.
  intros Hd.
  assert (Hcases : d = 0 \/ d = 1 \/ d = 2 \/ d = 3 \/ d = 4 \/ d = 5 \/ d = 6
                   \/ d = 7 \/ d = 8 \/ d = 9) by lia.
  repeat (destruct Hcases as [->|Hcases]; [reflexivity|]). by subst.
Qed.

Lemma digit_char_plain d c :
  0 <= d < 10 -> c = ":"%char \/ c = "-"%char -> Ascii.eqb (Py.digit_char d) c = false.
Proof.
  intros Hd Hc.
  assert (Hcases : d = 0 \/ d = 1 \/ d = 2 \/ d = 3 \/ d = 4 \/ d = 5 \/ d = 6
                   \/ d = 7 \/ d = 8 \/ d = 9) by lia.
  destruct Hc as [->| ->];
    repeat (destruct Hcases as [->|Hcases]; [reflexivity|]); by subst.
Qed.

Lemma digits_fuel_S fuel n acc :
  Py.digits_fuel (S fuel) n acc
  = if n / 10 =? 0 then String (Py.digit_char (n mod 10)) acc
    else Py.digits_fuel fuel (n / 10) (String (Py.digit_char (n mod 10)) acc).
Proof. reflexivity. Qed.

Lemma contains_cons c a r :
  Py.contains c (String a r) = if Ascii.eqb a c then true else Py.contains c r.
Proof. reflexivity. Qed.

Lemma decimal_acc_cons a r acc :
  Py.decimal_acc (String a r) acc
  = match Py.digit_val a with
    | Some d => Py.decimal_acc r (10 * acc + d)
    | None => None
    end.
Proof. reflexivity. Qed.

Lemma digits_fuel_plain c fuel n acc :
  c = ":"%char \/ c = "-"%char -> 0 <= n ->
  Py.contains c (Py.digits_fuel fuel n acc) = Py.contains c acc.
Proof.
  intros Hc. revert n acc. induction fuel as [|fuel IH]; intros n acc Hn; [done|].
  assert (Hd : 0 <= n mod 10 < 10) by (apply Z.mod_pos_bound; lia).
  assert (Hq : 0 <= n / 10) by (apply Z.div_pos; lia).
  rewrite digits_fuel_S. destruct (n / 10 =? 0).
  - by rewrite contains_cons, digit_char_plain.
  - rewrite IH by done. by rewrite contains_cons, digit_char_plain.
Qed.

Lemma digits_fuel_value fuel n rest :
  0 <= n < 10 ^ Z.of_nat fuel ->
  exists k, 0 <= k /\ forall a,
    Py.decimal_acc (Py.digits_fuel fuel n rest) a = Py.decimal_acc rest (a * 10 ^ k + n).
Proof.
  revert n rest. induction fuel as [|fuel IH]; intros n rest Hn.
  - exists 0. split; [done|]. intros a.
    change (Py.digits_fuel 0 n rest) with rest. f_equal.
    change (10 ^ Z.of_nat 0) with 1 in Hn. lia.
  - assert (Hd : 0 <= n mod 10 < 10) by (apply Z.mod_pos_bound; lia).
    pose proof (Z.div_mod n 10 ltac:(lia)) as Hdm.
    rewrite digits_fuel_S. destruct (n / 10 =? 0) eqn:Hq.
    + apply Z.eqb_eq in Hq. exists 1. split; [lia|]. intros a.
      rewrite decimal_acc_cons, digit_char_val by done. f_equal; lia.
    + apply Z.eqb_neq in Hq.
      destruct (IH (n / 10) (String (Py.digit_char (n mod 10)) rest)) as (k & Hk & Hval).
      { split; [apply Z.div_pos; lia|].
        apply Z.div_lt_upper_bound; [lia|].
        rewrite Nat2Z.inj_succ, Z.pow_succ_r in Hn by lia. lia. }
      exists (k + 1). split; [lia|]. intros a. rewrite Hval.
      rewrite decimal_acc_cons, digit_char_val by done. f_equal.
      rewrite Z.pow_add_r by lia. lia.
Qed.

Lemma digits_fuel_nonempty fuel n acc :
  Py.digits_fuel (S fuel) n acc <> EmptyString.
Proof.
  revert n acc. induction fuel as [|fuel IH]; intros n acc; rewrite digits_fuel_S.
  - by destruct (n / 10 =? 0).
  - destruct (n / 10 =? 0); [done | apply IH].
Qed.

Lemma digits_enough n : 0 <= n -> n < 10 ^ Z.of_nat (S (Z.to_nat (Z.log2 n))).
Proof.
  intros Hn. rewrite Nat2Z.inj_succ, Z2Nat.id by apply Z.log2_nonneg.
  destruct (decide (n = 0)) as [->|Hne]; [done|].
  pose proof (Z.log2_spec n ltac:(lia)) as Hlog.
  assert (2 ^ Z.succ (Z.log2 n) <= 10 ^ Z.succ (Z.log2 n)).
  { apply Z.pow_le_mono_l. lia. }
  lia.
Qed.

(** The decimal reader reads back what the two-digit format writes. *)
Lemma decimal_fmt02d n : 0 <= n -> Py.decimal (Py.fmt02d n) = Some n.
Proof.
  intros Hn. unfold Py.fmt02d.
  destruct (n <? 0) eqn:Hneg; [apply Z.ltb_lt in Hneg; lia|].
  destruct (digits_fuel_value (S (Z.to_nat (Z.log2 n))) n EmptyString) as (k & Hk & Hval).
  { split; [done | by apply digits_enough]. }
  assert (Hne : Py.digits n <> EmptyString) by apply digits_fuel_nonempty.
  destruct (n <? 10).
  - change ("0" +:+ Py.digits n) with (String "0" (Py.digits n)).
    unfold Py.decimal. rewrite decimal_acc_cons.
    change (Py.digit_val "0") with (Some 0).
    unfold Py.digits. rewrite Hval. change (Py.decimal_acc EmptyString ?x) with (Some x).
    f_equal; lia.
  - unfold Py.decimal. destruct (Py.digits n) eqn:Hdig; [done|].
    rewrite <- Hdig. unfold Py.digits. rewrite Hval.
    change (Py.decimal_acc EmptyString ?x) with (Some x). f_equal; lia.
Qed.

Lemma fmt02d_plain c n :
  c = ":"%char \/ c = "-"%char -> 0 <= n -> Py.contains c (Py.fmt02d n) = false.
Proof.
  intros Hc Hn. unfold Py.fmt02d.
  destruct (n <? 0) eqn:Hneg; [apply Z.ltb_lt in Hneg; lia|].
  destruct (n <? 10).
  - change ("0" +:+ Py.digits n) with (String "0" (Py.digits n)).
    rewrite contains_cons. unfold Py.digits. rewrite digits_fuel_plain by done.
    by destruct Hc as [->| ->].
  - unfold Py.digits. by rewrite digits_fuel_plain.
Qed.

Lemma fmt02d_nonempty n : Py.fmt02d n <> EmptyString.
Proof.
  unfold Py.fmt02d.
  destruct (n <? 0); [done|].
  destruct (n <? 10); [done|]. apply digits_fuel_nonempty.
Qed.

Lemma contains_sep c s1 s2 : Py.contains c (s1 +:+ String c s2) = true.
Proof.
  induction s1 as [|a s1 IH].
  - change (EmptyString +:+ String c s2) with (String c s2).
    by rewrite contains_cons, Ascii.eqb_refl.
  - rewrite append_cons, contains_cons. by destruct (Ascii.eqb a c).
Qed.

Lemma truthy_append s1 s2 : s1 <> EmptyString -> Py.truthy (s1 +:+ s2) = true.
Proof. by destruct s1. Qed.

Lemma minutes_to_time_parts m :
  0 <= m ->
  Py.split ":" (_minutes_to_time m) = [Py.fmt02d (m / 60); Py.fmt02d (m mod 60)]
  /\ Py.decimal (Py.fmt02d (m / 60)) = Some (m / 60)
  /\ Py.decimal (Py.fmt02d (m mod 60)) = Some (m mod 60)
  /\ Py.truthy (_minutes_to_time m) = true
  /\ Py.contains ":" (_minutes_to_time m) = true.
Proof.
  intros Hm.
  assert (Hh : 0 <= m / 60) by (apply Z.div_pos; lia).
  assert (Hmm : 0 <= m mod 60 < 60) by (apply Z.mod_pos_bound; lia).
  unfold _minutes_to_time.
  change (":" +:+ Py.fmt02d (m mod 60)) with (String ":" (Py.fmt02d (m mod 60))).
  split; [|split; [|split; [|split]]].
  - apply split_two; apply fmt02d_plain; auto; lia.
  - by apply decimal_fmt02d.
  - apply decimal_fmt02d. lia.
  - apply truthy_append, fmt02d_nonempty.
  - apply contains_sep.
Qed.

Lemma parse_minutes_of_minutes m :
  0 <= m -> _parse_minutes (Some (_minutes_to_time m)) = Some m.
Proof.
  intros Hm.
  destruct (minutes_to_time_parts m Hm) as (Hsplit & Hh & Hmm & Htruthy & Hcolon).
  pose proof (Z.div_mod m 60 ltac:(lia)) as Hdm.
  unfold _parse_minutes.
  rewrite Htruthy, Hsplit. unfold py_int, decimal_int.
  rewrite Hh, Hmm. simpl. f_equal; lia.
Qed.

Lemma parse_time_of_minutes m : 0 <= m -> parse_time (_minutes_to_time m) = Some m.
Proof.
  intros Hm.
  destruct (minutes_to_time_parts m Hm) as (Hsplit & Hh & Hmm & Htruthy & Hcolon).
  pose proof (Z.div_mod m 60 ltac:(lia)) as Hdm.
  unfold parse_time.
  rewrite Htruthy, Hcolon, Hsplit. unfold py_int, decimal_int.
  rewrite Hh, Hmm. simpl. f_equal; lia.
Qed.

Lemma t2m_of_m2t m : 0 <= m -> Reschedule.t2m (Reschedule.m2t m) = Some m.
Proof.
  intros Hm.
  destruct (minutes_to_time_parts m Hm) as (Hsplit & Hh & Hmm & Htruthy & Hcolon).
  pose proof (Z.div_mod m 60 ltac:(lia)) as Hdm.
  unfold Reschedule.t2m, Reschedule.m2t.
  rewrite Hsplit. unfold py_int, decimal_int.
  rewrite Hh, Hmm. simpl. f_equal; lia.
Qed.

(** X1: what the three writers of ["HH:MM"] produce for a minute count from
    midnight on is read back as that count by the three readers. *)
Theorem minutes_round_trip m :
  0 <= m ->
  _parse_minutes (Some (_minutes_to_time m)) = Some m
  /\ parse_time (_minutes_to_time m) = Some m
  /\ Reschedule.t2m (Reschedule.m2t m) = Some m.
Proof.
  intros Hm. split; [|split].
  - by apply parse_minutes_of_minutes.
  - by apply parse_time_of_minutes.
  - by apply t2m_of_m2t.
Qed.

Lemma minutes_round_trip_witness :
  0 <= 580
  /\ _parse_minutes (Some (_minutes_to_time 580)) = Some 580
  /\ parse_time (_minutes_to_time 580) = Some 580
  /\ Reschedule.t2m (Reschedule.m2t 580) = Some 580.
Proof. split; [lia | apply minutes_round_trip; lia]. Defined.

(** X2: the end time that [calculate_end_time] writes lies exactly the
    duration after the start; a start that does not parse is handed back as
    it is. *)
Theorem calculate_end_time_adds start s duration_minutes :
  _parse_minutes start = Some s -> 0 <= s + duration_minutes ->
  _parse_minutes (calculate_end_time start duration_minutes) = Some (s + duration_minutes).
Proof.
  intros Hs Hsum. unfold calculate_end_time. rewrite Hs.
  by apply parse_minutes_of_minutes.
Qed.

Lemma calculate_end_time_adds_witness :
  _parse_minutes (Some "09:40") = Some 580 /\ 0 <= 580 + 100
  /\ _parse_minutes (calculate_end_time (Some "09:40") 100) = Some (580 + 100).
Proof.
  assert (Hs : _parse_minutes (Some "09:40") = Some 580) by (vm_compute; reflexivity).
  split; [exact Hs|]. split; [lia|].
  apply (calculate_end_time_adds (Some "09:40") 580 100 Hs). lia.
Defined.

Lemma starts_loop_elem turns current duration_minutes end_block start :
  start ∈ starts_loop turns current duration_minutes end_block
  <-> exists k, 0 <= k < Z.of_nat turns
        /\ start = _minutes_to_time (current + 50 * k)
        /\ current + 50 * k + duration_minutes <= end_block.
Proof.
  revert current. induction turns as [|turns IH]; intros current; simpl starts_loop.
  - split; [by intros ?%elem_of_nil | intros (k & Hk & _); lia].
  - destruct (current + duration_minutes <=? end_block) eqn:Hfit.
    + apply Z.leb_le in Hfit. rewrite elem_of_cons, IH. split.
      * intros [->|(k & Hk & -> & Hle)].
        -- exists 0. split; [lia|]. split; [f_equal; lia | lia].
        -- exists (k + 1). split; [lia|]. split; [f_equal; lia | lia].
      * intros (k & Hk & -> & Hle). destruct (decide (k = 0)) as [->|Hne].
        -- left. f_equal. lia.
        -- right. exists (k - 1). split; [lia|]. split; [f_equal; lia | lia].
    + apply Z.leb_gt in Hfit. split; [by intros ?%elem_of_nil|].
      intros (k & Hk & _ & Hle). lia.
Qed.

Lemma starts_in_block_elem duration_minutes start_str start_min block_duration start :
  _parse_minutes (Some start_str) = Some start_min ->
  start ∈ starts_in_block duration_minutes (start_str, block_duration)
  <-> exists k, 0 <= k
        /\ start = _minutes_to_time (start_min + 50 * k)
        /\ start_min + 50 * k + duration_minutes <= start_min + block_duration.
Proof.
  intros Hparse. unfold starts_in_block. rewrite Hparse.
  destruct (duration_minutes <=? block_duration) eqn:Hfit.
  - apply Z.leb_le in Hfit. rewrite starts_loop_elem. split.
    + intros (k & Hk & Hs & Hle). exists k. split; [lia | done].
    + intros (k & Hk & Hs & Hle). exists k. split; [|done]. split; [lia|].
      assert (k <= (block_duration - duration_minutes) / 50)
        by (apply Z.div_le_lower_bound; lia).
      assert (0 <= (block_duration - duration_minutes) / 50)
        by (apply Z.div_pos; lia).
      lia.
  - apply Z.leb_gt in Hfit. split; [by intros ?%elem_of_nil|].
    intros (k & Hk & _ & Hle). lia.
Qed.

(** X3: on every day [get_valid_starts] returns exactly the times 08:00 +
    50k that leave room for the duration before 12:10 and the times 14:00 +
    50k that leave room before 16:30; nothing else, and nothing that would
    run over the end of its block. *)
Theorem get_valid_starts_elem day duration_minutes start :
  start ∈ get_valid_starts day duration_minutes
  <-> exists k, 0 <= k
        /\ ((start = _minutes_to_time (480 + 50 * k)
             /\ 480 + 50 * k + duration_minutes <= 730)
            \/ (start = _minutes_to_time (840 + 50 * k)
                /\ 840 + 50 * k + duration_minutes <= 990)).
Proof.
  assert (H8 : _parse_minutes (Some "08:00") = Some 480) by (vm_compute; reflexivity).
  assert (H14 : _parse_minutes (Some "14:00") = Some 840) by (vm_compute; reflexivity).
  assert (Hblocks : get_valid_starts day duration_minutes
                    = starts_in_block duration_minutes ("08:00", 250)
                      ++ starts_in_block duration_minutes ("14:00", 150)).
  { unfold get_valid_starts. destruct (bool_decide (day = "Jumat")); simpl;
      by rewrite app_nil_r. }
  rewrite Hblocks, elem_of_app.
  rewrite (starts_in_block_elem _ _ _ _ _ H8), (starts_in_block_elem _ _ _ _ _ H14).
  split.
  - intros [(k & Hk & Hs & Hle)|(k & Hk & Hs & Hle)]; exists k; split; try done.
    + left. split; [done | lia].
    + right. split; [done | lia].
  - intros (k & Hk & [[Hs Hle]|[Hs Hle]]); [left | right]; exists k;
      (split; [done|]; split; [done | lia]).
Qed.

(** X4: for two proper intervals [_times_overlap] says whether they share a
    minute, and it does not matter which interval comes first. *)
Theorem times_overlap_shared_minute s1 e1 s2 e2 :
  s1 < e1 -> s2 < e2 ->
  (_times_overlap (Some s1) (Some e1) (Some s2) (Some e2) = true
   <-> exists t, s1 <= t < e1 /\ s2 <= t < e2)
  /\ _times_overlap (Some s1) (Some e1) (Some s2) (Some e2)
     = _times_overlap (Some s2) (Some e2) (Some s1) (Some e1).
Proof.
  intros H1 H2. simpl. split; [|apply andb_comm].
  rewrite andb_true_iff, !Z.ltb_lt. split.
  - intros [Ha Hb]. exists (Z.max s1 s2). lia.
  - intros (t & Ht1 & Ht2). lia.
Qed.

Lemma times_overlap_shared_minute_witness :
  480 < 580 /\ 530 < 630
  /\ (_times_overlap (Some 480) (Some 580) (Some 530) (Some 630) = true
      <-> exists t, 480 <= t < 580 /\ 530 <= t < 630)
  /\ _times_overlap (Some 480) (Some 580) (Some 530) (Some 630)
     = _times_overlap (Some 530) (Some 630) (Some 480) (Some 580).
Proof.
  assert (H1 : 480 < 580) by lia. assert (H2 : 530 < 630) by lia.
  split; [exact H1|]. split; [exact H2|].
  exact (times_overlap_shared_minute 480 580 530 630 H1 H2).
Defined.

(** ** More on the preference model *)

Section PreferenceModelMore.
Context `{PyInt}.

Lemma scan_unavailable_clear blocks day ts te :
  scan_unavailable blocks day ts te false = Some false ->
  forall block, block ∈ blocks ->
    default "*" (range_day block) = "*" \/ default "*" (range_day block) = day ->
    times_overlap ts te (default "00:00" (range_start block))
      (default "23:59" (range_end block)) = Some false.
Proof.
  induction blocks as [|b rest IH]; simpl; intros Hscan block Hin Hday.
  - by apply elem_of_nil in Hin.
  - destruct (bool_decide (default "*" (range_day b) = "*")
              || bool_decide (default "*" (range_day b) = day)) eqn:Hmatch.
    + destruct (times_overlap ts te _ _) as [ov|] eqn:Hov; simpl in Hscan; [|done].
      rewrite andb_true_r in Hscan. destruct ov; [done|].
      apply elem_of_cons in Hin as [->|Hin]; [done | by apply IH].
    + apply elem_of_cons in Hin as [->|Hin]; [|by apply IH].
      apply orb_false_iff in Hmatch as [H1 H2].
      apply bool_decide_eq_false in H1, H2. by destruct Hday.
Qed.

(** X5: a slot in a room that the model allows overlaps none of the
    lecturer's blocked time ranges for that day or for every day. *)
Theorem allowed_physical_slot_unblocked lp lect day ts te strict score :
  check_lecturer_preferences lp lect day ts te strict false = Some (true, score) ->
  forall block, block ∈ unavailable_time_ranges (default no_preferences (lp !! lect)) ->
    default "*" (range_day block) = "*" \/ default "*" (range_day block) = day ->
    times_overlap ts te (default "00:00" (range_start block))
      (default "23:59" (range_end block)) = Some false.
Proof.
  unfold check_lecturer_preferences.
  destruct (scan_unavailable _ day ts te false) as [[|]|] eqn:Hscan; simpl; try done.
  intros _. by apply scan_unavailable_clear.
Qed.

(** X6: strict mode only ever takes slots away: a slot allowed in strict
    mode is allowed in relaxed mode with the same score, and the slot scores
    at least 50, so it never bands as Poor. *)
Theorem strict_allowed_then_relaxed lp lect day ts te online score :
  check_lecturer_preferences lp lect day ts te true online = Some (true, score) ->
  check_lecturer_preferences lp lect day ts te false online = Some (true, score)
  /\ 50 <= score
  /\ get_match_quality score <> "Poor".
Proof.
  intros Hstrict.
  assert (Hscore : In score [100; 75; 60; 50] /\
            check_lecturer_preferences lp lect day ts te false online = Some (true, score)).
  { revert Hstrict. unfold check_lecturer_preferences.
    set (prefs := default no_preferences (lp !! lect)).
    destruct (scan_unavailable _ _ _ _ _) as [[|]|]; simpl; try done.
    destruct (negb (bool_decide (available_days prefs = [])));
      destruct (bool_decide (day ∈ available_days prefs)); simpl; try done.
    all: destruct (preferred_times prefs !! day) as [[|pr day_prefs]|]; simpl.
    all: try (intros [= <-]; split; [simpl; tauto | done]).
    all: destruct (parse_time ts); simpl; [|done].
    all: destruct (parse_time te); simpl; [|done].
    all: destruct (range_holds pr _ _) as [[|]|]; simpl; [| |done].
    all: try (intros [= <-]; split; [simpl; tauto | done]).
    all: destruct (scan_preferred day_prefs _ _) as [[|]|]; simpl; [| |done].
    all: intros [= <-]; split; [simpl; tauto | done]. }
  destruct Hscore as [Hin Hrelaxed]. split; [done|].
  simpl in Hin. destruct Hin as [<-|[<-|[<-|[<-|[]]]]]; split; done.
Qed.

(** X7: on the days that [get_valid_days_for_lecturer] returns, which are
    weekdays in week order, strict and relaxed mode give the same answer. *)
Theorem valid_days_strict_is_relaxed lp lect day ts te online :
  day ∈ get_valid_days_for_lecturer lp lect ->
  day ∈ weekday_order
  /\ check_lecturer_preferences lp lect day ts te true online
     = check_lecturer_preferences lp lect day ts te false online.
Proof.
  unfold get_valid_days_for_lecturer, check_lecturer_preferences.
  set (prefs := default no_preferences (lp !! lect)).
  destruct (negb (bool_decide (available_days prefs = []))) eqn:Hdays; intros Hin.
  - apply list_elem_of_In, filter_In in Hin as [Hweek Hok].
    apply list_elem_of_In in Hweek. split; [done|].
    rewrite Hok. simpl. by destruct (scan_unavailable _ _ _ _ _) as [[|]|].
  - split; [done|]. simpl. by destruct (scan_unavailable _ _ _ _ _) as [[|]|].
Qed.

Lemma split_two_has_sep c t a b : Py.split c t = [a; b] ->
  Py.truthy t = true /\ Py.contains c t = true.
Proof.
  intros Hsplit. split.
  - by destruct t.
  - destruct (Py.contains c t) eqn:Hno; [done|].
    unfold Py.split in Hsplit. by rewrite split_acc_last in Hsplit.
Qed.

(** A time that [to_minutes] reads is read the same by [parse_time]. *)
Lemma to_minutes_parse_time t m :
  NewSections.to_minutes t = Some m -> parse_time t = Some m.
Proof.
  unfold NewSections.to_minutes, parse_time.
  destruct (Py.split ":" t) as [|a [|b [|c l]]] eqn:Hsplit; try done.
  destruct (split_two_has_sep _ _ _ _ Hsplit) as [-> ->]. done.
Qed.

Lemma times_overlap_agree a b c d r :
  NewSections.times_overlap a b c d = Some r -> times_overlap a b c d = Some r.
Proof.
  unfold NewSections.times_overlap, times_overlap.
  destruct (NewSections.to_minutes a) as [ma|] eqn:Ha; simpl; [|done].
  destruct (NewSections.to_minutes b) as [mb|] eqn:Hb; simpl; [|done].
  destruct (NewSections.to_minutes c) as [mc|] eqn:Hc; simpl; [|done].
  destruct (NewSections.to_minutes d) as [md|] eqn:Hd; simpl; [|done].
  rewrite (to_minutes_parse_time _ _ Ha), (to_minutes_parse_time _ _ Hb),
    (to_minutes_parse_time _ _ Hc), (to_minutes_parse_time _ _ Hd). done.
Qed.

Lemma blocked_by_range_agree blocks day ts te online r :
  NewSections.blocked_by_range blocks day ts te online = Some r ->
  scan_unavailable blocks day ts te online = Some r.
Proof.
  induction blocks as [|block rest IH]; simpl; [done|].
  destruct (bool_decide (default "*" (range_day block) = "*")
            || bool_decide (default "*" (range_day block) = day)); [|done].
  destruct (NewSections.times_overlap ts te _ _) as [ov|] eqn:Hov; simpl; [|done].
  rewrite (times_overlap_agree _ _ _ _ _ Hov). simpl.
  by destruct (ov && negb online).
Qed.

Lemma in_preferred_range_agree day_prefs ss se r :
  NewSections.in_preferred_range day_prefs ss se = Some r ->
  scan_preferred day_prefs ss se = Some r.
Proof.
  induction day_prefs as [|pr rest IH]; simpl; [done|].
  unfold range_holds. destruct (Py.contains "-" pr); simpl; [|done].
  destruct (Py.split "-" pr) as [|a [|b [|c l]]]; try done.
  destruct (NewSections.to_minutes (Py.strip a)) as [ma|] eqn:Ha; simpl; [|done].
  destruct (NewSections.to_minutes (Py.strip b)) as [mb|] eqn:Hb; simpl; [|done].
  rewrite (to_minutes_parse_time _ _ Ha), (to_minutes_parse_time _ _ Hb). simpl.
  by destruct ((ma <=? ss) && (se <=? mb)).
Qed.

(** X8: on a day that is among the lecturer's available days, whatever the
    check of [schedule_new_sections_only] returns is also what the placement
    engine's preference model returns, in strict and in relaxed mode. *)
Theorem preference_checks_agree users lect day ts te strict online r :
  day ∈ available_days (default no_preferences (users !! lect)) ->
  NewSections.check_preference_constraints users lect day ts te online = Some r ->
  check_lecturer_preferences users lect day ts te strict online = Some r.
Proof.
  unfold NewSections.check_preference_constraints, check_lecturer_preferences.
  set (prefs := default no_preferences (users !! lect)). intros Hday.
  assert (Hne : bool_decide (available_days prefs = []) = false).
  { apply bool_decide_eq_false. intros Hnil. rewrite Hnil in Hday.
    by apply elem_of_nil in Hday. }
  rewrite Hne, (bool_decide_eq_true_2 _ Hday). simpl.
  destruct (NewSections.blocked_by_range _ _ _ _ _) as [rej|] eqn:Hscan; simpl; [|done].
  rewrite (blocked_by_range_agree _ _ _ _ _ _ Hscan). simpl.
  destruct rej; [done|].
  destruct (preferred_times prefs !! day) as [[|pr day_prefs]|]; [done| |done].
  cbv beta iota. generalize (pr :: day_prefs). intros dp.
  destruct (NewSections.to_minutes ts) as [ss|] eqn:Hss; simpl; [|done].
  destruct (NewSections.to_minutes te) as [se|] eqn:Hse; simpl; [|done].
  rewrite (to_minutes_parse_time _ _ Hss), (to_minutes_parse_time _ _ Hse). simpl.
  destruct (NewSections.in_preferred_range dp ss se) as [inside|] eqn:Hin; simpl; [|done].
  rewrite (in_preferred_range_agree dp ss se inside Hin). simpl.
  intros [= <-]. by destruct inside.
Qed.

End PreferenceModelMore.

Lemma allowed_physical_slot_unblocked_witness :
  check_lecturer_preferences sample_preferences "Dosen A" "Senin" "08:00" "09:40" true false
    = Some (true, 100)
  /\ forall block,
       block ∈ unavailable_time_ranges (default no_preferences (sample_preferences !! "Dosen A")) ->
       default "*" (range_day block) = "*" \/ default "*" (range_day block) = "Senin" ->
       times_overlap "08:00" "09:40" (default "00:00" (range_start block))
         (default "23:59" (range_end block)) = Some false.
Proof.
  assert (Hallowed : check_lecturer_preferences sample_preferences "Dosen A" "Senin"
                       "08:00" "09:40" true false = Some (true, 100))
    by (vm_compute; reflexivity).
  split; [exact Hallowed|].
  exact (allowed_physical_slot_unblocked sample_preferences "Dosen A" "Senin"
           "08:00" "09:40" true 100 Hallowed).
Defined.

Lemma strict_allowed_then_relaxed_witness :
  check_lecturer_preferences sample_preferences "Dosen A" "Senin" "08:00" "09:40" true false
    = Some (true, 100)
  /\ (check_lecturer_preferences sample_preferences "Dosen A" "Senin" "08:00" "09:40" false false
        = Some (true, 100)
      /\ 50 <= 100
      /\ get_match_quality 100 <> "Poor").
Proof.
  assert (Hallowed : check_lecturer_preferences sample_preferences "Dosen A" "Senin"
                       "08:00" "09:40" true false = Some (true, 100))
    by (vm_compute; reflexivity).
  split; [exact Hallowed|].
  exact (strict_allowed_then_relaxed sample_preferences "Dosen A" "Senin"
           "08:00" "09:40" false 100 Hallowed).
Defined.

Lemma valid_days_strict_is_relaxed_witness :
  "Senin" ∈ get_valid_days_for_lecturer sample_preferences "Dosen A"
  /\ ("Senin" ∈ weekday_order
      /\ check_lecturer_preferences sample_preferences "Dosen A" "Senin" "08:00" "09:40" true false
         = check_lecturer_preferences sample_preferences "Dosen A" "Senin" "08:00" "09:40" false false).
Proof.
  assert (Hday : "Senin" ∈ get_valid_days_for_lecturer sample_preferences "Dosen A")
    by (vm_compute; left).
  split; [exact Hday|].
  exact (valid_days_strict_is_relaxed sample_preferences "Dosen A" "Senin"
           "08:00" "09:40" false Hday).
Defined.

Lemma preference_checks_agree_witness :
  "Senin" ∈ available_days (default no_preferences (sample_preferences !! "Dosen A"))
  /\ NewSections.check_preference_constraints sample_preferences "Dosen A" "Senin"
       "08:00" "09:40" false = Some (true, 100)
  /\ check_lecturer_preferences sample_preferences "Dosen A" "Senin" "08:00" "09:40" true false
     = Some (true, 100).
Proof.
  assert (Hday : "Senin" ∈ available_days
                   (default no_preferences (sample_preferences !! "Dosen A")))
    by (vm_compute; left).
  assert (Hnew : NewSections.check_preference_constraints sample_preferences "Dosen A"
                   "Senin" "08:00" "09:40" false = Some (true, 100))
    by (vm_compute; reflexivity).
  split; [exact Hday|]. split; [exact Hnew|].
  exact (preference_checks_agree sample_preferences "Dosen A" "Senin"
           "08:00" "09:40" true false (true, 100) Hday Hnew).
Defined.

(** ** More on the section generator *)

Lemma assign_course_size n allowed draw assigned :
  (0 < n)%nat ->
  assign_course n allowed draw = Some assigned ->
  (1 <= length assigned <= 3)%nat.
Proof.
  intros Hn. unfold assign_course. destruct draw as [num_dosens positions].
  set (candidates := if bool_decide (allowed = []) then seq 0 n else allowed).
  assert (Hne : candidates <> []).
  { unfold candidates. case_bool_decide as Hempty; [|done].
    intros Hseq. apply (f_equal length) in Hseq. rewrite length_seq in Hseq.
    simpl in Hseq. lia. }
  rewrite (bool_decide_eq_false_2 _ Hne).
  destruct ((1 <=? num_dosens) && (num_dosens <=? Z.min 3 (Z.of_nat (length candidates)))
            && bool_decide (Z.of_nat (length positions) = num_dosens)
            && bool_decide (NoDup positions)) eqn:Hdraw; [|done].
  repeat (apply andb_true_iff in Hdraw as [Hdraw ?]).
  apply Z.leb_le in Hdraw. apply Z.leb_le in H1. apply bool_decide_eq_true in H0.
  intros Hmap. apply length_mapM in Hmap. lia.
Qed.

(** X9: when there is at least one lecturer, [create_assignment] gives
    every course at least one and at most three lecturers, and one list per
    course. *)
Theorem create_assignment_sizes n allowed_per_course draws assignment :
  (0 < n)%nat ->
  create_assignment n allowed_per_course draws = Some assignment ->
  length assignment = length allowed_per_course
  /\ Forall (fun assigned => (1 <= length assigned <= 3)%nat) assignment.
Proof.
  intros Hn. revert draws assignment.
  induction allowed_per_course as [|allowed rest IH]; intros draws assignment; simpl.
  - intros [= <-]. by split.
  - destruct draws as [|draw draws']; [done|].
    destruct (assign_course n allowed draw) as [assigned|] eqn:Hone; simpl; [|done].
    destruct (create_assignment n rest draws') as [tail|] eqn:Htail; simpl; [|done].
    intros [= <-]. destruct (IH _ _ Htail) as [Hlen Hall]. split.
    + simpl. by rewrite Hlen.
    + constructor; [|done]. by eapply assign_course_size.
Qed.

Lemma create_assignment_sizes_witness :
  (0 < length sample_lecturers)%nat
  /\ create_assignment (length sample_lecturers)
       (allowed_indices_per_course sample_lecturers named_courses) [(1, [0%nat])]
     = Some [[1%nat]]
  /\ length [[1%nat]] = length (allowed_indices_per_course sample_lecturers named_courses)
  /\ Forall (fun assigned => (1 <= length assigned <= 3)%nat) [[1%nat]].
Proof.
  assert (Hn : (0 < length sample_lecturers)%nat) by (simpl; lia).
  assert (Hrun : create_assignment (length sample_lecturers)
                   (allowed_indices_per_course sample_lecturers named_courses)
                   [(1, [0%nat])] = Some [[1%nat]]) by (vm_compute; reflexivity).
  split; [exact Hn|]. split; [exact Hrun|].
  exact (create_assignment_sizes _ _ _ _ Hn Hrun).
Defined.

Lemma repair_lecturer_in_band info start st name :
  dosen_sks info start name = 0
  \/ MIN_SKS_PER_DOSEN <= dosen_sks info start name <= MAX_SKS_PER_DOSEN ->
  repair_lecturer info start st name = st.
Proof.
  intros Hband. unfold repair_lecturer. destruct st as [all_valid individual].
  destruct (dosen_sks info start name =? 0) eqn:Hzero; [done|].
  apply Z.eqb_neq in Hzero. destruct Hband as [?|[Hlo Hhi]]; [done|].
  rewrite (proj2 (Z.ltb_ge _ _) Hlo), (proj2 (Z.ltb_ge _ _) Hhi). done.
Qed.

Lemma repair_pass_in_band info names start :
  in_band info names start -> repair_pass info names start = (true, start).
Proof.
  unfold repair_pass, in_band. generalize (true, start) as st.
  induction names as [|name rest IH]; intros st Hband; simpl; [done|].
  rewrite repair_lecturer_in_band by (apply Hband; left).
  apply IH. intros other Hin. apply Hband. by right.
Qed.

Lemma repair_loop_S info remaining iteration names individual :
  repair_loop info (S remaining) iteration names individual
  = let '(all_valid, individual') := repair_pass info names individual in
    if all_valid then (S iteration, individual')
    else repair_loop info remaining (S iteration) names individual'.
Proof. reflexivity. Qed.

(** X10: section counts under which every lecturer has no load or a load
    of 8 to 12 credits are a fixed point of the repair: it returns them
    unchanged after a single iteration. *)
Theorem repair_solution_fixed_point individual pairs courses_list lecturers_list info :
  mapM (gene_info courses_list lecturers_list) (take (length individual) pairs) = Some info ->
  in_band info (dict_keys (lec_name <$> lecturers_list) []) individual ->
  repair_run individual pairs courses_list lecturers_list = Some (1%nat, individual)
  /\ repair_solution individual pairs courses_list lecturers_list = Some individual.
Proof.
  intros Hinfo Hband.
  assert (Hrun : repair_run individual pairs courses_list lecturers_list
                 = Some (1%nat, individual)).
  { unfold repair_run. rewrite Hinfo. unfold mbind, option_bind.
    change max_iterations with (S 199).
    by rewrite repair_loop_S, (repair_pass_in_band _ _ _ Hband). }
  split; [done|]. unfold repair_solution. by rewrite Hrun.
Qed.

Lemma repair_solution_fixed_point_witness :
  mapM (gene_info repair_courses sample_lecturers) (take (length [3; 4]) repair_pairs)
  = Some [("Dosen A", 3); ("Dosen B", 2)]
  /\ in_band [("Dosen A", 3); ("Dosen B", 2)]
       (dict_keys (lec_name <$> sample_lecturers) []) [3; 4]
  /\ repair_run [3; 4] repair_pairs repair_courses sample_lecturers = Some (1%nat, [3; 4])
  /\ repair_solution [3; 4] repair_pairs repair_courses sample_lecturers = Some [3; 4].
Proof.
  assert (Hinfo : mapM (gene_info repair_courses sample_lecturers)
                    (take (length [3; 4]) repair_pairs)
                  = Some [("Dosen A", 3); ("Dosen B", 2)]) by (vm_compute; reflexivity).
  assert (Hband : in_band [("Dosen A", 3); ("Dosen B", 2)]
                    (dict_keys (lec_name <$> sample_lecturers) []) [3; 4]).
  { intros name Hin. right.
    apply elem_of_cons in Hin as [->|Hin]; [vm_compute; split; discriminate|].
    apply elem_of_cons in Hin as [->|Hin]; [vm_compute; split; discriminate|].
    by apply elem_of_nil in Hin. }
  split; [exact Hinfo|]. split; [exact Hband|].
  exact (repair_solution_fixed_point [3; 4] repair_pairs repair_courses sample_lecturers
           _ Hinfo Hband).
Defined.

(** ** The reschedule engine as a whole *)

Lemma first_opt_Some {A B : Type} (f : A -> option (option B)) l b :
  Reschedule.first_opt f l = Some (Some b) -> exists x, x ∈ l /\ f x = Some (Some b).
Proof.
  induction l as [|x rest IH]; simpl; [done|].
  destruct (f x) as [[b'|]|] eqn:Hx; simpl; [| |done].
  - intros [= <-]. exists x. split; [left | done].
  - intros Hrest. destruct (IH Hrest) as (y & Hin & Hy). exists y. split; [by right | done].
Qed.

Lemma any_opt_false {A : Type} (f : A -> option bool) l :
  Reschedule.any_opt f l = Some false -> forall x, x ∈ l -> f x = Some false.
Proof.
  induction l as [|y rest IH]; simpl; intros Hany x Hin.
  - by apply elem_of_nil in Hin.
  - destruct (f y) as [[|]|] eqn:Hy; simpl in Hany; try done.
    apply elem_of_cons in Hin as [->|Hin]; [done | by apply IH].
Qed.

Lemma same_class_refl d : same_class d d.
Proof. by repeat split. Qed.

Lemma same_class_trans d1 d2 d3 : same_class d1 d2 -> same_class d2 d3 -> same_class d1 d3.
Proof. unfold same_class. intros H1 H2. destruct_and!. repeat split; congruence. Qed.

Lemma same_class_all_refl docs : Forall2 same_class docs docs.
Proof. induction docs; constructor; [apply same_class_refl | done]. Qed.

Lemma same_class_all_trans l1 l2 l3 :
  Forall2 same_class l1 l2 -> Forall2 same_class l2 l3 -> Forall2 same_class l1 l3.
Proof.
  intros H12. revert l3. induction H12 as [|x y l k Hxy _ IH]; intros l3 H23.
  - by inversion H23.
  - inversion H23 as [|? z ? k' Hyz Hrest]; subst.
    constructor; [by eapply same_class_trans | by apply IH].
Qed.

Lemma update_one_same_class id f docs :
  (forall d, same_class d (f d)) -> Forall2 same_class docs (Reschedule.update_one id f docs).
Proof.
  intros Hf. induction docs as [|d rest IH]; simpl; [constructor|].
  case_bool_decide.
  - constructor; [apply Hf | apply same_class_all_refl].
  - constructor; [apply same_class_refl | done].
Qed.

Lemma set_slot_same_class day start end_ room d :
  same_class d (Reschedule.set_slot day start end_ room d).
Proof. by repeat split. Qed.

Lemma set_times_same_class start end_ d : same_class d (Reschedule.set_times start end_ d).
Proof. by repeat split. Qed.

Lemma commit_simple_step st cid oday s e room best :
  Forall2 same_class (Reschedule.db st)
    (Reschedule.db (Reschedule.commit_simple st cid oday s e room best))
  /\ Reschedule.moved (Reschedule.commit_simple st cid oday s e room best)
     = S (Reschedule.moved st)
  /\ Reschedule.failed (Reschedule.commit_simple st cid oday s e room best)
     = Reschedule.failed st.
Proof.
  unfold Reschedule.commit_simple.
  destruct (Reschedule.release _ _ _ _ _ _ _) as [lect rooms]. simpl.
  split; [|done]. apply update_one_same_class. intros d. apply set_slot_same_class.
Qed.

Lemma commit_swap_step st cid oday s e room day cs ce b blocker_room bs be :
  Forall2 same_class (Reschedule.db st)
    (Reschedule.db (Reschedule.commit_swap st cid oday s e room day cs ce b blocker_room bs be))
  /\ Reschedule.moved
       (Reschedule.commit_swap st cid oday s e room day cs ce b blocker_room bs be)
     = S (Reschedule.moved st)
  /\ Reschedule.failed
       (Reschedule.commit_swap st cid oday s e room day cs ce b blocker_room bs be)
     = Reschedule.failed st.
Proof.
  unfold Reschedule.commit_swap.
  destruct (Reschedule.release _ _ _ _ _ _ _) as [lect rooms]. simpl.
  split; [|done]. eapply same_class_all_trans.
  - apply update_one_same_class. intros d. apply set_times_same_class.
  - apply update_one_same_class. intros d. apply set_slot_same_class.
Qed.

Lemma cand_key_ltb_asym k1 k2 :
  Reschedule.cand_key_ltb k1 k2 = true -> Reschedule.cand_key_ltb k2 k1 = false.
Proof.
  unfold Reschedule.cand_key_ltb. destruct k1 as [a1 b1], k2 as [a2 b2]. simpl. lia.
Qed.

Lemma cand_key_ltb_negtrans k1 k2 k3 :
  Reschedule.cand_key_ltb k1 k2 = false -> Reschedule.cand_key_ltb k2 k3 = false ->
  Reschedule.cand_key_ltb k1 k3 = false.
Proof.
  unfold Reschedule.cand_key_ltb. destruct k1 as [a1 b1], k2 as [a2 b2], k3 as [a3 b3].
  simpl. lia.
Qed.

Section PySortedHead.
Context {A K : Type} (ltb : K -> K -> bool) (key : A -> K).
Hypothesis ltb_asym : forall x y, ltb x y = true -> ltb y x = false.
Hypothesis ltb_negtrans :
  forall x y z, ltb x y = false -> ltb y z = false -> ltb x z = false.

Lemma ltb_irrefl x : ltb x x = false.
Proof. destruct (ltb x x) eqn:Hx; [by rewrite (ltb_asym _ _ Hx) in Hx | done]. Qed.

(** Ascending [sorted]: no element has a smaller key than the first. *)
Lemma py_sorted_head_least l h t :
  py_sorted ltb key false l = h :: t ->
  forall x, x ∈ l -> ltb (key x) (key h) = false.
Proof.
  revert h t. induction l as [|a l IH]; intros h t; simpl; [done|].
  destruct (py_sorted ltb key false l) as [|y r] eqn:Hsorted; simpl.
  - intros [= <- <-] x Hin.
    assert (l = []) as ->.
    { apply Permutation_nil_r. by rewrite <- Hsorted, py_sorted_perm. }
    apply elem_of_cons in Hin as [->|Hin]; [apply ltb_irrefl | by apply elem_of_nil in Hin].
  - destruct (ltb (key y) (key a)) eqn:Hlt.
    + intros [= <- <-] x Hin.
      apply elem_of_cons in Hin as [->|Hin]; [by apply ltb_asym | by eapply IH].
    + intros [= <- <-] x Hin.
      apply elem_of_cons in Hin as [->|Hin]; [apply ltb_irrefl|].
      eapply ltb_negtrans; [|exact Hlt]. by eapply IH.
Qed.

End PySortedHead.

Section EngineFacts.
Context `{PyInt}.
Variables (lecturer_name unavailable_day : string) (unavailable_days : list string).
Variables (time_type specific_time start_time end_time : option string).
Variables (max_end_time : string) (enable_swap : bool).
Variables (prefs : preferences) (approved_blocks : list Reschedule.approved_block).
Variable course_is_lab : gmap string bool.

Lemma simple_candidate_sound st oday s e room room_pool is_online day cs ce c :
  Reschedule.simple_candidate unavailable_day unavailable_days time_type specific_time
    start_time end_time prefs approved_blocks st oday s e room room_pool is_online
    (day, (cs, ce)) = Some (Some c) ->
  Reschedule.cand_day c = day /\ Reschedule.cand_start c = cs /\ Reschedule.cand_end c = ce
  /\ (Reschedule.cand_room c = room
      \/ exists r, Reschedule.cand_room c = Some r /\ r ∈ room_pool)
  /\ Reschedule.slot_open unavailable_day unavailable_days time_type specific_time
       start_time end_time prefs approved_blocks day cs ce is_online = Some true
  /\ Reschedule.conflicts st day cs ce (Reschedule.cand_room c) None = Some None
  /\ Reschedule.pref_score unavailable_day unavailable_days time_type start_time end_time
       prefs oday s e day cs ce = Some (Reschedule.cand_score c).
Proof.
  unfold Reschedule.simple_candidate. cbv zeta.
  remember (room :: (Some <$> List.filter (fun r => negb (bool_decide (Some r = room)))
                                room_pool)) as rooms_to_try eqn:Hrooms.
  destruct (Reschedule.slot_open _ _ _ _ _ _ _ _ _ _ _ _) as [[|]|]; simpl; try done.
  destruct (Reschedule.pref_score _ _ _ _ _ _ _ _ _ _ _ _) as [score|]; simpl; [|done].
  destruct (Reschedule.first_opt _ _) as [[try_room|]|] eqn:Hroom; simpl; try done.
  intros [= <-]. simpl.
  apply first_opt_Some in Hroom as (r & Hin & Hr).
  destruct (Reschedule.conflicts st day cs ce r None) as [[kind|]|] eqn:Hfree;
    simpl in Hr; try done.
  injection Hr as <-.
  repeat (split; [done|]). split; [|done]. subst rooms_to_try.
  apply elem_of_cons in Hin as [->|Hin]; [by left|]. right.
  apply list_elem_of_fmap in Hin as (name & -> & Hin).
  apply list_elem_of_In, filter_In in Hin as [Hin _]. apply list_elem_of_In in Hin. eauto.
Qed.

(** X11: when the first tier of the engine moves a class, the slot it
    commits is one of the generated times on one of the days tried, in the
    class's room or a room of the pool, it passed every test on the time, it
    had no lecturer and no room conflict in the engine's indexes, and no
    other candidate found had a higher preference score. *)
Theorem first_tier_commits_free_slot st cid oday s e room room_pool is_online
    preferred_days cand_times st' :
  Reschedule.try_simple unavailable_day unavailable_days time_type specific_time
    start_time end_time prefs approved_blocks st cid oday s e room room_pool is_online
    preferred_days cand_times = Some (Some st') ->
  exists best,
    st' = Reschedule.commit_simple st cid oday s e room best
    /\ Reschedule.cand_day best ∈ preferred_days
    /\ (Reschedule.cand_start best, Reschedule.cand_end best) ∈ cand_times
    /\ (Reschedule.cand_room best = room
        \/ exists r, Reschedule.cand_room best = Some r /\ r ∈ room_pool)
    /\ Reschedule.slot_open unavailable_day unavailable_days time_type specific_time
         start_time end_time prefs approved_blocks (Reschedule.cand_day best)
         (Reschedule.cand_start best) (Reschedule.cand_end best) is_online = Some true
    /\ Reschedule.conflicts st (Reschedule.cand_day best) (Reschedule.cand_start best)
         (Reschedule.cand_end best) (Reschedule.cand_room best) None = Some None
    /\ forall slot c, slot ∈ (preferred_days ≫= fun day => pair day <$> cand_times) ->
         Reschedule.simple_candidate unavailable_day unavailable_days time_type
           specific_time start_time end_time prefs approved_blocks st oday s e room
           room_pool is_online slot = Some (Some c) ->
         Reschedule.cand_score c <= Reschedule.cand_score best.
Proof.
  unfold Reschedule.try_simple.
  set (slots := preferred_days ≫= fun day => pair day <$> cand_times).
  destruct (mapM _ slots) as [found|] eqn:Hfound; simpl; [|done].
  destruct (mapM _ (omap id found)) as [keyed|] eqn:Hkeyed; simpl; [|done].
  destruct (py_sorted Reschedule.cand_key_ltb snd false keyed) as [|[best k] rest]
    eqn:Hsorted; [done|].
  intros [= <-]. exists best. split; [done|].
  apply mapM_Some in Hfound. apply mapM_Some in Hkeyed.
  assert (Hbest : (best, k) ∈ keyed).
  { apply (py_sorted_elem_of Reschedule.cand_key_ltb snd false). rewrite Hsorted. left. }
  assert (Hkey : forall c kc, (c, kc) ∈ keyed ->
            c ∈ omap id found /\ exists m, kc = (- Reschedule.cand_score c, m)).
  { intros c kc Hin. apply list_elem_of_lookup in Hin as [i Hi].
    destruct (Forall2_lookup_r _ _ _ _ _ Hkeyed Hi) as (c' & Hc' & Hmk).
    destruct (Reschedule.t2m (Reschedule.cand_start c')) as [m|]; simpl in Hmk; [|done].
    injection Hmk as <- <-. split; [by eapply list_elem_of_lookup_2 | eauto]. }
  assert (Hslot : forall c, c ∈ omap id found ->
            exists slot, slot ∈ slots
              /\ Reschedule.simple_candidate unavailable_day unavailable_days time_type
                   specific_time start_time end_time prefs approved_blocks st oday s e
                   room room_pool is_online slot = Some (Some c)).
  { intros c Hin. apply list_elem_of_omap in Hin as (oc & Hin & Hid). simpl in Hid. subst oc.
    apply list_elem_of_lookup in Hin as [i Hi].
    destruct (Forall2_lookup_r _ _ _ _ _ Hfound Hi) as (slot & Hs & Hc).
    exists slot. split; [by eapply list_elem_of_lookup_2 | done]. }
  destruct (Hkey _ _ Hbest) as [Hvalid [mb ->]].
  destruct (Hslot _ Hvalid) as ([day [cs ce]] & Hin & Hcand).
  apply simple_candidate_sound in Hcand as (<- & <- & <- & Hroom & Hopen & Hfree & _).
  unfold slots in Hin. apply list_elem_of_bind in Hin as (day & Hin & Hday).
  apply list_elem_of_fmap in Hin as (tm & Heq & Htm). injection Heq as Hd Ht.
  subst day tm.
  split; [done|]. split; [done|]. split; [done|]. split; [done|]. split; [done|].
  intros slot c Hslot_in Hc.
  assert (Hc_found : Some c ∈ found).
  { apply list_elem_of_lookup in Hslot_in as [i Hi].
    destruct (Forall2_lookup_l _ _ _ _ _ Hfound Hi) as (oc & Hoc & Hsc).
    rewrite Hc in Hsc. injection Hsc as <-. by eapply list_elem_of_lookup_2. }
  assert (Hc_valid : c ∈ omap id found).
  { apply list_elem_of_omap. by exists (Some c). }
  apply list_elem_of_lookup in Hc_valid as [j Hj].
  destruct (Forall2_lookup_l _ _ _ _ _ Hkeyed Hj) as ([c' kc] & Hkc & Hmk).
  destruct (Reschedule.t2m (Reschedule.cand_start c)) as [m|]; simpl in Hmk; [|done].
  injection Hmk as <- <-.
  pose proof (py_sorted_head_least Reschedule.cand_key_ltb snd cand_key_ltb_asym
                cand_key_ltb_negtrans keyed _ _ Hsorted _
                (list_elem_of_lookup_2 _ _ _ Hkc)) as Hleast.
  unfold Reschedule.cand_key_ltb in Hleast. simpl in Hleast. lia.
Qed.

End EngineFacts.

Section EngineAccounting.
Context `{PyInt}.
Variables (lecturer_name unavailable_day : string) (unavailable_days : list string).
Variables (time_type specific_time start_time end_time : option string).
Variables (max_end_time : string) (enable_swap : bool).
Variables (prefs : preferences) (approved_blocks : list Reschedule.approved_block).
Variable course_is_lab : gmap string bool.

Lemma filter_opt_filter {A : Type} (f : A -> option bool) l kept :
  Reschedule.filter_opt f l = Some kept ->
  kept = List.filter (fun x => bool_decide (f x = Some true)) l
  /\ Forall (fun x => is_Some (f x)) l.
Proof.
  revert kept. induction l as [|x rest IH]; intros kept; simpl.
  - intros [= <-]. by split.
  - destruct (f x) as [keep|] eqn:Hx; simpl; [|done].
    destruct (Reschedule.filter_opt f rest) as [rest'|]; simpl; [|done].
    intros [= <-]. destruct (IH _ eq_refl) as [-> Hall].
    split; [|constructor; [by rewrite Hx | done]].
    by destruct keep.
Qed.

Lemma try_simple_commit st cid oday s e room room_pool is_online preferred_days cand_times st' :
  Reschedule.try_simple unavailable_day unavailable_days time_type specific_time
    start_time end_time prefs approved_blocks st cid oday s e room room_pool is_online
    preferred_days cand_times = Some (Some st') ->
  exists best, st' = Reschedule.commit_simple st cid oday s e room best.
Proof.
  unfold Reschedule.try_simple.
  destruct (mapM _ _) as [found|]; simpl; [|done].
  destruct (mapM _ (omap id found)) as [keyed|]; simpl; [|done].
  destruct (py_sorted _ _ _ _) as [|[best k] rest]; [done|].
  intros [= <-]. eauto.
Qed.

Lemma swap_at_commit affected st cid oday s e room is_online slot st' :
  Reschedule.swap_at unavailable_day unavailable_days time_type specific_time
    start_time end_time max_end_time prefs approved_blocks affected st cid oday s e room
    is_online slot = Some (Some st') ->
  exists day cs ce b blocker_room bs be,
    st' = Reschedule.commit_swap st cid oday s e room day cs ce b blocker_room bs be
    /\ b ∈ default [] (Reschedule.lect_sched st !! day).
Proof.
  unfold Reschedule.swap_at. destruct slot as [day [cs ce]].
  destruct (Reschedule.slot_open _ _ _ _ _ _ _ _ _ _ _ _) as [[|]|]; simpl; try done.
  destruct (Reschedule.conflicts st day cs ce room None) as [[[|]|]|]; simpl; try done.
  destruct (Reschedule.filter_opt _ _) as [[|b [|b' blockers]]|] eqn:Hblockers;
    simpl; try done.
  assert (Hb : b ∈ default [] (Reschedule.lect_sched st !! day)).
  { apply filter_opt_filter in Hblockers as [Hblockers _].
    assert (Hin : b ∈ [b]) by left. rewrite Hblockers in Hin.
    apply list_elem_of_In, filter_In in Hin as [Hin _]. by apply list_elem_of_In. }
  destruct (Reschedule.any_opt _ affected) as [[|]|]; simpl; try done.
  destruct (List.find _ (Reschedule.db st)) as [b_doc|]; [|done].
  destruct (Reschedule.t2m_opt (Reschedule.ls_end b)) as [b_end|]; simpl; [|done].
  destruct (Reschedule.t2m_opt (Reschedule.ls_start b)) as [b_start|]; simpl; [|done].
  destruct (Reschedule.generate_candidates _ _) as [b_candidates|]; simpl; [|done].
  intros Hfirst. apply first_opt_Some in Hfirst as ([bs be] & _ & Hcand).
  case_bool_decide; [done|].
  destruct (Reschedule.blocked _ _ _ _ _ _ _ _ _) as [[|]|]; simpl in Hcand; try done.
  destruct (Reschedule.is_in_approved_block _ _ _ _) as [[|]|]; simpl in Hcand; try done.
  destruct (Reschedule.conflicts st day bs be _ _) as [[kind|]|]; simpl in Hcand; try done.
  injection Hcand as <-. eauto 12.
Qed.

Lemma process_class_step affected st cls st' :
  Reschedule.process_class unavailable_day unavailable_days time_type specific_time
    start_time end_time max_end_time enable_swap prefs approved_blocks course_is_lab
    affected st cls = Some st' ->
  Forall2 same_class (Reschedule.db st) (Reschedule.db st')
  /\ (Reschedule.moved st' + length (Reschedule.failed st')
      = S (Reschedule.moved st + length (Reschedule.failed st)))%nat.
Proof.
  unfold Reschedule.process_class. cbv zeta.
  destruct (doc_day cls) as [oday|]; simpl; [|done].
  destruct (doc_start cls) as [s|]; simpl; [|done].
  destruct (doc_end cls) as [e|]; simpl; [|done].
  destruct (Reschedule.t2m e) as [e_min|]; simpl; [|done].
  destruct (Reschedule.t2m s) as [s_min|]; simpl; [|done].
  destruct (Reschedule.generate_candidates _ _) as [cand_times|]; simpl; [|done].
  destruct (Reschedule.try_simple _ _ _ _ _ _ _ _ _ _ _ _ _ _ _ _ _ _)
    as [[st1|]|] eqn:Hsimple; simpl; [| |done].
  { intros [= <-]. apply try_simple_commit in Hsimple as [best ->].
    destruct (commit_simple_step st (doc_id cls) oday s e (doc_room cls) best)
      as (Hdb & -> & ->). done. }
  destruct (if enable_swap then _ else _) as [[st2|]|] eqn:Hswap; simpl; [| |done].
  - intros [= <-]. destruct enable_swap; [|done].
    apply first_opt_Some in Hswap as (slot & _ & Hat).
    apply swap_at_commit in Hat as (day & cs & ce & b & blocker_room & bs & be & -> & _).
    destruct (commit_swap_step st (doc_id cls) oday s e (doc_room cls) day cs ce b
                blocker_room bs be) as (Hdb & -> & ->). done.
  - intros [= <-]. simpl. split; [apply same_class_all_refl|].
    rewrite length_app. simpl. lia.
Qed.

Lemma process_fold affected classes st0 st :
  foldl (fun acc cls =>
           st ← acc;
           Reschedule.process_class unavailable_day unavailable_days time_type
             specific_time start_time end_time max_end_time enable_swap prefs
             approved_blocks course_is_lab affected st cls)
    (Some st0) classes = Some st ->
  Forall2 same_class (Reschedule.db st0) (Reschedule.db st)
  /\ (Reschedule.moved st + length (Reschedule.failed st)
      = Reschedule.moved st0 + length (Reschedule.failed st0) + length classes)%nat.
Proof.
  revert st0. induction classes as [|cls rest IH]; intros st0; simpl.
  - intros [= <-]. split; [apply same_class_all_refl | lia].
  - destruct (Reschedule.process_class _ _ _ _ _ _ _ _ _ _ _ affected st0 cls)
      as [st1|] eqn:Hstep.
    + intros Hrest. apply IH in Hrest as [Hdb Hcount].
      apply process_class_step in Hstep as [Hdb1 Hcount1].
      split; [by eapply same_class_all_trans | lia].
    + intros Hrest. exfalso. clear -Hrest.
      induction rest as [|c r IHr]; simpl in Hrest; [done | by apply IHr].
Qed.

(** X12: a run of the engine that returns neither adds nor removes a
    document and changes nothing of any document but day, start, end and
    room; every affected class is counted exactly once, as moved or as
    failed, and every class of the lecturer on the reported days exactly once
    as affected or as unaffected. *)
Theorem reschedule_accounts_for_every_class docs r :
  Reschedule._reschedule_lecturer_classes_v2 lecturer_name unavailable_day unavailable_days
    time_type specific_time start_time end_time max_end_time enable_swap prefs
    approved_blocks course_is_lab docs = Some r ->
  Forall2 same_class docs (Reschedule.res_db r)
  /\ (Reschedule.res_moved r + Reschedule.res_failed r = Reschedule.res_total r)%nat
  /\ Reschedule.res_failed r = length (Reschedule.res_failed_courses r)
  /\ (Reschedule.res_total r + Reschedule.res_unaffected r
      = length (Reschedule.source_days unavailable_day unavailable_days ≫= fun d =>
                  List.filter (fun c => bool_decide (doc_dosen c = Some lecturer_name)
                                        && bool_decide (doc_day c = Some d)) docs))%nat.
Proof.
  unfold Reschedule._reschedule_lecturer_classes_v2. cbv zeta.
  set (raw := Reschedule.source_days unavailable_day unavailable_days ≫= _).
  destruct (Reschedule.filter_opt _ raw) as [affected|] eqn:Haffected; simpl; [|done].
  apply filter_opt_filter in Haffected as [Haffected Hall].
  assert (Hsplit : (length affected
                    + length (List.filter (fun c => negb (bool_decide (c ∈ affected))) raw)
                    = length raw)%nat).
  { rewrite Haffected.
    rewrite (filter_ext_in
               (fun c => negb (bool_decide
                  (c ∈ List.filter (fun x => bool_decide
                     (Reschedule.in_block time_type specific_time start_time end_time
                        (doc_start x) (doc_end x) = Some true)) raw)))
               (fun c => negb (bool_decide
                  (Reschedule.in_block time_type specific_time start_time end_time
                     (doc_start c) (doc_end c) = Some true)))).
    - clear. induction raw as [|c l IH]; simpl; [done|].
      case_bool_decide; simpl; lia.
    - intros c Hc. f_equal. apply bool_decide_ext.
      rewrite list_elem_of_In, filter_In, bool_decide_eq_true. tauto. }
  case_bool_decide as Hempty.
  - intros [= <-]. simpl.
    assert (Hnone : length affected = 0%nat) by (by rewrite Hempty).
    split; [apply same_class_all_refl|]. repeat split; lia.
  - destruct (Reschedule.t2m max_end_time) as [limit|]; simpl; [|done].
    destruct (foldl _ _ affected) as [st|] eqn:Hfold; simpl; [|done].
    intros [= <-]. simpl. apply process_fold in Hfold as [Hdb Hcount]. simpl in *.
    split; [done|]. repeat split; lia.
Qed.

End EngineAccounting.

Lemma first_tier_commits_free_slot_witness :
  Reschedule.try_simple "Senin" ["Senin"] None None None None no_preferences []
    monday_state 5 "Senin" "09:40" "11:20" (Some "Infor 1") NON_LAB_ROOMS false
    ["Selasa"] [("08:00", "09:40"); ("09:40", "11:20")]
  = Some (Some (Reschedule.commit_simple monday_state 5 "Senin" "09:40" "11:20"
                  (Some "Infor 1") tuesday_slot))
  /\ exists best,
       Reschedule.commit_simple monday_state 5 "Senin" "09:40" "11:20"
         (Some "Infor 1") tuesday_slot
       = Reschedule.commit_simple monday_state 5 "Senin" "09:40" "11:20"
           (Some "Infor 1") best
       /\ Reschedule.cand_day best ∈ ["Selasa"]
       /\ (Reschedule.cand_start best, Reschedule.cand_end best)
          ∈ [("08:00", "09:40"); ("09:40", "11:20")]
       /\ (Reschedule.cand_room best = Some "Infor 1"
           \/ exists r, Reschedule.cand_room best = Some r /\ r ∈ NON_LAB_ROOMS)
       /\ Reschedule.slot_open "Senin" ["Senin"] None None None None no_preferences []
            (Reschedule.cand_day best) (Reschedule.cand_start best)
            (Reschedule.cand_end best) false = Some true
       /\ Reschedule.conflicts monday_state (Reschedule.cand_day best)
            (Reschedule.cand_start best) (Reschedule.cand_end best)
            (Reschedule.cand_room best) None = Some None
       /\ forall slot c,
            slot ∈ (["Selasa"] ≫= fun day =>
                      pair day <$> [("08:00", "09:40"); ("09:40", "11:20")]) ->
            Reschedule.simple_candidate "Senin" ["Senin"] None None None None
              no_preferences [] monday_state "Senin" "09:40" "11:20" (Some "Infor 1")
              NON_LAB_ROOMS false slot = Some (Some c) ->
            Reschedule.cand_score c <= Reschedule.cand_score best.
Proof.
  assert (Hrun : Reschedule.try_simple "Senin" ["Senin"] None None None None
                   no_preferences [] monday_state 5 "Senin" "09:40" "11:20"
                   (Some "Infor 1") NON_LAB_ROOMS false ["Selasa"]
                   [("08:00", "09:40"); ("09:40", "11:20")]
                 = Some (Some (Reschedule.commit_simple monday_state 5 "Senin" "09:40"
                                 "11:20" (Some "Infor 1") tuesday_slot)))
    by (vm_compute; reflexivity).
  split; [exact Hrun|].
  exact (first_tier_commits_free_slot "Senin" ["Senin"] None None None None
           no_preferences [] monday_state 5 "Senin" "09:40" "11:20" (Some "Infor 1")
           NON_LAB_ROOMS false ["Selasa"] [("08:00", "09:40"); ("09:40", "11:20")] _ Hrun).
Defined.

Lemma reschedule_accounts_for_every_class_witness :
  Reschedule._reschedule_lecturer_classes_v2 "Dosen B" "Senin" ["Senin"] None None None
    None "17:00" true no_preferences [] ∅ monday_timetable = Some whole_monday_result
  /\ Forall2 same_class monday_timetable (Reschedule.res_db whole_monday_result)
  /\ (Reschedule.res_moved whole_monday_result + Reschedule.res_failed whole_monday_result
      = Reschedule.res_total whole_monday_result)%nat
  /\ Reschedule.res_failed whole_monday_result
     = length (Reschedule.res_failed_courses whole_monday_result)
  /\ (Reschedule.res_total whole_monday_result + Reschedule.res_unaffected whole_monday_result
      = length (Reschedule.source_days "Senin" ["Senin"] ≫= fun d =>
                  List.filter (fun c => bool_decide (doc_dosen c = Some "Dosen B")
                                        && bool_decide (doc_day c = Some d))
                    monday_timetable))%nat.
Proof.
  assert (Hrun : Reschedule._reschedule_lecturer_classes_v2 "Dosen B" "Senin" ["Senin"]
                   None None None None "17:00" true no_preferences [] ∅ monday_timetable
                 = Some whole_monday_result) by (vm_compute; reflexivity).
  split; [exact Hrun|].
  exact (reschedule_accounts_for_every_class "Dosen B" "Senin" ["Senin"] None None None
           None "17:00" true no_preferences [] ∅ monday_timetable _ Hrun).
Defined.

(** ** Candidate times of the engine *)

Lemma py_range_elem lo hi step x :
  0 < step -> x ∈ py_range lo hi step ->
  exists k, 0 <= k /\ x = lo + step * k /\ x < hi.
Proof.
  intros Hstep. unfold py_range. destruct (lo <? hi) eqn:Hlt.
  - apply Z.ltb_lt in Hlt. intros Hin.
    apply list_elem_of_fmap in Hin as (k & -> & Hk). apply elem_of_seq in Hk.
    exists (Z.of_nat k). split; [lia|]. split; [done|].
    pose proof (Z.mul_div_le (hi - lo + step - 1) step Hstep) as Hdiv.
    assert (Hq : 0 <= (hi - lo + step - 1) / step) by (apply Z.div_pos; lia).
    nia.
  - intros Hin. by apply elem_of_nil in Hin.
Qed.

(** X13: every candidate time the engine generates for a class starts a
    multiple of 50 minutes after 08:00, lasts exactly the duration asked for
    and ends no later than the limit, which is 17:00 when the given limit
    reads as midnight. *)
Theorem generate_candidates_slots max_end_time duration cands cs ce :
  0 <= duration ->
  Reschedule.generate_candidates max_end_time duration = Some cands ->
  (cs, ce) ∈ cands ->
  exists k limit,
    0 <= k
    /\ Reschedule.t2m max_end_time = Some limit
    /\ Reschedule.t2m cs = Some (480 + 50 * k)
    /\ Reschedule.t2m ce = Some (480 + 50 * k + duration)
    /\ 480 + 50 * k + duration <= (if limit =? 0 then 1020 else limit).
Proof.
  intros Hduration. unfold Reschedule.generate_candidates.
  destruct (Reschedule.t2m max_end_time) as [limit|] eqn:Hlimit; simpl; [|done].
  assert (Hend : (if limit =? 0 then Reschedule.t2m "17:00" else Some limit)
                 = Some (if limit =? 0 then 1020 else limit)).
  { by destruct (limit =? 0). }
  rewrite Hend. simpl.
  change (Reschedule.t2m "08:00") with (Some 480). simpl.
  intros [= <-] Hin.
  apply list_elem_of_omap in Hin as (start_m & Hin & Hkeep).
  apply py_range_elem in Hin as (k & Hk & -> & _); [|lia].
  destruct (_ <? _) eqn:Hfit in Hkeep; [done|]. apply Z.ltb_ge in Hfit.
  injection Hkeep as <- <-.
  exists k, limit. split; [done|]. split; [done|].
  split; [apply t2m_of_m2t; lia|]. split; [apply t2m_of_m2t; lia | done].
Qed.

Lemma generate_candidates_slots_witness :
  0 <= 100
  /\ Reschedule.generate_candidates "17:00" 100
     = Some [("08:00", "09:40"); ("08:50", "10:30"); ("09:40", "11:20"); ("10:30", "12:10");
             ("11:20", "13:00"); ("12:10", "13:50"); ("13:00", "14:40"); ("13:50", "15:30");
             ("14:40", "16:20")]
  /\ ("13:50", "15:30")
     ∈ [("08:00", "09:40"); ("08:50", "10:30"); ("09:40", "11:20"); ("10:30", "12:10");
        ("11:20", "13:00"); ("12:10", "13:50"); ("13:00", "14:40"); ("13:50", "15:30");
        ("14:40", "16:20")]
  /\ exists k limit,
       0 <= k
       /\ Reschedule.t2m "17:00" = Some limit
       /\ Reschedule.t2m "13:50" = Some (480 + 50 * k)
       /\ Reschedule.t2m "15:30" = Some (480 + 50 * k + 100)
       /\ 480 + 50 * k + 100 <= (if limit =? 0 then 1020 else limit).
Proof.
  assert (Hduration : 0 <= 100) by lia.
  assert (Hrun : Reschedule.generate_candidates "17:00" 100
                 = Some [("08:00", "09:40"); ("08:50", "10:30"); ("09:40", "11:20");
                         ("10:30", "12:10"); ("11:20", "13:00"); ("12:10", "13:50");
                         ("13:00", "14:40"); ("13:50", "15:30"); ("14:40", "16:20")])
    by (vm_compute; reflexivity).
  assert (Hin : ("13:50", "15:30")
                ∈ [("08:00", "09:40"); ("08:50", "10:30"); ("09:40", "11:20");
                   ("10:30", "12:10"); ("11:20", "13:00"); ("12:10", "13:50");
                   ("13:00", "14:40"); ("13:50", "15:30"); ("14:40", "16:20")])
    by (do 7 right; left).
  split; [exact Hduration|]. split; [exact Hrun|]. split; [exact Hin|].
  exact (generate_candidates_slots "17:00" 100 _ "13:50" "15:30" Hduration Hrun Hin).
Defined.

(** ** Time blocks on Friday *)

Ltac friday_block Hin :=
  repeat (apply elem_of_cons in Hin as [-> | Hin];
          [split; [apply list_elem_of_In; vm_compute; auto 12
                  | eexists _, _; split; vm_compute; reflexivity]|]);
  by apply elem_of_nil in Hin.

(** X14: every block offered on Friday is also offered, for the same number
    of credits, on Monday to Thursday, and none of them overlaps the Friday
    break from 12:10 to 14:00. *)
Theorem friday_blocks_keep_the_break sks tb :
  tb ∈ get_timeblocks_for_day "Jumat" sks ->
  (forall day, tb ∈ get_timeblocks_for_day day sks)
  /\ exists start end_,
       Py.split "-" tb = [start; end_]
       /\ times_overlap start end_ "12:10" "14:00" = Some false.
Proof.
  intros Hin.
  assert (Hother : tb ∈ get_timeblocks_for_day "Senin" sks
                   /\ exists start end_,
                        Py.split "-" tb = [start; end_]
                        /\ times_overlap start end_ "12:10" "14:00" = Some false).
  { revert Hin. unfold get_timeblocks_for_day.
    rewrite (bool_decide_eq_true_2 ("Jumat" = "Jumat") eq_refl).
    rewrite (bool_decide_eq_false_2 ("Senin" = "Jumat")) by done.
    intros Hin.
    destruct (decide (sks = 1)) as [->|H1];
      [|destruct (decide (sks = 2)) as [->|H2];
        [|destruct (decide (sks = 3)) as [->|H3]]].
    - vm_compute in Hin. friday_block Hin.
    - vm_compute in Hin. friday_block Hin.
    - vm_compute in Hin. friday_block Hin.
    - destruct (TIMEBLOCKS_other sks H1 H2 H3) as [E1 E2]. rewrite E2 in Hin. rewrite E1.
      vm_compute in Hin. friday_block Hin. }
  destruct Hother as [Hweek Hbreak]. split; [|done].
  intros day. unfold get_timeblocks_for_day in *.
  rewrite (bool_decide_eq_false_2 ("Senin" = "Jumat")) in Hweek by done.
  rewrite (bool_decide_eq_true_2 ("Jumat" = "Jumat") eq_refl) in Hin.
  by destruct (bool_decide (day = "Jumat")).
Qed.

Lemma friday_blocks_keep_the_break_witness :
  "10:30-12:10" ∈ get_timeblocks_for_day "Jumat" 2
  /\ (forall day, "10:30-12:10" ∈ get_timeblocks_for_day day 2)
  /\ exists start end_,
       Py.split "-" "10:30-12:10" = [start; end_]
       /\ times_overlap start end_ "12:10" "14:00" = Some false.
Proof.
  assert (Hin : "10:30-12:10" ∈ get_timeblocks_for_day "Jumat" 2)
    by (vm_compute; do 2 right; left).
  split; [exact Hin|]. exact (friday_blocks_keep_the_break 2 "10:30-12:10" Hin).
Defined.

(** ** Stability of the sorts *)

Section PySortedStable.
Context {A K : Type} (ltb : K -> K -> bool) (key : A -> K) (P : A -> bool).
Hypothesis P_tied : forall a b, P a = true -> P b = true -> ltb (key a) (key b) = false.

Lemma sorted_insert_filter reverse x l :
  List.filter P (sorted_insert ltb key reverse x l) = List.filter P (x :: l).
Proof.
  induction l as [|y r IH]; [done|].
  change (sorted_insert ltb key reverse x (y :: r))
    with (if (if reverse then ltb (key x) (key y) else ltb (key y) (key x))
          then y :: sorted_insert ltb key reverse x r else x :: y :: r).
  destruct (if reverse then ltb (key x) (key y) else ltb (key y) (key x)) eqn:Hpast; [|done].
  change (List.filter P (y :: sorted_insert ltb key reverse x r))
    with (if P y then y :: List.filter P (sorted_insert ltb key reverse x r)
          else List.filter P (sorted_insert ltb key reverse x r)).
  rewrite IH. simpl.
  destruct (P x) eqn:Hx, (P y) eqn:Hy; try done.
  destruct reverse; by rewrite P_tied in Hpast.
Qed.

(** Elements that tie on the key keep their input order, in both
    directions of the sort. *)
Lemma py_sorted_filter reverse l :
  List.filter P (py_sorted ltb key reverse l) = List.filter P l.
Proof.
  induction l as [|x l IH]; [done|].
  change (py_sorted ltb key reverse (x :: l))
    with (sorted_insert ltb key reverse x (py_sorted ltb key reverse l)).
  rewrite sorted_insert_filter. simpl. by rewrite IH.
Qed.

End PySortedStable.

(** X15: lecturers of equal restrictiveness are placed in the order in
    which [lecturer_sections_map] holds them: restricted to the lecturers of
    any one score, the sorted list is the map itself. *)
Theorem sorted_lecturers_ties_keep_order {Sec : Type} (lp : gmap string preferences)
    (m : list (string * list Sec)) (score : Z) :
  List.filter (fun x => calculate_restrictiveness lp m x.1 =? score) (sorted_lecturers lp m)
  = List.filter (fun x => calculate_restrictiveness lp m x.1 =? score) m.
Proof.
  unfold sorted_lecturers. apply py_sorted_filter.
  intros a b Ha Hb. apply Z.eqb_eq in Ha, Hb. rewrite Ha, Hb. apply Z.ltb_irrefl.
Qed.

(** ** Section counts by rule *)

(** X16: for a course of one to three credits the rule gives one count per
    lecturer, each worth 8 to 12 credits, unless it takes one of its special
    cases for a named course, which give a single count of one or of three
    sections; a course without a name never takes a special case. *)
Theorem flexible_distribution_within_band (str_lower : string -> string)
    (num_lecturers sks : Z) (course_name : option string) :
  1 <= sks <= 3 ->
  (calculate_flexible_section_distribution str_lower num_lecturers sks course_name = [1]
   \/ calculate_flexible_section_distribution str_lower num_lecturers sks course_name = [3]
   \/ (length (calculate_flexible_section_distribution str_lower num_lecturers sks
                 course_name) = Z.to_nat num_lecturers
       /\ Forall (fun k => MIN_SKS_PER_DOSEN <= k * sks <= MAX_SKS_PER_DOSEN)
            (calculate_flexible_section_distribution str_lower num_lecturers sks
               course_name)))
  /\ (truthy_opt course_name = false ->
      length (calculate_flexible_section_distribution str_lower num_lecturers sks
                course_name) = Z.to_nat num_lecturers
      /\ Forall (fun k => MIN_SKS_PER_DOSEN <= k * sks <= MAX_SKS_PER_DOSEN)
           (calculate_flexible_section_distribution str_lower num_lecturers sks
              course_name)).
Proof.
  intros Hsks.
  assert (Hgeneral :
            length (if num_lecturers =? 0 then []
                    else if num_lecturers =? 1
                         then [if sks =? 3 then 3 else if sks =? 2 then 4 else 9]
                         else replicate (Z.to_nat num_lecturers)
                                (if sks =? 3 then 3 else if sks =? 2 then 4 else 8))
            = Z.to_nat num_lecturers
            /\ Forall (fun k => MIN_SKS_PER_DOSEN <= k * sks <= MAX_SKS_PER_DOSEN)
                 (if num_lecturers =? 0 then []
                  else if num_lecturers =? 1
                       then [if sks =? 3 then 3 else if sks =? 2 then 4 else 9]
                       else replicate (Z.to_nat num_lecturers)
                              (if sks =? 3 then 3 else if sks =? 2 then 4 else 8))).
  { unfold MIN_SKS_PER_DOSEN, MAX_SKS_PER_DOSEN.
    destruct (num_lecturers =? 0) eqn:H0; [apply Z.eqb_eq in H0 as ->; by split|].
    destruct (num_lecturers =? 1) eqn:H1.
    - apply Z.eqb_eq in H1 as ->. split; [done|]. constructor; [|done].
      destruct (sks =? 3) eqn:E3; [apply Z.eqb_eq in E3; lia|].
      destruct (sks =? 2) eqn:E2; [apply Z.eqb_eq in E2; lia|].
      apply Z.eqb_neq in E3, E2. lia.
    - split; [apply length_replicate|]. apply Forall_replicate.
      destruct (sks =? 3) eqn:E3; [apply Z.eqb_eq in E3; lia|].
      destruct (sks =? 2) eqn:E2; [apply Z.eqb_eq in E2; lia|].
      apply Z.eqb_neq in E3, E2. lia. }
  unfold calculate_flexible_section_distribution. cbv zeta.
  destruct (truthy_opt course_name) eqn:Hname; [|by split; [right; right|]].
  split; [|done].
  destruct (bool_decide (default "" course_name ∈ _)); [by left|].
  destruct (bool_decide (default "" course_name = _)); [by right; left|].
  destruct (bool_decide (str_lower (default "" course_name) ∈ _) && (num_lecturers =? 1));
    [by right; left | by right; right].
Qed.

Lemma flexible_distribution_within_band_witness :
  1 <= 2 <= 3
  /\ (calculate_flexible_section_distribution ascii_lower 3 2 (Some "Basis Data") = [1]
      \/ calculate_flexible_section_distribution ascii_lower 3 2 (Some "Basis Data") = [3]
      \/ (length (calculate_flexible_section_distribution ascii_lower 3 2
                    (Some "Basis Data")) = Z.to_nat 3
          /\ Forall (fun k => MIN_SKS_PER_DOSEN <= k * 2 <= MAX_SKS_PER_DOSEN)
               (calculate_flexible_section_distribution ascii_lower 3 2
                  (Some "Basis Data"))))
  /\ (truthy_opt (Some "Basis Data") = false ->
      length (calculate_flexible_section_distribution ascii_lower 3 2
                (Some "Basis Data")) = Z.to_nat 3
      /\ Forall (fun k => MIN_SKS_PER_DOSEN <= k * 2 <= MAX_SKS_PER_DOSEN)
           (calculate_flexible_section_distribution ascii_lower 3 2 (Some "Basis Data"))).
Proof.
  assert (Hsks : 1 <= 2 <= 3) by lia.
  split; [exact Hsks|].
  exact (flexible_distribution_within_band ascii_lower 3 2 (Some "Basis Data") Hsks).
Defined.

(** ** The slot the rebalancing pass moves a section to *)

Section FindFreeSlotFacts.
Context `{PyInt}.
Variable lecturer_preferences : gmap string preferences.
Variable lecturer_calendar : list (string * string * string * string).
Variable room_calendar : list (string * string * string * string).

Lemma lecturer_busy_false lect start end_ :
  lecturer_busy_on_friday lecturer_calendar lect start end_ = Some false ->
  forall d s e, (lect, d, s, e) ∈ lecturer_calendar -> d = "Jumat" ->
    times_overlap start end_ s e = Some false.
Proof.
  intros Hbusy d s e Hin ->.
  pose proof (any_opt_false _ _ Hbusy _ Hin) as Hkey. simpl in Hkey.
  by rewrite !bool_decide_eq_true_2 in Hkey by done.
Qed.

Lemma room_busy_false room start end_ :
  room_busy_on_friday room_calendar room start end_ = Some false ->
  forall d s e, (d, room, s, e) ∈ room_calendar -> d = "Jumat" ->
    times_overlap start end_ s e = Some false.
Proof.
  intros Hbusy d s e Hin ->.
  pose proof (any_opt_false _ _ Hbusy _ Hin) as Hkey. simpl in Hkey.
  by rewrite !bool_decide_eq_true_2 in Hkey by done.
Qed.

(** X17: the slot [find_free_slot] returns is a Friday time block for the
    section's credits that the lecturer's preferences allow in strict mode
    and that overlaps no Friday entry of the lecturer in the lecturer
    calendar; for an online section the room is ONLINE, otherwise it is one
    of the configured rooms and the block overlaps no Friday entry of that
    room in the room calendar. *)
Theorem find_free_slot_is_free section room tb :
  find_free_slot lecturer_preferences lecturer_calendar room_calendar section
  = Some (Some (room, tb)) ->
  tb ∈ get_timeblocks_for_day "Jumat" (default 2 (sec_sks (sd_fields section)))
  /\ exists start end_,
       Py.split "-" tb = [start; end_]
       /\ (exists score,
             check_lecturer_preferences lecturer_preferences (_get_section_dosen section)
               "Jumat" start end_ true (sd_is_online section) = Some (true, score))
       /\ (forall d s e,
             (_get_section_dosen section, d, s, e) ∈ lecturer_calendar -> d = "Jumat" ->
             times_overlap start end_ s e = Some false)
       /\ (if sd_is_online section then room = "ONLINE"
           else room ∈ NON_LAB_ROOMS ++ LAB_ROOMS
                /\ forall d s e, (d, room, s, e) ∈ room_calendar -> d = "Jumat" ->
                     times_overlap start end_ s e = Some false).
Proof.
  unfold find_free_slot. cbv zeta.
  set (lect := _get_section_dosen section).
  set (timeblocks := get_timeblocks_for_day "Jumat" _).
  destruct (sd_is_online section).
  - intros Hfirst. apply first_opt_Some in Hfirst as (tb' & Hin & Htry).
    unfold try_online in Htry.
    destruct (Py.split "-" tb') as [|start [|end_ [|extra parts]]] eqn:Hsplit; try done.
    destruct (check_lecturer_preferences _ lect "Jumat" start end_ true true)
      as [[allowed score]|] eqn:Hpref; simpl in Htry; [|done].
    destruct allowed; simpl in Htry; [|done].
    destruct (lecturer_busy_on_friday _ lect start end_) as [[|]|] eqn:Hbusy;
      simpl in Htry; try done.
    injection Htry as <- <-. split; [done|]. exists start, end_.
    split; [done|]. split; [by exists score|]. split; [|done].
    by apply lecturer_busy_false.
  - intros Hfirst. apply first_opt_Some in Hfirst as ([room' tb'] & Hin & Htry).
    apply list_elem_of_bind in Hin as (r & Hin & Hroom).
    apply list_elem_of_fmap in Hin as (tb'' & [= -> ->] & Htb).
    unfold try_room in Htry.
    destruct (Py.split "-" tb'') as [|start [|end_ [|extra parts]]] eqn:Hsplit; try done.
    destruct (check_lecturer_preferences _ lect "Jumat" start end_ true false)
      as [[allowed score]|] eqn:Hpref; simpl in Htry; [|done].
    destruct allowed; simpl in Htry; [|done].
    destruct (room_busy_on_friday _ r start end_) as [[|]|] eqn:Hroom_busy;
      simpl in Htry; try done.
    destruct (lecturer_busy_on_friday _ lect start end_) as [[|]|] eqn:Hbusy;
      simpl in Htry; try done.
    injection Htry as <- <-. split; [done|]. exists start, end_.
    split; [done|]. split; [by exists score|].
    split; [by apply lecturer_busy_false|]. split; [|by apply room_busy_false].
    rewrite elem_of_app in Hroom |- *. destruct (sec_is_lab (sd_fields section)); tauto.
Qed.

End FindFreeSlotFacts.

Lemma find_free_slot_is_free_witness :
  find_free_slot sample_preferences friday_lecturer_calendar friday_room_calendar
    movable_section = Some (Some ("Infor 1", "09:40-11:20"))
  /\ "09:40-11:20"
     ∈ get_timeblocks_for_day "Jumat" (default 2 (sec_sks (sd_fields movable_section)))
  /\ exists start end_,
       Py.split "-" "09:40-11:20" = [start; end_]
       /\ (exists score,
             check_lecturer_preferences sample_preferences
               (_get_section_dosen movable_section) "Jumat" start end_ true
               (sd_is_online movable_section) = Some (true, score))
       /\ (forall d s e,
             (_get_section_dosen movable_section, d, s, e) ∈ friday_lecturer_calendar ->
             d = "Jumat" -> times_overlap start end_ s e = Some false)
       /\ (if sd_is_online movable_section then "Infor 1" = "ONLINE"
           else "Infor 1" ∈ NON_LAB_ROOMS ++ LAB_ROOMS
                /\ forall d s e, (d, "Infor 1", s, e) ∈ friday_room_calendar ->
                     d = "Jumat" -> times_overlap start end_ s e = Some false).
Proof.
  assert (Hrun : find_free_slot sample_preferences friday_lecturer_calendar
                   friday_room_calendar movable_section
                 = Some (Some ("Infor 1", "09:40-11:20"))) by (vm_compute; reflexivity).
  split; [exact Hrun|].
  exact (find_free_slot_is_free sample_preferences friday_lecturer_calendar
           friday_room_calendar movable_section "Infor 1" "09:40-11:20" Hrun).
Defined.

(** ** Normalized lecturer names *)

Lemma id_map_step_values (names : list string) m l :
  u_name l ∈ names ->
  (forall s v, m !! s = Some v -> v ∈ names) ->
  forall s v, id_map_step m l !! s = Some v -> v ∈ names.
Proof.
  intros Hname Hm s v. unfold id_map_step.
  destruct (Py.truthy (u_name l)); simpl; [|apply Hm].
  assert (Hins : forall (m' : gmap string string) k,
            (forall s v, m' !! s = Some v -> v ∈ names) ->
            forall s v, <[k := u_name l]> m' !! s = Some v -> v ∈ names).
  { intros m' k Hm' s' v'. destruct (decide (k = s')) as [->|Hne].
    - rewrite lookup_insert_eq. by intros [= <-].
    - rewrite lookup_insert_ne by done. apply Hm'. }
  assert (H1 := Hins m (u_name l) Hm).
  assert (H2 : forall s v,
            match u_username l with
            | Some username =>
                if Py.truthy username then <[username := u_name l]> (<[u_name l := u_name l]> m)
                else <[u_name l := u_name l]> m
            | None => <[u_name l := u_name l]> m
            end !! s = Some v -> v ∈ names).
  { destruct (u_username l) as [username|]; [|done].
    destruct (Py.truthy username); [by apply Hins | done]. }
  destruct (u_email l) as [email|]; [|apply H2].
  destruct (Py.truthy email); [by apply Hins | apply H2].
Qed.

Lemma build_id_map_values lecturers s v :
  build_id_map lecturers !! s = Some v -> v ∈ u_name <$> lecturers.
Proof.
  unfold build_id_map.
  assert (Hfold : forall (us : list user_doc) (m : gmap string string),
            Forall (fun l => u_name l ∈ u_name <$> lecturers) us ->
            (forall s v, m !! s = Some v -> v ∈ u_name <$> lecturers) ->
            forall s v, foldl id_map_step m us !! s = Some v -> v ∈ u_name <$> lecturers).
  { induction us as [|l us IH]; intros m Hus Hm; simpl; [done|].
    apply Forall_cons in Hus as [Hl Hus]. apply IH; [done|].
    by apply id_map_step_values. }
  apply Hfold.
  - apply Forall_forall. intros l Hl. by apply list_elem_of_fmap_2.
  - intros s' v'. by rewrite lookup_empty.
Qed.

Lemma index_map_fold_complete (es : list (nat * lecturer)) (m0 : gmap string nat) name :
  is_Some (m0 !! name) \/ name ∈ (fun e => lec_name e.2) <$> es ->
  is_Some (foldl (fun m e => <[lec_name e.2 := e.1]> m) m0 es !! name).
Proof.
  revert m0. induction es as [|[i l] es IH]; intros m0; simpl.
  - intros [?|Hin]; [done | by apply elem_of_nil in Hin].
  - intros Hname. apply IH.
    destruct (decide (lec_name l = name)) as [<-|Hne].
    + left. by rewrite lookup_insert_eq.
    + rewrite lookup_insert_ne by done.
      destruct Hname as [?|Hin]; [by left|].
      apply elem_of_cons in Hin as [Heq|Hin]; [by simpl in Heq | by right].
Qed.

(** Every lecturer's name has an index in [lecturer_index_map]. *)
Lemma lecturer_index_map_complete lecturers name :
  name ∈ lec_name <$> lecturers -> is_Some (lecturer_index_map lecturers !! name).
Proof.
  intros Hin. unfold lecturer_index_map. apply index_map_fold_complete. right.
  apply list_elem_of_fmap in Hin as (l & -> & Hl).
  apply list_elem_of_lookup in Hl as [i Hi].
  apply list_elem_of_fmap. exists (i, l). split; [done|].
  apply elem_of_lookup_imap. eauto.
Qed.

Lemma normalize_fold id_map names sb st :
  NoDup st.1 -> Forall (fun n => n ∈ names) st.1 ->
  (forall s v, id_map !! s = Some v -> v ∈ names) ->
  NoDup (foldl (normalize_step id_map names) st sb).1
  /\ Forall (fun n => n ∈ names) (foldl (normalize_step id_map names) st sb).1
  /\ (forall n, n ∈ st.1 -> n ∈ (foldl (normalize_step id_map names) st sb).1)
  /\ (forall s v, s ∈ sb -> id_map !! s = Some v ->
        v ∈ (foldl (normalize_step id_map names) st sb).1)
  /\ (forall s, s ∈ (foldl (normalize_step id_map names) st sb).2 ->
        s ∈ st.2 \/ (s ∈ sb /\ id_map !! s = None)).
Proof.
  intros Hnodup Hnames Hvalues. revert st Hnodup Hnames.
  induction sb as [|s sb IH]; intros st Hnodup Hnames; simpl.
  - split; [done|]. split; [done|]. split; [done|]. split.
    + intros s v Hin. by apply elem_of_nil in Hin.
    + intros s Hin. by left.
  - set (st' := normalize_step id_map names st s).
    assert (Hstep : NoDup st'.1 /\ Forall (fun n => n ∈ names) st'.1
                    /\ (forall n, n ∈ st.1 -> n ∈ st'.1)
                    /\ (forall v, id_map !! s = Some v -> v ∈ st'.1)
                    /\ (forall x, x ∈ st'.2 -> x ∈ st.2 \/ (x = s /\ id_map !! s = None))).
    { unfold st', normalize_step. destruct st as [normalized not_found]. simpl in *.
      destruct (id_map !! s) as [mapped|] eqn:Hmap.
      - pose proof (Hvalues _ _ Hmap) as Hmapped.
        rewrite (bool_decide_eq_true_2 _ Hmapped). simpl.
        case_bool_decide as Hseen; simpl.
        + split; [done|]. split; [done|]. split; [done|].
          split; [by intros v [= <-] | by left].
        + split; [apply NoDup_app; split; [done|]; split;
                    [by intros x Hx ->%list_elem_of_singleton | apply NoDup_singleton]|].
          split; [apply Forall_app; split; [done | by constructor]|].
          split; [intros n Hn; apply elem_of_app; by left|].
          split; [|by left].
          intros v [= <-]. apply elem_of_app. right. by apply list_elem_of_singleton.
      - destruct (bool_decide (s ∈ names) && negb (bool_decide (s ∈ normalized))) eqn:Hdirect;
          simpl.
        + apply andb_true_iff in Hdirect as [Hs Hnew].
          apply bool_decide_eq_true in Hs. apply negb_true_iff, bool_decide_eq_false in Hnew.
          split; [apply NoDup_app; split; [done|]; split;
                    [by intros x Hx ->%list_elem_of_singleton | apply NoDup_singleton]|].
          split; [apply Forall_app; split; [done | by constructor]|].
          split; [intros n Hn; apply elem_of_app; by left|].
          split; [done | by left].
        + split; [done|]. split; [done|]. split; [done|]. split; [done|].
          intros x Hx. apply elem_of_app in Hx as [Hx|Hx]; [by left|].
          apply list_elem_of_singleton in Hx. by right. }
    destruct Hstep as (Hnodup' & Hnames' & Hmono & Hmapped & Hnot).
    destruct (IH st' Hnodup' Hnames') as (H1 & H2 & H3 & H4 & H5).
    split; [done|]. split; [done|]. split; [by intros n Hn; apply H3, Hmono|].
    split.
    + intros x v Hin Hmap. apply elem_of_cons in Hin as [->|Hin]; [|by eapply H4].
      by apply H3, Hmapped.
    + intros x Hx. destruct (H5 x Hx) as [Hold|[Hin Hnone]].
      * destruct (Hnot x Hold) as [?|[-> Hnone]]; [by left|]. right. split; [left | done].
      * right. split; [by right | done].
Qed.

Lemma normalize_one_resolves lecturers c :
  NoDup (selected_by (normalize_one lecturers c).1)
  /\ (forall name, name ∈ selected_by (normalize_one lecturers c).1 ->
        name ∈ u_name <$> lecturers
        /\ is_Some (lecturer_index_map (as_lecturer <$> lecturers) !! name))
  /\ (forall s name, s ∈ selected_list c -> build_id_map lecturers !! s = Some name ->
        name ∈ selected_by (normalize_one lecturers c).1)
  /\ (forall s, s ∈ (normalize_one lecturers c).2 ->
        s ∈ selected_list c /\ build_id_map lecturers !! s = None)
  /\ (selected_by (normalize_one lecturers c).1 <> [] ->
      forall idx,
        idx ∈ allowed_indices (as_lecturer <$> lecturers) (normalize_one lecturers c).1 ->
        exists l, lecturers !! idx = Some l
                  /\ u_name l ∈ selected_by (normalize_one lecturers c).1).
Proof.
  destruct (normalize_fold (build_id_map lecturers) (u_name <$> lecturers)
              (selected_list c) ([], []))
    as (Hnodup & Hnames & _ & Hmapped & Hnot);
    [constructor | constructor | apply build_id_map_values |].
  unfold normalize_one. cbv zeta.
  destruct (foldl _ _ (selected_list c)) as [normalized not_found]. simpl in *.
  assert (Hindex : forall name, name ∈ normalized ->
            name ∈ u_name <$> lecturers
            /\ is_Some (lecturer_index_map (as_lecturer <$> lecturers) !! name)).
  { intros name Hin. rewrite Forall_forall in Hnames. split; [by apply Hnames|].
    apply lecturer_index_map_complete. rewrite <- list_fmap_compose. by apply Hnames. }
  split; [done|]. split; [done|]. split; [done|]. split.
  - intros s Hs. destruct (Hnot s Hs) as [Hnil|?]; [by apply elem_of_nil in Hnil | done].
  - intros Hne idx Hidx.
    destruct (allowed_indices_sound _ _ _ Hidx) as (l & Hl & Hsel). simpl in Hsel.
    rewrite list_lookup_fmap in Hl.
    destruct (lecturers !! idx) as [u|] eqn:Hu; [|done]. injection Hl as <-.
    exists u. split; [done|]. apply Hsel.
    destruct normalized as [|name rest]; [done|].
    exists name. split; [left|]. apply Hindex. left.
Qed.


(** ** Sections created for the hybrid pipeline *)

Lemma py_range_unit_length n : length (py_range 1 (n + 1) 1) = Z.to_nat n.
Proof.
  unfold py_range. destruct (1 <? n + 1) eqn:Hlt.
  - rewrite length_fmap, length_seq. f_equal. rewrite Z.div_1_r. lia.
  - apply Z.ltb_ge in Hlt. simpl. lia.
Qed.

Lemma sum_app (l k : list Z) : foldr Z.add 0 (l ++ k) = foldr Z.add 0 l + foldr Z.add 0 k.
Proof. induction l as [|x l IH]; simpl; [done | rewrite IH; lia]. Qed.

Lemma sum_constant {A : Type} (f : A -> Z) (v : Z) (l : list A) :
  Forall (fun x => f x = v) l -> foldr Z.add 0 (f <$> l) = Z.of_nat (length l) * v.
Proof.
  induction 1 as [|x l Hx _ IH]; [done|].
  rewrite fmap_cons. cbn [foldr length]. rewrite IH, Hx. lia.
Qed.

Lemma filter_all {A : Type} (P : A -> bool) (l : list A) :
  (forall x, x ∈ l -> P x = true) -> List.filter P l = l.
Proof.
  induction l as [|x l IH]; intros Hall; simpl; [done|].
  rewrite (Hall x) by left. f_equal. apply IH. intros y Hy. apply Hall. by right.
Qed.

Lemma filter_none {A : Type} (P : A -> bool) (l : list A) :
  (forall x, x ∈ l -> P x = false) -> List.filter P l = [].
Proof.
  induction l as [|x l IH]; intros Hall; simpl; [done|].
  rewrite (Hall x) by left. apply IH. intros y Hy. apply Hall. by right.
Qed.

Lemma sections_of_pair_fields courses dosen_name course_id_str num_sections s :
  s ∈ sections_of_pair courses (dosen_name, course_id_str, num_sections) ->
  exists course,
    List.find (fun c => bool_decide (cd_id c = course_id_str)) courses = Some course
    /\ cd_id course = course_id_str
    /\ s = new_section course_id_str (cd_course_name course) (default 3 (cd_sks course))
             (cd_is_lab course) "A" (hs_section_number s) dosen_name (cd_is_online course)
    /\ 1 <= hs_section_number s <= num_sections.
Proof.
  unfold sections_of_pair.
  destruct (List.find _ courses) as [course|] eqn:Hfind.
  - intros Hin. apply list_elem_of_fmap in Hin as (k & -> & Hk).
    apply py_range_elem in Hk as (j & Hj & -> & Hlt); [|lia].
    exists course. split; [done|]. split; [|split; [done | simpl; lia]].
    apply find_some in Hfind as [_ Hid]. by apply bool_decide_eq_true in Hid.
  - intros Hin. by apply elem_of_nil in Hin.
Qed.

(** X19: the sections created for a lecturer carry, in total, the credits
    of the lecturer's entries in the dictionary of section counts: the count
    times the credits of the course (three when the course has none), an
    entry for an unknown course or with a count below one adding nothing.
    Every section belongs to an entry of the dictionary, is numbered from 1
    within it and named A followed by the number, has no day, and has the
    room Online exactly when the course is online. *)
Theorem created_sections_carry_the_counts courses dosen_course_sections :
  (forall lecturer,
     foldr Z.add 0
       (hs_sks <$> List.filter (fun s => bool_decide (hs_lecturer s = lecturer))
                     (create_initial_sections_hybrid courses dosen_course_sections))
     = foldr Z.add 0
         ((fun item : string * string * Z =>
             if bool_decide (item.1.1 = lecturer) then
               match List.find (fun c => bool_decide (cd_id c = item.1.2)) courses with
               | Some course => Z.max 0 item.2 * default 3 (cd_sks course)
               | None => 0
               end
             else 0) <$> dosen_course_sections))
  /\ Forall (fun s =>
               (exists num_sections,
                  (hs_lecturer s, hs_course_id s, num_sections) ∈ dosen_course_sections
                  /\ 1 <= hs_section_number s <= num_sections)
               /\ hs_section_name s = "A" +:+ Py.digits (hs_section_number s)
               /\ hs_day s = None
               /\ hs_room s = (if hs_is_online s then Some "Online" else None))
       (create_initial_sections_hybrid courses dosen_course_sections).
Proof.
  unfold create_initial_sections_hybrid. split.
  - intros lecturer.
    induction dosen_course_sections as [|[[dosen_name course_id_str] num_sections] rest IH];
      [done|].
    rewrite bind_cons, List.filter_app, fmap_app, sum_app, IH, fmap_cons. cbn [foldr].
    f_equal. simpl. unfold sections_of_pair.
    destruct (List.find _ courses) as [course|]; [|by case_bool_decide].
    case_bool_decide as Hlect.
    + rewrite filter_all.
      * rewrite <- list_fmap_compose, (sum_constant _ (default 3 (cd_sks course))).
        -- rewrite py_range_unit_length. lia.
        -- apply Forall_forall. by intros.
      * intros s Hs. apply list_elem_of_fmap in Hs as (k & -> & _). simpl.
        by apply bool_decide_eq_true.
    + rewrite filter_none; [done|].
      intros s Hs. apply list_elem_of_fmap in Hs as (k & -> & _). simpl.
      by apply bool_decide_eq_false.
  - apply Forall_forall. intros s Hin.
    apply list_elem_of_bind in Hin as ([[dosen_name course_id_str] num_sections] & Hs & Hitem).
    apply sections_of_pair_fields in Hs as (course & _ & _ & Hs & Hnum).
    rewrite Hs. simpl. split; [eauto|]. split; [done|]. split; [done|].
    by destruct (cd_is_online course).
Qed.

(** ** Start and end of a class in the earlier schedulers *)

(** X20: for every start time [get_valid_starts] offers for a duration,
    the end time [calculate_end_time] derives from it lies exactly the
    duration later, and the class stays within the morning block until 12:10
    or within the afternoon block from 14:00 until 16:30. *)
Theorem valid_start_ends_within_block day duration_minutes start :
  0 <= duration_minutes ->
  start ∈ get_valid_starts day duration_minutes ->
  exists s,
    _parse_minutes (Some start) = Some s
    /\ _parse_minutes (calculate_end_time (Some start) duration_minutes)
       = Some (s + duration_minutes)
    /\ ((480 <= s /\ s + duration_minutes <= 730)
        \/ (840 <= s /\ s + duration_minutes <= 990)).
Proof.
  intros Hduration Hin.
  assert (H8 : _parse_minutes (Some "08:00") = Some 480) by (vm_compute; reflexivity).
  assert (H14 : _parse_minutes (Some "14:00") = Some 840) by (vm_compute; reflexivity).
  assert (Hblocks : get_valid_starts day duration_minutes
                    = starts_in_block duration_minutes ("08:00", 250)
                      ++ starts_in_block duration_minutes ("14:00", 150)).
  { unfold get_valid_starts. destruct (bool_decide (day = "Jumat")); simpl;
      by rewrite app_nil_r. }
  rewrite Hblocks, elem_of_app in Hin.
  rewrite (starts_in_block_elem _ _ _ _ _ H8), (starts_in_block_elem _ _ _ _ _ H14) in Hin.
  assert (Hs : exists s, start = _minutes_to_time s
                 /\ ((480 <= s /\ s + duration_minutes <= 730)
                     \/ (840 <= s /\ s + duration_minutes <= 990))).
  { destruct Hin as [(k & Hk & -> & Hle)|(k & Hk & -> & Hle)].
    - exists (480 + 50 * k). split; [done|]. left. lia.
    - exists (840 + 50 * k). split; [done|]. right. lia. }
  destruct Hs as (s & -> & Hrange). exists s.
  assert (Hparse : _parse_minutes (Some (_minutes_to_time s)) = Some s)
    by (apply parse_minutes_of_minutes; lia).
  split; [done|]. split; [|done].
  unfold calculate_end_time. rewrite Hparse. apply parse_minutes_of_minutes. lia.
Qed.

Lemma valid_start_ends_within_block_witness :
  0 <= 100
  /\ "09:40" ∈ get_valid_starts "Senin" 100
  /\ exists s,
       _parse_minutes (Some "09:40") = Some s
       /\ _parse_minutes (calculate_end_time (Some "09:40") 100) = Some (s + 100)
       /\ ((480 <= s /\ s + 100 <= 730) \/ (840 <= s /\ s + 100 <= 990)).
Proof.
  assert (Hduration : 0 <= 100) by lia.
  assert (Hin : "09:40" ∈ get_valid_starts "Senin" 100)
    by (apply list_elem_of_In; vm_compute; auto 8).
  split; [exact Hduration|]. split; [exact Hin|].
  exact (valid_start_ends_within_block "Senin" 100 "09:40" Hduration Hin).
Defined.

(** ** Completeness of the conflict check *)

Lemma group_of_append {K V : Type} `{EqDecision K} (k k' : K) (v : V) d :
  group_of k' (group_append k v d)
  = if decide (k = k') then group_of k' d ++ [v] else group_of k' d.
Proof.
  induction d as [|[k0 vs] rest IH]; simpl.
  - destruct (decide (k' = k)), (decide (k = k')); congruence.
  - destruct (decide (k = k0)) as [->|Hne]; simpl.
    + destruct (decide (k' = k0)) as [->|Hne']; [by rewrite decide_True|].
      by rewrite decide_False by congruence.
    + destruct (decide (k' = k0)) as [->|Hne'].
      * by rewrite decide_False by done.
      * apply IH.
Qed.

Lemma group_of_elem {K V : Type} `{EqDecision K} (k : K) (d : list (K * list V)) :
  group_of k d <> [] -> (k, group_of k d) ∈ d.
Proof.
  induction d as [|[k0 vs] rest IH]; simpl; [done|].
  destruct (decide (k = k0)) as [->|Hne]; [by left | right; by apply IH].
Qed.

Lemma ordered_pairs_elem {V : Type} (a b c : list V) (x y : V) :
  (x, y) ∈ ordered_pairs (a ++ x :: b ++ y :: c).
Proof.
  induction a as [|z a IH]; simpl.
  - apply elem_of_app. left. apply list_elem_of_fmap. exists y. split; [done|].
    apply elem_of_app. right. left.
  - apply elem_of_app. by right.
Qed.

Section ConflictCompleteness.
Context `{PyInt}.

Lemma group_slots_step d rest ls rs ls' rs' :
  group_slots (d :: rest) ls rs = Some (ls', rs') ->
  exists ls1 rs1,
    group_slots rest ls1 rs1 = Some (ls', rs')
    /\ (forall k, exists tail, group_of k rs1 = group_of k rs ++ tail)
    /\ (forall k, exists tail, group_of k ls1 = group_of k ls ++ tail)
    /\ (forall day room start end_ s e,
          placed_at d day room start end_ ->
          parse_time start = Some s -> parse_time end_ = Some e ->
          (room <> "ONLINE" ->
           group_of (day, room) rs1
           = group_of (day, room) rs
             ++ [(s, e, default "Unknown" (doc_course_name d), doc_dosen d, doc_id d)])
          /\ (forall lect, doc_dosen d = Some lect -> Py.truthy lect = true ->
                group_of lect ls1
                = group_of lect ls
                  ++ [(day, s, e, default "Unknown" (doc_course_name d), room, doc_id d)])).
Proof.
  simpl.
  assert (Hskip : group_slots rest ls rs = Some (ls', rs') ->
            (forall day room start end_, ~ placed_at d day room start end_) ->
            exists ls1 rs1,
              group_slots rest ls1 rs1 = Some (ls', rs')
              /\ (forall k, exists tail, group_of k rs1 = group_of k rs ++ tail)
              /\ (forall k, exists tail, group_of k ls1 = group_of k ls ++ tail)
              /\ (forall day room start end_ s e,
                    placed_at d day room start end_ ->
                    parse_time start = Some s -> parse_time end_ = Some e ->
                    (room <> "ONLINE" ->
                     group_of (day, room) rs1
                     = group_of (day, room) rs
                       ++ [(s, e, default "Unknown" (doc_course_name d), doc_dosen d,
                            doc_id d)])
                    /\ (forall lect, doc_dosen d = Some lect -> Py.truthy lect = true ->
                          group_of lect ls1
                          = group_of lect ls
                            ++ [(day, s, e, default "Unknown" (doc_course_name d), room,
                                 doc_id d)]))).
  { intros Hrest Hnot. exists ls, rs. split; [done|].
    split; [intros k; exists []; by rewrite app_nil_r|].
    split; [intros k; exists []; by rewrite app_nil_r|].
    intros day room start end_ s e Hplaced. by destruct (Hnot _ _ _ _ Hplaced). }
  destruct (doc_day d) as [day|] eqn:Hday;
    [|intros Hrest; apply Hskip; [done|]; intros ? ? ? ? Hp;
      destruct Hp as (Hd & _); congruence].
  destruct (doc_room d) as [room|] eqn:Hroom;
    [|intros Hrest; apply Hskip; [done|]; intros ? ? ? ? Hp;
      destruct Hp as (_ & Hr & _); congruence].
  destruct (doc_start d) as [start|] eqn:Hstart;
    [|intros Hrest; apply Hskip; [done|]; intros ? ? ? ? Hp;
      destruct Hp as (_ & _ & Hs & _); congruence].
  destruct (doc_end d) as [end_|] eqn:Hend;
    [|intros Hrest; apply Hskip; [done|]; intros ? ? ? ? Hp;
      destruct Hp as (_ & _ & _ & He & _); congruence].
  destruct (Py.truthy day && Py.truthy room && Py.truthy start && Py.truthy end_)
    eqn:Hall.
  2:{ intros Hrest. apply Hskip; [done|]. intros day' room' start' end' Hp.
      destruct Hp as (Hd & Hr & Hs & He & T1 & T2 & T3 & T4).
      rewrite Hday in Hd. rewrite Hroom in Hr. rewrite Hstart in Hs. rewrite Hend in He.
      injection Hd as <-. injection Hr as <-. injection Hs as <-. injection He as <-.
      by rewrite T1, T2, T3, T4 in Hall. }
  destruct (parse_time start) as [s|] eqn:Hs; simpl; [|done].
  destruct (parse_time end_) as [e|] eqn:He; simpl; [|done].
  intros Hrest. eexists _, _. split; [exact Hrest|].
  split; [|split].
  - intros k. case_bool_decide as Honline; simpl; [exists []; by rewrite app_nil_r|].
    rewrite group_of_append. destruct (decide _); [by eexists|].
    exists []. by rewrite app_nil_r.
  - intros k. destruct (doc_dosen d) as [lecturer|]; [|exists []; by rewrite app_nil_r].
    destruct (Py.truthy lecturer); [|exists []; by rewrite app_nil_r].
    rewrite group_of_append. destruct (decide _); [by eexists|].
    exists []. by rewrite app_nil_r.
  - intros day' room' start' end' s' e' Hp Hs' He'.
    destruct Hp as (Hd & Hr & Hst & Hen & _).
    rewrite Hday in Hd. rewrite Hroom in Hr. rewrite Hstart in Hst. rewrite Hend in Hen.
    injection Hd as <-. injection Hr as <-. injection Hst as <-. injection Hen as <-.
    rewrite Hs in Hs'. rewrite He in He'. injection Hs' as <-. injection He' as <-.
    split.
    + intros Hphys. rewrite (bool_decide_eq_false_2 _ Hphys). simpl.
      rewrite group_of_append. by rewrite decide_True.
    + intros lect [= ->] Hlect. rewrite Hlect.
      rewrite group_of_append. by rewrite decide_True.
Qed.

Lemma group_slots_grows schedule ls rs ls' rs' k :
  group_slots schedule ls rs = Some (ls', rs') ->
  exists tail, group_of k rs' = group_of k rs ++ tail.
Proof.
  revert ls rs. induction schedule as [|d rest IH]; intros ls rs.
  - intros [= <- <-]. exists []. by rewrite app_nil_r.
  - intros Hrun. apply group_slots_step in Hrun as (ls1 & rs1 & Hrest & Hgrow & _).
    destruct (IH _ _ Hrest) as [tail Htail]. destruct (Hgrow k) as [tail1 Htail1].
    exists (tail1 ++ tail). by rewrite Htail, Htail1, app_assoc.
Qed.

Lemma group_slots_holds schedule ls rs ls' rs' j d day room start end_ s e :
  group_slots schedule ls rs = Some (ls', rs') ->
  schedule !! j = Some d ->
  placed_at d day room start end_ -> room <> "ONLINE" ->
  parse_time start = Some s -> parse_time end_ = Some e ->
  exists mid post,
    group_of (day, room) rs'
    = group_of (day, room) rs ++ mid
      ++ (s, e, default "Unknown" (doc_course_name d), doc_dosen d, doc_id d) :: post.
Proof.
  revert ls rs j. induction schedule as [|d0 rest IH]; intros ls rs j Hrun Hj; [done|].
  intros Hplaced Hphys Hs He.
  apply group_slots_step in Hrun as (ls1 & rs1 & Hrest & Hgrow & _ & Hadd).
  destruct j as [|j]; simpl in Hj.
  - injection Hj as ->.
    destruct (group_slots_grows _ _ _ _ _ (day, room) Hrest) as [tail Htail].
    rewrite Htail, (proj1 (Hadd _ _ _ _ _ _ Hplaced Hs He) Hphys).
    exists [], tail. by rewrite <- app_assoc.
  - destruct (IH _ _ _ Hrest Hj Hplaced Hphys Hs He) as (mid & post & Hgroup).
    destruct (Hgrow (day, room)) as [tail1 Htail1].
    exists (tail1 ++ mid), post. by rewrite Hgroup, Htail1, <- !app_assoc.
Qed.

(** X21: when two documents of the schedule have day, room, start and end,
    stand in the same physical room on the same day, and their times, as the
    check reads them, overlap, the check reports a room conflict for that
    room and day that names the two documents, the earlier one first. *)
Theorem overlapping_room_bookings_reported schedule lcs rcs i j d1 d2 day room
    start1 end1 start2 end2 s1 e1 s2 e2 :
  check_schedule_conflicts schedule = Some (lcs, rcs) ->
  (i < j)%nat -> schedule !! i = Some d1 -> schedule !! j = Some d2 ->
  placed_at d1 day room start1 end1 -> placed_at d2 day room start2 end2 ->
  room <> "ONLINE" ->
  parse_time start1 = Some s1 -> parse_time end1 = Some e1 ->
  parse_time start2 = Some s2 -> parse_time end2 = Some e2 ->
  s1 < e2 -> s2 < e1 ->
  exists c, c ∈ rcs /\ rc_room c = room /\ rc_day c = day
            /\ rc_id1 c = doc_id d1 /\ rc_id2 c = doc_id d2.
Proof.
  unfold check_schedule_conflicts.
  destruct (group_slots schedule [] []) as [[ls' rs']|] eqn:Hrun; simpl; [|done].
  intros [= <- <-] Hij Hi Hj Hp1 Hp2 Hphys Hs1 He1 Hs2 He2 Hlt1 Hlt2.
  assert (Hgroup : exists pre mid post,
            group_of (day, room) rs'
            = pre ++ (s1, e1, default "Unknown" (doc_course_name d1), doc_dosen d1, doc_id d1)
                  :: mid
                  ++ (s2, e2, default "Unknown" (doc_course_name d2), doc_dosen d2,
                      doc_id d2) :: post).
  { clear Hlt1 Hlt2. revert Hrun Hi Hj Hij. generalize (@nil (string * list (string * Z * Z * string * string * Z))).
    generalize (@nil (string * string * list (Z * Z * string * option string * Z))).
    revert i j. induction schedule as [|d0 rest IH]; intros i j rs ls Hrun Hi Hj Hij; [done|].
    apply group_slots_step in Hrun as (ls1 & rs1 & Hrest & Hgrow & _ & Hadd).
    destruct i as [|i]; simpl in Hi.
    - injection Hi as ->. destruct j as [|j]; [lia|]. simpl in Hj.
      destruct (group_slots_holds _ _ _ _ _ _ _ _ _ _ _ _ _ Hrest Hj Hp2 Hphys Hs2 He2)
        as (mid & post & Hgroup).
      rewrite Hgroup, (proj1 (Hadd _ _ _ _ _ _ Hp1 Hs1 He1) Hphys).
      exists (group_of (day, room) rs), mid, post. by rewrite <- !app_assoc.
    - destruct j as [|j]; [lia|]. simpl in Hj.
      apply (IH i j rs1 ls1 Hrest Hi Hj). lia. }
  destruct Hgroup as (pre & mid & post & Hgroup).
  exists {| rc_room := room; rc_day := day;
            rc_course1 := default "Unknown" (doc_course_name d1);
            rc_lecturer1 := doc_dosen d1; rc_time1 := time_span s1 e1;
            rc_course2 := default "Unknown" (doc_course_name d2);
            rc_lecturer2 := doc_dosen d2; rc_time2 := time_span s2 e2;
            rc_id1 := doc_id d1; rc_id2 := doc_id d2 |}.
  split; [|done].
  apply list_elem_of_bind. exists (day, room, group_of (day, room) rs'). split.
  - unfold room_conflicts_of. apply list_elem_of_omap.
    eexists (_, _). split; [rewrite Hgroup; apply ordered_pairs_elem|].
    simpl. by rewrite (proj2 (Z.ltb_lt _ _) Hlt1), (proj2 (Z.ltb_lt _ _) Hlt2).
  - apply group_of_elem. rewrite Hgroup. by destruct pre.
Qed.

Lemma group_slots_lecturer_grows schedule ls rs ls' rs' k :
  group_slots schedule ls rs = Some (ls', rs') ->
  exists tail, group_of k ls' = group_of k ls ++ tail.
Proof.
  revert ls rs. induction schedule as [|d rest IH]; intros ls rs.
  - intros [= <- <-]. exists []. by rewrite app_nil_r.
  - intros Hrun. apply group_slots_step in Hrun as (ls1 & rs1 & Hrest & _ & Hgrow & _).
    destruct (IH _ _ Hrest) as [tail Htail]. destruct (Hgrow k) as [tail1 Htail1].
    exists (tail1 ++ tail). by rewrite Htail, Htail1, app_assoc.
Qed.

Lemma group_slots_lecturer_holds schedule ls rs ls' rs' j d lect day room start end_ s e :
  group_slots schedule ls rs = Some (ls', rs') ->
  schedule !! j = Some d ->
  placed_at d day room start end_ ->
  doc_dosen d = Some lect -> Py.truthy lect = true ->
  parse_time start = Some s -> parse_time end_ = Some e ->
  exists mid post,
    group_of lect ls'
    = group_of lect ls ++ mid
      ++ (day, s, e, default "Unknown" (doc_course_name d), room, doc_id d) :: post.
Proof.
  revert ls rs j. induction schedule as [|d0 rest IH]; intros ls rs j Hrun Hj; [done|].
  intros Hplaced Hdosen Hlect Hs He.
  apply group_slots_step in Hrun as (ls1 & rs1 & Hrest & _ & Hgrow & Hadd).
  destruct j as [|j]; simpl in Hj.
  - injection Hj as ->.
    destruct (group_slots_lecturer_grows _ _ _ _ _ lect Hrest) as [tail Htail].
    rewrite Htail, (proj2 (Hadd _ _ _ _ _ _ Hplaced Hs He) _ Hdosen Hlect).
    exists [], tail. by rewrite <- app_assoc.
  - destruct (IH _ _ _ Hrest Hj Hplaced Hdosen Hlect Hs He) as (mid & post & Hgroup).
    destruct (Hgrow lect) as [tail1 Htail1].
    exists (tail1 ++ mid), post. by rewrite Hgroup, Htail1, <- !app_assoc.
Qed.

(** X22: when two documents of the schedule name the same lecturer, have
    day, room, start and end, stand on the same day, and their times, as the
    check reads them, overlap, the check reports a lecturer conflict that
    names the two documents, the earlier one first; the rooms play no part,
    so this holds for online classes as well. *)
Theorem overlapping_lecturer_classes_reported schedule lcs rcs i j d1 d2 lect day
    room1 room2 start1 end1 start2 end2 s1 e1 s2 e2 :
  check_schedule_conflicts schedule = Some (lcs, rcs) ->
  (i < j)%nat -> schedule !! i = Some d1 -> schedule !! j = Some d2 ->
  placed_at d1 day room1 start1 end1 -> placed_at d2 day room2 start2 end2 ->
  doc_dosen d1 = Some lect -> doc_dosen d2 = Some lect -> Py.truthy lect = true ->
  parse_time start1 = Some s1 -> parse_time end1 = Some e1 ->
  parse_time start2 = Some s2 -> parse_time end2 = Some e2 ->
  s1 < e2 -> s2 < e1 ->
  exists c, c ∈ lcs /\ lc_lecturer c = lect /\ lc_day c = day
            /\ lc_room1 c = room1 /\ lc_room2 c = room2
            /\ lc_id1 c = doc_id d1 /\ lc_id2 c = doc_id d2.
Proof.
  unfold check_schedule_conflicts.
  destruct (group_slots schedule [] []) as [[ls' rs']|] eqn:Hrun; simpl; [|done].
  intros [= <- <-] Hij Hi Hj Hp1 Hp2 Hd1 Hd2 Hlect Hs1 He1 Hs2 He2 Hlt1 Hlt2.
  assert (Hgroup : exists pre mid post,
            group_of lect ls'
            = pre ++ (day, s1, e1, default "Unknown" (doc_course_name d1), room1, doc_id d1)
                  :: mid
                  ++ (day, s2, e2, default "Unknown" (doc_course_name d2), room2,
                      doc_id d2) :: post).
  { clear Hlt1 Hlt2. revert Hrun Hi Hj Hij.
    generalize (@nil (string * list (string * Z * Z * string * string * Z))).
    generalize (@nil (string * string * list (Z * Z * string * option string * Z))).
    revert i j. induction schedule as [|d0 rest IH]; intros i j rs ls Hrun Hi Hj Hij; [done|].
    apply group_slots_step in Hrun as (ls1 & rs1 & Hrest & _ & Hgrow & Hadd).
    destruct i as [|i]; simpl in Hi.
    - injection Hi as ->. destruct j as [|j]; [lia|]. simpl in Hj.
      destruct (group_slots_lecturer_holds _ _ _ _ _ _ _ _ _ _ _ _ _ _ Hrest Hj Hp2 Hd2
                  Hlect Hs2 He2) as (mid & post & Hgroup).
      rewrite Hgroup, (proj2 (Hadd _ _ _ _ _ _ Hp1 Hs1 He1) _ Hd1 Hlect).
      exists (group_of lect ls), mid, post. by rewrite <- !app_assoc.
    - destruct j as [|j]; [lia|]. simpl in Hj.
      apply (IH i j rs1 ls1 Hrest Hi Hj). lia. }
  destruct Hgroup as (pre & mid & post & Hgroup).
  exists {| lc_lecturer := lect; lc_day := day;
            lc_course1 := default "Unknown" (doc_course_name d1);
            lc_room1 := room1; lc_time1 := time_span s1 e1;
            lc_course2 := default "Unknown" (doc_course_name d2);
            lc_room2 := room2; lc_time2 := time_span s2 e2;
            lc_id1 := doc_id d1; lc_id2 := doc_id d2 |}.
  split; [|done].
  apply list_elem_of_bind. exists (lect, group_of lect ls'). split.
  - unfold lecturer_conflicts_of. apply list_elem_of_omap.
    eexists (_, _). split; [rewrite Hgroup; apply ordered_pairs_elem|].
    simpl. rewrite (bool_decide_eq_true_2 (day = day) eq_refl).
    by rewrite (proj2 (Z.ltb_lt _ _) Hlt1), (proj2 (Z.ltb_lt _ _) Hlt2).
  - apply group_of_elem. rewrite Hgroup. by destruct pre.
Qed.

End ConflictCompleteness.

Lemma overlapping_room_bookings_reported_witness :
  check_schedule_conflicts double_booked = Some ([], [double_booked_conflict])
  /\ (0 < 2)%nat
  /\ double_booked !! 0%nat
     = Some (monday_doc 1 "Dosen A" "08:00" "09:40" "Infor 1" "Algoritma")
  /\ double_booked !! 2%nat
     = Some (monday_doc 5 "Dosen B" "09:00" "10:40" "Infor 1" "Kalkulus")
  /\ placed_at (monday_doc 1 "Dosen A" "08:00" "09:40" "Infor 1" "Algoritma")
       "Senin" "Infor 1" "08:00" "09:40"
  /\ placed_at (monday_doc 5 "Dosen B" "09:00" "10:40" "Infor 1" "Kalkulus")
       "Senin" "Infor 1" "09:00" "10:40"
  /\ "Infor 1" <> "ONLINE"
  /\ parse_time "08:00" = Some 480 /\ parse_time "09:40" = Some 580
  /\ parse_time "09:00" = Some 540 /\ parse_time "10:40" = Some 640
  /\ 480 < 640 /\ 540 < 580
  /\ exists c, c ∈ [double_booked_conflict] /\ rc_room c = "Infor 1" /\ rc_day c = "Senin"
       /\ rc_id1 c = doc_id (monday_doc 1 "Dosen A" "08:00" "09:40" "Infor 1" "Algoritma")
       /\ rc_id2 c = doc_id (monday_doc 5 "Dosen B" "09:00" "10:40" "Infor 1" "Kalkulus").
Proof.
  assert (Hrun : check_schedule_conflicts double_booked
                 = Some ([], [double_booked_conflict])) by (vm_compute; reflexivity).
  assert (Hij : (0 < 2)%nat) by lia.
  assert (Hi : double_booked !! 0%nat
               = Some (monday_doc 1 "Dosen A" "08:00" "09:40" "Infor 1" "Algoritma"))
    by reflexivity.
  assert (Hj : double_booked !! 2%nat
               = Some (monday_doc 5 "Dosen B" "09:00" "10:40" "Infor 1" "Kalkulus"))
    by reflexivity.
  assert (Hp1 : placed_at (monday_doc 1 "Dosen A" "08:00" "09:40" "Infor 1" "Algoritma")
                  "Senin" "Infor 1" "08:00" "09:40") by (repeat split; reflexivity).
  assert (Hp2 : placed_at (monday_doc 5 "Dosen B" "09:00" "10:40" "Infor 1" "Kalkulus")
                  "Senin" "Infor 1" "09:00" "10:40") by (repeat split; reflexivity).
  assert (Hphys : "Infor 1" <> "ONLINE") by discriminate.
  assert (Hs1 : parse_time "08:00" = Some 480) by (vm_compute; reflexivity).
  assert (He1 : parse_time "09:40" = Some 580) by (vm_compute; reflexivity).
  assert (Hs2 : parse_time "09:00" = Some 540) by (vm_compute; reflexivity).
  assert (He2 : parse_time "10:40" = Some 640) by (vm_compute; reflexivity).
  assert (Hlt1 : 480 < 640) by lia.
  assert (Hlt2 : 540 < 580) by lia.
  repeat (split; [assumption|]).
  exact (overlapping_room_bookings_reported double_booked [] [double_booked_conflict]
           0 2 _ _ "Senin" "Infor 1" "08:00" "09:40" "09:00" "10:40" 480 580 540 640
           Hrun Hij Hi Hj Hp1 Hp2 Hphys Hs1 He1 Hs2 He2 Hlt1 Hlt2).
Defined.

Lemma overlapping_lecturer_classes_reported_witness :
  check_schedule_conflicts same_lecturer_online = Some ([same_lecturer_conflict], [])
  /\ (0 < 1)%nat
  /\ same_lecturer_online !! 0%nat
     = Some (monday_doc 1 "Dosen A" "08:00" "09:40" "ONLINE" "Algoritma")
  /\ same_lecturer_online !! 1%nat
     = Some (monday_doc 2 "Dosen A" "09:00" "10:40" "ONLINE" "Basis Data")
  /\ placed_at (monday_doc 1 "Dosen A" "08:00" "09:40" "ONLINE" "Algoritma")
       "Senin" "ONLINE" "08:00" "09:40"
  /\ placed_at (monday_doc 2 "Dosen A" "09:00" "10:40" "ONLINE" "Basis Data")
       "Senin" "ONLINE" "09:00" "10:40"
  /\ doc_dosen (monday_doc 1 "Dosen A" "08:00" "09:40" "ONLINE" "Algoritma")
     = Some "Dosen A"
  /\ doc_dosen (monday_doc 2 "Dosen A" "09:00" "10:40" "ONLINE" "Basis Data")
     = Some "Dosen A"
  /\ Py.truthy "Dosen A" = true
  /\ parse_time "08:00" = Some 480 /\ parse_time "09:40" = Some 580
  /\ parse_time "09:00" = Some 540 /\ parse_time "10:40" = Some 640
  /\ 480 < 640 /\ 540 < 580
  /\ exists c, c ∈ [same_lecturer_conflict] /\ lc_lecturer c = "Dosen A"
       /\ lc_day c = "Senin" /\ lc_room1 c = "ONLINE" /\ lc_room2 c = "ONLINE"
       /\ lc_id1 c = doc_id (monday_doc 1 "Dosen A" "08:00" "09:40" "ONLINE" "Algoritma")
       /\ lc_id2 c = doc_id (monday_doc 2 "Dosen A" "09:00" "10:40" "ONLINE" "Basis Data").
Proof.
  assert (Hrun : check_schedule_conflicts same_lecturer_online
                 = Some ([same_lecturer_conflict], [])) by (vm_compute; reflexivity).
  assert (Hij : (0 < 1)%nat) by lia.
  assert (Hi : same_lecturer_online !! 0%nat
               = Some (monday_doc 1 "Dosen A" "08:00" "09:40" "ONLINE" "Algoritma"))
    by reflexivity.
  assert (Hj : same_lecturer_online !! 1%nat
               = Some (monday_doc 2 "Dosen A" "09:00" "10:40" "ONLINE" "Basis Data"))
    by reflexivity.
  assert (Hp1 : placed_at (monday_doc 1 "Dosen A" "08:00" "09:40" "ONLINE" "Algoritma")
                  "Senin" "ONLINE" "08:00" "09:40") by (repeat split; reflexivity).
  assert (Hp2 : placed_at (monday_doc 2 "Dosen A" "09:00" "10:40" "ONLINE" "Basis Data")
                  "Senin" "ONLINE" "09:00" "10:40") by (repeat split; reflexivity).
  assert (Hd1 : doc_dosen (monday_doc 1 "Dosen A" "08:00" "09:40" "ONLINE" "Algoritma")
                = Some "Dosen A") by reflexivity.
  assert (Hd2 : doc_dosen (monday_doc 2 "Dosen A" "09:00" "10:40" "ONLINE" "Basis Data")
                = Some "Dosen A") by reflexivity.
  assert (Hlect : Py.truthy "Dosen A" = true) by reflexivity.
  assert (Hs1 : parse_time "08:00" = Some 480) by (vm_compute; reflexivity).
  assert (He1 : parse_time "09:40" = Some 580) by (vm_compute; reflexivity).
  assert (Hs2 : parse_time "09:00" = Some 540) by (vm_compute; reflexivity).
  assert (He2 : parse_time "10:40" = Some 640) by (vm_compute; reflexivity).
  assert (Hlt1 : 480 < 640) by lia.
  assert (Hlt2 : 540 < 580) by lia.
  repeat (split; [assumption|]).
  exact (overlapping_lecturer_classes_reported same_lecturer_online
           [same_lecturer_conflict] [] 0 1 _ _ "Dosen A" "Senin" "ONLINE" "ONLINE"
           "08:00" "09:40" "09:00" "10:40" 480 580 540 640
           Hrun Hij Hi Hj Hp1 Hp2 Hd1 Hd2 Hlect Hs1 He1 Hs2 He2 Hlt1 Hlt2).
Defined.

(** ** What the ten-minute scan reports *)

Section ScanFacts.
Context `{PyInt}.

(** The room half of one turn of the minute loop. *)
Lemma scan_minute_rooms slot day end_ st minute :
  (room_occ (scan_minute slot day end_ st minute),
   room_conflicts (scan_minute slot day end_ st minute))
  = match doc_room slot with
    | Some r =>
        if Py.truthy r then
          let here := {| bk_course := doc_course_name slot;
                         bk_section := doc_section_name slot;
                         bk_who := doc_dosen slot;
                         bk_start := doc_start slot; bk_end := end_ |} in
          match room_occ st !! (day, r, minute) with
          | Some existing =>
              (room_occ st,
               room_conflicts st ++
                 [ {| cf_type := "room"; cf_day := day; cf_minute := minute;
                      cf_time := _minutes_to_time minute; cf_party := r;
                      cf_slot := here; cf_existing := existing |} ])
          | None => (<[(day, r, minute) := here]> (room_occ st), room_conflicts st)
          end
        else (room_occ st, room_conflicts st)
    | None => (room_occ st, room_conflicts st)
    end.
Proof.
  unfold scan_minute.
  destruct (doc_room slot) as [r|]; [destruct (Py.truthy r)|]; cbv zeta.
  - destruct (room_occ st !! (day, r, minute)); simpl;
      destruct (doc_dosen slot) as [l|]; try done;
      destruct (Py.truthy l); try done; simpl;
      by destruct (lect_occ st !! (day, l, minute)).
  - destruct (doc_dosen slot) as [l|]; [|done].
    destruct (Py.truthy l); [|done]. by destruct (lect_occ st !! (day, l, minute)).
  - destruct (doc_dosen slot) as [l|]; [|done].
    destruct (Py.truthy l); [|done]. by destruct (lect_occ st !! (day, l, minute)).
Qed.

Lemma scan_minute_keeps slot day end_ st minute :
  samples {| bk_course := doc_course_name slot; bk_section := doc_section_name slot;
             bk_who := doc_dosen slot; bk_start := doc_start slot; bk_end := end_ |}
    minute ->
  (forall d r m b, room_occ st !! (d, r, m) = Some b -> samples b m) ->
  Forall (fun c => samples (cf_slot c) (cf_minute c) /\ samples (cf_existing c) (cf_minute c))
    (room_conflicts st) ->
  (forall d r m b, room_occ (scan_minute slot day end_ st minute) !! (d, r, m) = Some b ->
     samples b m)
  /\ Forall (fun c => samples (cf_slot c) (cf_minute c)
                      /\ samples (cf_existing c) (cf_minute c))
       (room_conflicts (scan_minute slot day end_ st minute)).
Proof.
  intros Hhere Hocc Hcs.
  pose proof (scan_minute_rooms slot day end_ st minute) as Hrooms.
  destruct (doc_room slot) as [r|]; [destruct (Py.truthy r)|]; cbv zeta in Hrooms.
  - destruct (room_occ st !! (day, r, minute)) as [existing|] eqn:Hkey;
      injection Hrooms as -> ->.
    + split; [done|]. apply Forall_app. split; [done|].
      constructor; [|done]. simpl. split; [done | by eapply Hocc].
    + split; [|done]. intros d r' m b.
      destruct (decide ((day, r, minute) = (d, r', m))) as [[= <- <- <-]|Hne].
      * rewrite lookup_insert_eq. by intros [= <-].
      * rewrite lookup_insert_ne by done. apply Hocc.
  - by injection Hrooms as -> ->.
  - by injection Hrooms as -> ->.
Qed.

Lemma scan_slot_keeps st slot :
  (forall d r m b, room_occ st !! (d, r, m) = Some b -> samples b m) ->
  Forall (fun c => samples (cf_slot c) (cf_minute c) /\ samples (cf_existing c) (cf_minute c))
    (room_conflicts st) ->
  (forall d r m b, room_occ (scan_slot st slot) !! (d, r, m) = Some b -> samples b m)
  /\ Forall (fun c => samples (cf_slot c) (cf_minute c)
                      /\ samples (cf_existing c) (cf_minute c))
       (room_conflicts (scan_slot st slot)).
Proof.
  unfold scan_slot. cbv zeta.
  set (end_ := if truthy_opt (doc_end slot) then doc_end slot else _).
  destruct (doc_day slot) as [day|]; [|done].
  destruct (_parse_minutes (doc_start slot)) as [s_min|] eqn:Hs; [|done].
  destruct (_parse_minutes end_) as [e_min|] eqn:He; [|done].
  assert (Hminutes : Forall (fun m => s_min <= m < e_min /\ (m - s_min) mod 10 = 0)
                       (py_range s_min e_min 10)).
  { apply Forall_forall. intros m Hm.
    apply py_range_elem in Hm as (k & Hk & -> & Hlt); [|lia].
    split; [lia|]. replace (s_min + 10 * k - s_min) with (k * 10) by lia.
    apply Z.mod_mul. lia. }
  revert st. induction Hminutes as [|m minutes Hm _ IH]; intros st Hocc Hcs; [done|].
  simpl. apply IH; apply scan_minute_keeps; try done.
  all: exists s_min, e_min; by destruct Hm.
Qed.

(** X23: every room conflict in the report of the ten-minute scan pairs
    two bookings that both cover the reported minute and both have it among
    the minutes sampled from their start in steps of ten; so two bookings
    whose starts are not a multiple of ten minutes apart are never reported
    against each other. *)
Theorem reported_room_conflicts_share_a_sampled_minute schedule c :
  c ∈ room_conflicts_sample (build_conflict_report schedule) ->
  samples (cf_slot c) (cf_minute c)
  /\ samples (cf_existing c) (cf_minute c)
  /\ exists s s',
       _parse_minutes (bk_start (cf_slot c)) = Some s
       /\ _parse_minutes (bk_start (cf_existing c)) = Some s'
       /\ (s - s') mod 10 = 0.
Proof.
  unfold build_conflict_report. cbv zeta. simpl. intros Hin.
  apply elem_of_take in Hin as (i & Hin & _). apply list_elem_of_lookup_2 in Hin.
  assert (Hall : forall st,
            (forall d r m b, room_occ st !! (d, r, m) = Some b -> samples b m) ->
            Forall (fun c => samples (cf_slot c) (cf_minute c)
                             /\ samples (cf_existing c) (cf_minute c))
              (room_conflicts st) ->
            Forall (fun c => samples (cf_slot c) (cf_minute c)
                             /\ samples (cf_existing c) (cf_minute c))
              (room_conflicts (foldl scan_slot st schedule))).
  { clear Hin. induction schedule as [|slot rest IH]; intros st Hocc Hcs; [done|].
    simpl. destruct (scan_slot_keeps st slot Hocc Hcs). by apply IH. }
  assert (Hempty : forall (d r : string) (m : Z) (b : booking),
            (∅ : gmap (string * string * Z) booking) !! (d, r, m) = Some b -> samples b m).
  { intros d r m b. by rewrite lookup_empty. }
  pose proof (Hall {| room_occ := ∅; lect_occ := ∅; room_conflicts := [];
                      lect_conflicts := [] |} Hempty (List.Forall_nil _)) as Hfinal.
  rewrite Forall_forall in Hfinal. destruct (Hfinal c Hin) as [Hslot Hexisting].
  split; [done|]. split; [done|].
  destruct Hslot as (s & e & Hs & _ & _ & Hmod).
  destruct Hexisting as (s' & e' & Hs' & _ & _ & Hmod').
  exists s, s'. split; [done|]. split; [done|].
  replace (s - s') with ((cf_minute c - s') - (cf_minute c - s)) by lia.
  rewrite Zminus_mod, Hmod, Hmod'. done.
Qed.

End ScanFacts.

Lemma reported_room_conflicts_share_a_sampled_minute_witness :
  first_collision ∈ room_conflicts_sample (build_conflict_report double_booked)
  /\ samples (cf_slot first_collision) (cf_minute first_collision)
  /\ samples (cf_existing first_collision) (cf_minute first_collision)
  /\ exists s s',
       _parse_minutes (bk_start (cf_slot first_collision)) = Some s
       /\ _parse_minutes (bk_start (cf_existing first_collision)) = Some s'
       /\ (s - s') mod 10 = 0.
Proof.
  assert (Hin : first_collision
                ∈ room_conflicts_sample (build_conflict_report double_booked))
    by (apply list_elem_of_In; vm_compute; auto).
  split; [exact Hin|].
  exact (reported_room_conflicts_share_a_sampled_minute double_booked first_collision Hin).
Defined.

(** ** Days the engine may move a class to *)



(** ** Classes of other lecturers *)

Lemma update_one_other id f docs i d :
  docs !! i = Some d -> doc_id d <> id -> Reschedule.update_one id f docs !! i = Some d.
Proof.
  revert i. induction docs as [|d0 rest IH]; intros i; [done|]. simpl.
  case_bool_decide as Hid.
  - destruct i as [|i]; simpl; [|done]. intros [= ->]. congruence.
  - destruct i as [|i]; simpl; [done|]. apply IH.
Qed.

Lemma book_lect_elem m day v day' slot :
  slot ∈ default [] (Reschedule.book_lect m day v !! day') ->
  slot = v \/ slot ∈ default [] (m !! day').
Proof.
  unfold Reschedule.book_lect. destruct (decide (day = day')) as [->|Hne].
  - rewrite lookup_insert_eq. simpl. rewrite elem_of_app, list_elem_of_singleton. tauto.
  - rewrite lookup_insert_ne by done. by right.
Qed.

Lemma release_lect_elem st_lect st_room cid oday s e room day slot :
  slot ∈ default [] ((Reschedule.release st_lect st_room cid oday s e room).1 !! day) ->
  slot ∈ default [] (st_lect !! day).
Proof.
  unfold Reschedule.release. simpl.
  destruct (st_lect !! oday) as [slots|] eqn:Hold; [|done].
  destruct (decide (oday = day)) as [->|Hne].
  - rewrite lookup_insert_eq, Hold. simpl. intros Hin.
    apply list_elem_of_In, filter_In in Hin as [Hin _]. by apply list_elem_of_In.
  - by rewrite lookup_insert_ne.
Qed.

Lemma commit_simple_others (mine : Z -> Prop) st cid oday s e room best :
  mine cid ->
  (forall day slot, slot ∈ default [] (Reschedule.lect_sched st !! day) ->
     mine (Reschedule.ls_id slot)) ->
  (forall day slot,
     slot ∈ default [] (Reschedule.lect_sched
                          (Reschedule.commit_simple st cid oday s e room best) !! day) ->
     mine (Reschedule.ls_id slot))
  /\ forall i d, Reschedule.db st !! i = Some d -> ~ mine (doc_id d) ->
       Reschedule.db (Reschedule.commit_simple st cid oday s e room best) !! i = Some d.
Proof.
  intros Hcid Hsched. unfold Reschedule.commit_simple.
  pose proof (release_lect_elem (Reschedule.lect_sched st) (Reschedule.room_occ st)
                cid oday s e room) as Hrelease.
  destruct (Reschedule.release _ _ _ _ _ _ _) as [lect rooms]. simpl in *. split.
  - intros day slot Hin. apply book_lect_elem in Hin as [->|Hin]; [done|].
    eapply Hsched, Hrelease, Hin.
  - intros i d Hi Hother. apply update_one_other; [done|].
    intros Heq. apply Hother. by rewrite Heq.
Qed.

Lemma commit_swap_others (mine : Z -> Prop) st cid oday s e room day cs ce b
    blocker_room bs be :
  mine cid -> mine (Reschedule.ls_id b) ->
  (forall day slot, slot ∈ default [] (Reschedule.lect_sched st !! day) ->
     mine (Reschedule.ls_id slot)) ->
  (forall day' slot,
     slot ∈ default [] (Reschedule.lect_sched
                          (Reschedule.commit_swap st cid oday s e room day cs ce b
                             blocker_room bs be) !! day') ->
     mine (Reschedule.ls_id slot))
  /\ forall i d, Reschedule.db st !! i = Some d -> ~ mine (doc_id d) ->
       Reschedule.db (Reschedule.commit_swap st cid oday s e room day cs ce b
                        blocker_room bs be) !! i = Some d.
Proof.
  intros Hcid Hb Hsched. unfold Reschedule.commit_swap. cbv zeta.
  set (lect1 := Reschedule.book_lect _ day _).
  assert (Hlect1 : forall day' slot, slot ∈ default [] (lect1 !! day') ->
            mine (Reschedule.ls_id slot)).
  { intros day' slot Hin. apply book_lect_elem in Hin as [->|Hin]; [done|].
    destruct (decide (day = day')) as [->|Hne].
    - rewrite lookup_insert_eq in Hin. simpl in Hin.
      apply list_elem_of_In, filter_In in Hin as [Hin _]. apply list_elem_of_In in Hin.
      by eapply Hsched.
    - rewrite lookup_insert_ne in Hin by done. by eapply Hsched. }
  pose proof (release_lect_elem lect1) as Hrelease.
  destruct (Reschedule.release lect1 _ _ _ _ _ _) as [lect2 rooms2] eqn:Hrel.
  simpl. split.
  - intros day' slot Hin. apply book_lect_elem in Hin as [->|Hin]; [done|].
    eapply Hlect1. eapply (Hrelease _ cid oday s e room). rewrite Hrel. exact Hin.
  - intros i d Hi Hother.
    apply update_one_other; [|intros Heq; apply Hother; by rewrite Heq].
    apply update_one_other; [done|]. intros Heq. apply Hother. by rewrite Heq.
Qed.

Section OtherLecturers.
Context `{PyInt}.
Variables (lecturer_name unavailable_day : string) (unavailable_days : list string).
Variables (time_type specific_time start_time end_time : option string).
Variables (max_end_time : string) (enable_swap : bool).
Variables (prefs : preferences) (approved_blocks : list Reschedule.approved_block).
Variable course_is_lab : gmap string bool.

Lemma process_class_others (mine : Z -> Prop) affected st cls st' :
  Reschedule.process_class unavailable_day unavailable_days time_type specific_time
    start_time end_time max_end_time enable_swap prefs approved_blocks course_is_lab
    affected st cls = Some st' ->
  mine (doc_id cls) ->
  (forall day slot, slot ∈ default [] (Reschedule.lect_sched st !! day) ->
     mine (Reschedule.ls_id slot)) ->
  (forall day slot, slot ∈ default [] (Reschedule.lect_sched st' !! day) ->
     mine (Reschedule.ls_id slot))
  /\ forall i d, Reschedule.db st !! i = Some d -> ~ mine (doc_id d) ->
       Reschedule.db st' !! i = Some d.
Proof.
  unfold Reschedule.process_class. cbv zeta. intros Hrun Hcid Hsched. revert Hrun.
  destruct (doc_day cls) as [oday|]; simpl; [|done].
  destruct (doc_start cls) as [s|]; simpl; [|done].
  destruct (doc_end cls) as [e|]; simpl; [|done].
  destruct (Reschedule.t2m e) as [e_min|]; simpl; [|done].
  destruct (Reschedule.t2m s) as [s_min|]; simpl; [|done].
  destruct (Reschedule.generate_candidates _ _) as [cand_times|]; simpl; [|done].
  destruct (Reschedule.try_simple _ _ _ _ _ _ _ _ _ _ _ _ _ _ _ _ _ _)
    as [[st1|]|] eqn:Hsimple; simpl; [| |done].
  { intros [= <-]. apply try_simple_commit in Hsimple as [best ->].
    by apply commit_simple_others. }
  destruct (if enable_swap then _ else _) as [[st2|]|] eqn:Hswap; simpl; [| |done].
  - intros [= <-]. destruct enable_swap; [|done].
    apply first_opt_Some in Hswap as (slot & _ & Hat).
    apply swap_at_commit in Hat as (day & cs & ce & b & blocker_room & bs & be & -> & Hb).
    apply commit_swap_others; [done | by eapply Hsched | done].
  - intros [= <-]. by split.
Qed.

Lemma initial_lect_sched_mine docs day slot :
  slot ∈ default [] (Reschedule.initial_lect_sched lecturer_name docs !! day) ->
  exists d, d ∈ docs /\ doc_id d = Reschedule.ls_id slot
            /\ doc_dosen d = Some lecturer_name.
Proof.
  unfold Reschedule.initial_lect_sched.
  assert (Hfold : forall (seen : list schedule_doc) (m : gmap string (list Reschedule.lect_slot)),
            (forall day slot, slot ∈ default [] (m !! day) ->
               exists d, d ∈ docs /\ doc_id d = Reschedule.ls_id slot
                         /\ doc_dosen d = Some lecturer_name) ->
            Forall (fun d => d ∈ docs) seen ->
            forall day slot,
              slot ∈ default []
                (foldl (fun m d =>
                          if bool_decide (doc_dosen d = Some lecturer_name) then
                            match doc_day d with
                            | Some day =>
                                if Py.truthy day
                                then Reschedule.book_lect m day
                                       {| Reschedule.ls_start := doc_start d;
                                          Reschedule.ls_end := doc_end d;
                                          Reschedule.ls_id := doc_id d;
                                          Reschedule.ls_room := doc_room d |}
                                else m
                            | None => m
                            end
                          else m) m seen !! day) ->
              exists d, d ∈ docs /\ doc_id d = Reschedule.ls_id slot
                        /\ doc_dosen d = Some lecturer_name).
  { induction seen as [|d seen IH]; intros m Hm Hseen; simpl; [apply Hm|].
    apply Forall_cons in Hseen as [Hd Hseen]. apply IH; [|done].
    case_bool_decide as Hdosen; [|done].
    destruct (doc_day d) as [day'|]; [|done].
    destruct (Py.truthy day'); [|done].
    intros day0 slot0 Hin. apply book_lect_elem in Hin as [->|Hin]; [|by eapply Hm].
    exists d. by repeat split. }
  apply Hfold.
  - intros day0 slot0. rewrite lookup_empty. simpl. by intros ?%elem_of_nil.
  - by apply Forall_forall.
Qed.

(** X25: when the documents have distinct identities, a run of the engine
    leaves every document of another lecturer exactly as it was, at its
    place in the collection. *)
Theorem reschedule_leaves_other_lecturers docs r i d :
  Reschedule._reschedule_lecturer_classes_v2 lecturer_name unavailable_day unavailable_days
    time_type specific_time start_time end_time max_end_time enable_swap prefs
    approved_blocks course_is_lab docs = Some r ->
  NoDup (doc_id <$> docs) ->
  docs !! i = Some d -> doc_dosen d <> Some lecturer_name ->
  Reschedule.res_db r !! i = Some d.
Proof.
  intros Hrun Hids Hi Hother.
  set (mine := fun id : Z =>
         exists d', d' ∈ docs /\ doc_id d' = id /\ doc_dosen d' = Some lecturer_name).
  assert (Hnot : ~ mine (doc_id d)).
  { intros (d' & Hd' & Hid & Hdosen).
    apply list_elem_of_lookup in Hd' as [j Hj].
    assert (i = j) as ->.
    { eapply NoDup_lookup; [exact Hids | |].
      - by rewrite list_lookup_fmap, Hi.
      - rewrite list_lookup_fmap, Hj. simpl. by rewrite Hid. }
    congruence. }
  revert Hrun. unfold Reschedule._reschedule_lecturer_classes_v2. cbv zeta.
  set (raw := Reschedule.source_days unavailable_day unavailable_days ≫= _).
  destruct (Reschedule.filter_opt _ raw) as [affected|] eqn:Haffected; simpl; [|done].
  case_bool_decide as Hempty; [by intros [= <-]|].
  destruct (Reschedule.t2m max_end_time) as [limit|]; simpl; [|done].
  destruct (foldl _ _ affected) as [st|] eqn:Hfold; simpl; [|done].
  intros [= <-]. simpl.
  assert (Hmine : Forall (fun cls => mine (doc_id cls)) affected).
  { apply filter_opt_filter in Haffected as [-> _]. apply Forall_forall. intros cls Hcls.
    apply list_elem_of_In, filter_In in Hcls as [Hcls _]. apply list_elem_of_In in Hcls.
    unfold raw in Hcls. apply list_elem_of_bind in Hcls as (day & Hcls & _).
    apply list_elem_of_In, filter_In in Hcls as [Hcls Hkeep]. apply list_elem_of_In in Hcls.
    apply andb_true_iff in Hkeep as [Hdosen _]. apply bool_decide_eq_true in Hdosen.
    by exists cls. }
  assert (Hall : forall (classes : list schedule_doc) st0 st1,
            Forall (fun cls => mine (doc_id cls)) classes ->
            foldl (fun acc cls =>
                     st ← acc;
                     Reschedule.process_class unavailable_day unavailable_days time_type
                       specific_time start_time end_time max_end_time enable_swap prefs
                       approved_blocks course_is_lab affected st cls)
              (Some st0) classes = Some st1 ->
            (forall day slot, slot ∈ default [] (Reschedule.lect_sched st0 !! day) ->
               mine (Reschedule.ls_id slot)) ->
            Reschedule.db st0 !! i = Some d -> Reschedule.db st1 !! i = Some d).
  { induction classes as [|cls rest IH]; intros st0 st1 Hclasses; simpl.
    - by intros [= <-].
    - apply Forall_cons in Hclasses as [Hcls Hrest].
      destruct (Reschedule.process_class _ _ _ _ _ _ _ _ _ _ _ affected st0 cls)
        as [st'|] eqn:Hstep.
      + intros Hrun Hsched Hdb.
        destruct (process_class_others mine _ _ _ _ Hstep Hcls Hsched) as [Hsched' Hdb'].
        apply (IH st' st1 Hrest Hrun Hsched'). by apply Hdb'.
      + intros Hrun. exfalso. clear -Hrun.
        induction rest as [|c l IHl]; simpl in Hrun; [done | by apply IHl]. }
  eapply (Hall affected _ st Hmine Hfold); simpl; [|done].
  intros day slot Hin. by apply initial_lect_sched_mine in Hin.
Qed.

End OtherLecturers.

Lemma reschedule_leaves_other_lecturers_witness :
  Reschedule._reschedule_lecturer_classes_v2 "Dosen B" "Senin" ["Senin"] None None None
    None "17:00" true no_preferences [] ∅ monday_timetable = Some whole_monday_result
  /\ NoDup (doc_id <$> monday_timetable)
  /\ monday_timetable !! 0%nat
     = Some (monday_doc 1 "Dosen A" "08:00" "09:40" "Infor 1" "Algoritma")
  /\ doc_dosen (monday_doc 1 "Dosen A" "08:00" "09:40" "Infor 1" "Algoritma")
     <> Some "Dosen B"
  /\ Reschedule.res_db whole_monday_result !! 0%nat
     = Some (monday_doc 1 "Dosen A" "08:00" "09:40" "Infor 1" "Algoritma").
Proof.
  assert (Hrun : Reschedule._reschedule_lecturer_classes_v2 "Dosen B" "Senin" ["Senin"]
                   None None None None "17:00" true no_preferences [] ∅ monday_timetable
                 = Some whole_monday_result) by (vm_compute; reflexivity).
  assert (Hids : NoDup (doc_id <$> monday_timetable)).
  { apply (bool_decide_unpack _). vm_compute. exact I. }
  assert (Hi : monday_timetable !! 0%nat
               = Some (monday_doc 1 "Dosen A" "08:00" "09:40" "Infor 1" "Algoritma"))
    by reflexivity.
  assert (Hother : doc_dosen (monday_doc 1 "Dosen A" "08:00" "09:40" "Infor 1" "Algoritma")
                   <> Some "Dosen B") by discriminate.
  split; [exact Hrun|]. split; [exact Hids|]. split; [exact Hi|]. split; [exact Hother|].
  exact (reschedule_leaves_other_lecturers "Dosen B" "Senin" ["Senin"] None None None None
           "17:00" true no_preferences [] ∅ monday_timetable whole_monday_result 0 _
           Hrun Hids Hi Hother).
Defined.

(** ** Online sections on Wednesday *)

Lemma dict_set_Forall {K V : Type} `{EqDecision K} (P : K * V -> Prop) k v d :
  (forall k', P (k', v)) -> Forall P d -> Forall P (dict_set k v d).
Proof.
  intros Hv. induction 1 as [|[k0 v0] rest Hx Hrest IH]; simpl.
  - by constructor.
  - destruct (decide (k = k0)); constructor; done.
Qed.

(** What holds of the state between two sections. *)
Section OnlinePackingFacts.
Context `{PyInt}.

Lemma place_at_keeps st si lect start end_ next :
  online_conflict (pk_lecturer_calendar st) lect start end_ = Some false ->
  Forall (fun e : nat * (string * string * string) =>
            e.2.1.1 = ONLINE_DAY /\ e.2.1.2 = "ONLINE") (pk_schedule_result st) ->
  Forall (fun key : string * string * string * string => key.1.1.2 = ONLINE_DAY)
    (pk_lecturer_calendar st) ->
  (forall i j l d s e d' s' e', (i < j)%nat ->
     pk_lecturer_calendar st !! i = Some (l, d, s, e) ->
     pk_lecturer_calendar st !! j = Some (l, d', s', e') ->
     times_overlap s' e' s e = Some false) ->
  Forall (fun e : nat * (string * string * string) =>
            e.2.1.1 = ONLINE_DAY /\ e.2.1.2 = "ONLINE")
    (pk_schedule_result (place_at st si lect start end_ next))
  /\ Forall (fun key : string * string * string * string => key.1.1.2 = ONLINE_DAY)
       (pk_lecturer_calendar (place_at st si lect start end_ next))
  /\ (forall i j l d s e d' s' e', (i < j)%nat ->
        pk_lecturer_calendar (place_at st si lect start end_ next) !! i = Some (l, d, s, e) ->
        pk_lecturer_calendar (place_at st si lect start end_ next) !! j
        = Some (l, d', s', e') ->
        times_overlap s' e' s e = Some false).
Proof.
  intros Hfree Hresult Hdays Hpairs. unfold place_at. simpl.
  split; [by apply dict_set_Forall|].
  unfold keys_add. destruct (decide _) as [Hold|Hnew]; [done|].
  split; [apply Forall_app; split; [done | by constructor]|].
  intros i j l d s e d' s' e' Hij Hi Hj.
  assert (Hlen : (j < length (pk_lecturer_calendar st) + 1)%nat).
  { apply lookup_lt_Some in Hj. by rewrite length_app in Hj. }
  destruct (decide (j < length (pk_lecturer_calendar st))%nat) as [Hjold|Hjnew].
  - rewrite lookup_app_l in Hi by lia. rewrite lookup_app_l in Hj by lia.
    exact (Hpairs i j l d s e d' s' e' Hij Hi Hj).
  - rewrite lookup_app_l in Hi by lia. rewrite lookup_app_r in Hj by lia.
    replace (j - length (pk_lecturer_calendar st))%nat with 0%nat in Hj by lia.
    injection Hj as <- <- <- <-.
    pose proof (any_opt_false _ _ Hfree _ (list_elem_of_lookup_2 _ _ _ Hi)) as Hkey.
    simpl in Hkey. rewrite Forall_forall in Hdays.
    pose proof (Hdays _ (list_elem_of_lookup_2 _ _ _ Hi)) as Hday. simpl in Hday.
    by rewrite !bool_decide_eq_true_2 in Hkey by done.
Qed.

Lemma place_online_keeps st item st' :
  place_online st item = Some st' ->
  Forall (fun e : nat * (string * string * string) =>
            e.2.1.1 = ONLINE_DAY /\ e.2.1.2 = "ONLINE") (pk_schedule_result st) ->
  Forall (fun key : string * string * string * string => key.1.1.2 = ONLINE_DAY)
    (pk_lecturer_calendar st) ->
  (forall i j l d s e d' s' e', (i < j)%nat ->
     pk_lecturer_calendar st !! i = Some (l, d, s, e) ->
     pk_lecturer_calendar st !! j = Some (l, d', s', e') ->
     times_overlap s' e' s e = Some false) ->
  (pk_placed_count st' + length (pk_failed_sections st')
   = S (pk_placed_count st + length (pk_failed_sections st)))%nat
  /\ Forall (fun e : nat * (string * string * string) =>
               e.2.1.1 = ONLINE_DAY /\ e.2.1.2 = "ONLINE") (pk_schedule_result st')
  /\ Forall (fun key : string * string * string * string => key.1.1.2 = ONLINE_DAY)
       (pk_lecturer_calendar st')
  /\ (forall i j l d s e d' s' e', (i < j)%nat ->
        pk_lecturer_calendar st' !! i = Some (l, d, s, e) ->
        pk_lecturer_calendar st' !! j = Some (l, d', s', e') ->
        times_overlap s' e' s e = Some false).
Proof.
  intros Hrun Hresult Hdays Hpairs. revert Hrun.
  unfold place_online. destruct item as [[si sks_field] lect]. cbv zeta.
  destruct (parse_time_to_minutes "17:00") as [limit|]; simpl; [|done].
  set (sequential := if _ <=? limit then _ else _).
  destruct sequential as [[[start end_]|]|] eqn:Hseq; simpl; [| |done].
  - intros [= <-]. split; [simpl; lia|]. apply place_at_keeps; try done.
    unfold sequential in Hseq. destruct (_ <=? limit); [|done].
    destruct (online_conflict _ lect _ _) as [[|]|] eqn:Hfree; simpl in Hseq; try done.
    by injection Hseq as <- <-.
  - destruct (Reschedule.first_opt _ _) as [[[start end_]|]|] eqn:Hfound; simpl; [| |done].
    + intros [= <-]. split; [simpl; lia|]. apply place_at_keeps; try done.
      apply first_opt_Some in Hfound as (tb & _ & Htb).
      destruct (Py.split "-" tb) as [|a [|b [|c parts]]]; try done.
      destruct (online_conflict _ lect a b) as [[|]|] eqn:Hfree; simpl in Htb; try done.
      by injection Htb as <- <-.
    + intros [= <-]. simpl. split; [rewrite length_app; simpl; lia | done].
Qed.

(** X26: when the first step of the greedy placement returns, every online
    section has been placed or listed as failed, every placement is on
    Wednesday in the room ONLINE, and no two entries of one lecturer in the
    lecturer calendar overlap. *)
Theorem online_sections_do_not_clash online_sections_sorted st :
  place_online_sections online_sections_sorted = Some st ->
  (pk_placed_count st + length (pk_failed_sections st) = length online_sections_sorted)%nat
  /\ Forall (fun e : nat * (string * string * string) =>
               e.2.1.1 = ONLINE_DAY /\ e.2.1.2 = "ONLINE") (pk_schedule_result st)
  /\ Forall (fun key : string * string * string * string => key.1.1.2 = ONLINE_DAY)
       (pk_lecturer_calendar st)
  /\ (forall i j l d s e d' s' e', (i < j)%nat ->
        pk_lecturer_calendar st !! i = Some (l, d, s, e) ->
        pk_lecturer_calendar st !! j = Some (l, d', s', e') ->
        times_overlap s' e' s e = Some false).
Proof.
  unfold place_online_sections.
  destruct (parse_time_to_minutes ONLINE_START_TIME) as [first|]; simpl; [|done].
  assert (Hall : forall items st0 st1,
            foldl (fun acc item => st ← acc; place_online st item) (Some st0) items
            = Some st1 ->
            Forall (fun e : nat * (string * string * string) =>
                      e.2.1.1 = ONLINE_DAY /\ e.2.1.2 = "ONLINE") (pk_schedule_result st0) ->
            Forall (fun key : string * string * string * string => key.1.1.2 = ONLINE_DAY)
              (pk_lecturer_calendar st0) ->
            (forall i j l d s e d' s' e', (i < j)%nat ->
               pk_lecturer_calendar st0 !! i = Some (l, d, s, e) ->
               pk_lecturer_calendar st0 !! j = Some (l, d', s', e') ->
               times_overlap s' e' s e = Some false) ->
            (pk_placed_count st1 + length (pk_failed_sections st1)
             = pk_placed_count st0 + length (pk_failed_sections st0) + length items)%nat
            /\ Forall (fun e : nat * (string * string * string) =>
                         e.2.1.1 = ONLINE_DAY /\ e.2.1.2 = "ONLINE") (pk_schedule_result st1)
            /\ Forall (fun key : string * string * string * string =>
                         key.1.1.2 = ONLINE_DAY) (pk_lecturer_calendar st1)
            /\ (forall i j l d s e d' s' e', (i < j)%nat ->
                  pk_lecturer_calendar st1 !! i = Some (l, d, s, e) ->
                  pk_lecturer_calendar st1 !! j = Some (l, d', s', e') ->
                  times_overlap s' e' s e = Some false)).
  { induction items as [|item rest IH]; intros st0 st1; simpl.
    - intros [= <-] H1 H2 H3. split; [lia | done].
    - destruct (place_online st0 item) as [st'|] eqn:Hstep.
      + intros Hrest H1 H2 H3.
        destruct (place_online_keeps _ _ _ Hstep H1 H2 H3) as (Hc & H1' & H2' & H3').
        destruct (IH _ _ Hrest H1' H2' H3') as (Hc' & Hr). split; [lia | done].
      + intros Hrest. exfalso. clear -Hrest.
        induction rest as [|c l IHl]; simpl in Hrest; [done | by apply IHl]. }
  intros Hrun. apply Hall in Hrun; simpl; try done.
Qed.

End OnlinePackingFacts.

Lemma online_sections_do_not_clash_witness :
  place_online_sections online_sections_sample = Some online_sections_packed
  /\ (pk_placed_count online_sections_packed
      + length (pk_failed_sections online_sections_packed)
      = length online_sections_sample)%nat
  /\ Forall (fun e : nat * (string * string * string) =>
               e.2.1.1 = ONLINE_DAY /\ e.2.1.2 = "ONLINE")
       (pk_schedule_result online_sections_packed)
  /\ Forall (fun key : string * string * string * string => key.1.1.2 = ONLINE_DAY)
       (pk_lecturer_calendar online_sections_packed)
  /\ (forall i j l d s e d' s' e', (i < j)%nat ->
        pk_lecturer_calendar online_sections_packed !! i = Some (l, d, s, e) ->
        pk_lecturer_calendar online_sections_packed !! j = Some (l, d', s', e') ->
        times_overlap s' e' s e = Some false).
Proof.
  assert (Hrun : place_online_sections online_sections_sample
                 = Some online_sections_packed) by (vm_compute; reflexivity).
  split; [exact Hrun|].
  exact (online_sections_do_not_clash online_sections_sample online_sections_packed Hrun).
Defined.

(** ** Fitness of section counts within the band *)

Lemma section_counts_fold_in_band info names individual penalty :
  in_band info names individual ->
  exists penalty',
    foldl (section_counts_step info individual) (penalty, 0%nat) names = (penalty', 0%nat)
    /\ penalty - 5000 * Z.of_nat (length names) <= penalty' <= penalty.
Proof.
  revert penalty. induction names as [|name rest IH]; intros penalty Hband; simpl.
  - exists penalty. split; [done | lia].
  - assert (Hrest : in_band info rest individual).
    { intros other Hin. apply Hband. by right. }
    assert (Hname := Hband name ltac:(left)).
    unfold MIN_SKS_PER_DOSEN, MAX_SKS_PER_DOSEN in *.
    destruct (dosen_sks info individual name =? 0) eqn:Hzero.
    + destruct (IH penalty Hrest) as (p & Hp & Hbound). exists p. split; [done | lia].
    + apply Z.eqb_neq in Hzero. destruct Hname as [?|[Hlo Hhi]]; [done|].
      rewrite (proj2 (Z.ltb_ge _ _) Hlo), (proj2 (Z.ltb_ge _ _) Hhi).
      destruct (IH (penalty - (5 - Z.abs (dosen_sks info individual name - 10)) * 1000)
                  Hrest) as (p & Hp & Hbound).
      exists p. split; [done | lia].
Qed.

(** X27: section counts under which every lecturer has no load or a load
    of 8 to 12 credits carry no violation penalty: their fitness is a pure
    reward, between minus 5000 per lecturer and zero. *)
Theorem in_band_counts_carry_no_penalty individual pairs courses_list lecturers_list info :
  mapM (gene_info courses_list lecturers_list) (take (length individual) pairs) = Some info ->
  in_band info (dict_keys (lec_name <$> lecturers_list) []) individual ->
  exists fitness,
    evaluate_section_counts individual pairs courses_list lecturers_list = Some fitness
    /\ foldl (section_counts_step info individual) (0, 0%nat)
         (dict_keys (lec_name <$> lecturers_list) []) = (fitness, 0%nat)
    /\ - 5000 * Z.of_nat (length (dict_keys (lec_name <$> lecturers_list) [])) <= fitness <= 0.
Proof.
  intros Hinfo Hband.
  destruct (section_counts_fold_in_band info _ individual 0 Hband) as (p & Hp & Hbound).
  exists p. unfold evaluate_section_counts, section_counts_fitness.
  rewrite Hinfo. simpl. rewrite Hp. simpl. split; [done|]. split; [done | lia].
Qed.

Lemma in_band_counts_carry_no_penalty_witness :
  mapM (gene_info repair_courses sample_lecturers) (take (length [3; 4]) repair_pairs)
  = Some [("Dosen A", 3); ("Dosen B", 2)]
  /\ in_band [("Dosen A", 3); ("Dosen B", 2)]
       (dict_keys (lec_name <$> sample_lecturers) []) [3; 4]
  /\ exists fitness,
       evaluate_section_counts [3; 4] repair_pairs repair_courses sample_lecturers
       = Some fitness
       /\ foldl (section_counts_step [("Dosen A", 3); ("Dosen B", 2)] [3; 4]) (0, 0%nat)
            (dict_keys (lec_name <$> sample_lecturers) []) = (fitness, 0%nat)
       /\ - 5000 * Z.of_nat (length (dict_keys (lec_name <$> sample_lecturers) []))
          <= fitness <= 0.
Proof.
  assert (Hinfo : mapM (gene_info repair_courses sample_lecturers)
                    (take (length [3; 4]) repair_pairs)
                  = Some [("Dosen A", 3); ("Dosen B", 2)]) by (vm_compute; reflexivity).
  assert (Hband : in_band [("Dosen A", 3); ("Dosen B", 2)]
                    (dict_keys (lec_name <$> sample_lecturers) []) [3; 4]).
  { intros name Hin. right.
    apply elem_of_cons in Hin as [->|Hin]; [vm_compute; split; discriminate|].
    apply elem_of_cons in Hin as [->|Hin]; [vm_compute; split; discriminate|].
    by apply elem_of_nil in Hin. }
  split; [exact Hinfo|]. split; [exact Hband|].
  exact (in_band_counts_carry_no_penalty [3; 4] repair_pairs repair_courses
           sample_lecturers _ Hinfo Hband).
Defined.
